(** * GoogleCalendarIntegration: credential lifecycle, event formatting and
      the Lambda entry point, embedded from the Python sources

    Sources embedded here:
    - [calendar_api.py]            ([GoogleCalendarAPI])
    - [get_calendar_events.py]     ([authenticate_google_calendar],
                                    [format_event])
    - [lambda-package/lambda_calendar_api.py] ([LambdaGoogleCalendarAPI])
    - [lambda_function.py]         ([lambda_handler])
    - [calendar_analysis_local.py] ([categorize_events], [analyze_events])

    Python code that prints, touches files, calls AWS Parameter Store or the
    OAuth token endpoint and may raise is written in a small monad [M]: a
    computation takes the state of the outside world, and gives back a value
    or a raised exception, the new world, and the list of effects it
    performed, in order. *)

From Stdlib Require Import ZArith String Ascii List Bool Lia.
From stdpp Require Import base option list gmap strings.

Set Warnings "-register-all".

Local Open Scope string_scope.
Local Open Scope Z_scope.
Local Open Scope list_scope.

(* ===================================================================== *)
(** ** Python values, exceptions and results                              *)
(* ===================================================================== *)

(** The exception classes the sources raise or may receive from their
    libraries.  All of them derive from Python's [Exception]. *)
Inductive exn_class :=
| FileNotFoundError | PermissionError | ValueError | TypeError | KeyError
| AttributeError | OverflowError | RefreshError | ClientError | OtherError.

Record exn := Exn { exn_cls : exn_class; exn_str : string }.

(** [repr(s)] of a text: the text in single quotes, or in double quotes
    when it has a single quote and no double quote, with backslashes,
    the quote used and control characters escaped. *)
Definition single_quote : ascii := ascii_of_nat 39.
Definition double_quote : ascii := ascii_of_nat 34.
Definition backslash : ascii := ascii_of_nat 92.

Fixpoint has_char (c : ascii) (s : string) : bool :=
  match s with
  | EmptyString => false
  | String a rest => Ascii.eqb a c || has_char c rest
  end.

Definition hex_digit (n : nat) : ascii :=
  ascii_of_nat (if (n <? 10)%nat then 48 + n else 87 + n).

Definition escaped (quote a : ascii) : string :=
  let n := nat_of_ascii a in
  if Ascii.eqb a backslash then String backslash (String backslash EmptyString)
  else if Ascii.eqb a quote then String backslash (String quote EmptyString)
  else if (n =? 9)%nat then String backslash "t"
  else if (n =? 10)%nat then String backslash "n"
  else if (n =? 13)%nat then String backslash "r"
  else if (n <? 32)%nat || (n =? 127)%nat then
    String backslash
      (String "x" (String (hex_digit (n / 16)) (String (hex_digit (n mod 16)) EmptyString)))
  else String a EmptyString.

Fixpoint escape_all (quote : ascii) (s : string) : string :=
  match s with
  | EmptyString => EmptyString
  | String a rest => escaped quote a +:+ escape_all quote rest
  end.

Definition py_repr (s : string) : string :=
  let quote :=
    if has_char single_quote s && negb (has_char double_quote s)
    then double_quote else single_quote in
  String quote (escape_all quote s +:+ String quote EmptyString).

(** [str(e)]: the message of the exception; for a [KeyError], whose
    message here is the key, the repr of the key. *)
Definition str (e : exn) : string :=
  match exn_cls e with
  | KeyError => py_repr (exn_str e)
  | _ => exn_str e
  end.

Inductive result (A : Type) :=
| Ok (a : A)
| Raise (e : exn).
Arguments Ok {A} a.
Arguments Raise {A} e.

Definition is_ok {A} (r : result A) : bool :=
  match r with Ok _ => true | Raise _ => false end.

(** JSON-like Python values: what [json.loads] yields and [json.dumps]
    accepts.  A dict keeps its items in insertion order. *)
Inductive pyval :=
| PNone
| PBool (b : bool)
| PInt (z : Z)
| PStr (s : string)
| PList (l : list pyval)
| PDict (d : list (string * pyval)).

(** Truthiness of a string ([if s:]), of an optional string
    ([if creds.refresh_token:]). *)
Definition str_truthy (s : string) : bool := negb (String.eqb s "").

Definition opt_truthy (o : option string) : bool :=
  match o with Some s => str_truthy s | None => false end.

(* ===================================================================== *)
(** ** Credentials (google.oauth2.credentials.Credentials)               *)
(* ===================================================================== *)

(** The attributes of a credentials object that the sources read or that
    [to_json] stores.  [expiry] is in seconds; [scopes] is the scope list
    attached to the object. *)
Record Credentials := mkCreds {
  token : option string;
  refresh_token : option string;
  expiry : option Z;
  scopes : list string;
}.

(** google-auth's [REFRESH_THRESHOLD], 3 minutes 45 seconds: a token is
    reported expired that long before its expiry. *)
Definition REFRESH_THRESHOLD : Z := 225.

(** [creds.expired]: false without an expiry, otherwise whether the clock
    [now] has reached the expiry less the refresh threshold. *)
Definition expired (now : Z) (c : Credentials) : bool :=
  match expiry c with
  | None => false
  | Some e => e - REFRESH_THRESHOLD <=? now
  end.

(** [creds.valid]: an access token is held and it is not expired. *)
Definition valid (now : Z) (c : Credentials) : bool :=
  match token c with
  | None => false
  | Some _ => negb (expired now c)
  end.

(** The text of a file or of a stored parameter: either the [to_json()]
    serialisation of a credentials object, or any other text (which
    [json.loads] followed by [from_authorized_user_info] rejects).
    [to_json()] writes the client id and secret and, of the token, the
    refresh token and the expiry, those that are not [None]: a field that
    is [None] in [TokenJson c] is a key the text does not have. *)
Inductive Text :=
| Raw (s : string)
| TokenJson (c : Credentials).

(** [creds.to_json()] *)
Definition to_json (c : Credentials) : Text := TokenJson c.

(** [if token_json:] on a text *)
Definition text_truthy (t : Text) : bool :=
  match t with
  | Raw s => str_truthy s
  | TokenJson _ => true
  end.

(** [Credentials.from_authorized_user_info(json.loads(text), scopes)] at
    the instant [now]: a record without the key refresh_token is refused;
    a record without expiry is given the expiry [now] less the refresh
    threshold, so that it counts as expired; the scopes given by the
    caller are attached to the object whatever scopes the stored record
    lists: the stored scopes are not consulted. *)
Definition from_authorized_user_info (now : Z) (t : Text) (required : list string)
  : result Credentials :=
  match t with
  | Raw _ => Raise (Exn ValueError "Authorized user info was not in the expected format")
  | TokenJson c =>
      match refresh_token c with
      | None =>
          Raise (Exn ValueError
                   "Authorized user info was not in the expected format, missing fields refresh_token.")
      | Some _ =>
          Ok (mkCreds (token c) (refresh_token c)
                (Some (match expiry c with
                       | Some e => e
                       | None => now - REFRESH_THRESHOLD
                       end))
                required)
      end
  end.

(** What the token endpoint answers to a refresh: a new access token and
    expiry, and a new refresh token when the provider rotates it. *)
Record RefreshReply := mkReply {
  new_token : string;
  new_expiry : Z;
  rotated_refresh_token : option string;
}.

(** The in-place update [creds.refresh] performs on a successful reply. *)
Definition apply_refresh (c : Credentials) (r : RefreshReply) : Credentials :=
  mkCreds (Some (new_token r))
          (match rotated_refresh_token r with
           | Some rt => Some rt
           | None => refresh_token c
           end)
          (Some (new_expiry r))
          (scopes c).

(** The scopes every module requests. *)
Definition SCOPES : list string :=
  ["https://www.googleapis.com/auth/calendar.readonly"].

(* ===================================================================== *)
(** ** The outside world and the effect monad                            *)
(* ===================================================================== *)

(** A file that exists is readable with some text, or is not readable
    (the [open] call for reading raises). *)
Inductive File :=
| Readable (t : Text)
| Unreadable.

(** How writing to a path fails, when it does: [open(path, 'w')] raises
    and the path is left as it was, or the file is opened, which creates
    or empties it, and the write or the close raises. *)
Inductive WriteFault :=
| CannotOpen (e : exn)
| CannotWrite (e : exn).

(** The state a call can observe and change.
    - [files]: the file system, by path;
    - [environ]: [os.environ];
    - [ssm_reachable]: whether [boto3.client('ssm')] and [get_parameter]
      go through at all; [ssm_params]: the stored parameters, by name;
    - [ssm_put_fault]: [None] when [put_parameter] succeeds; otherwise the
      exception it raises, and the text a concurrent writer has left in
      the parameter by then, if any;
    - [token_endpoint]: the provider's answer to a refresh request;
    - [consent]: the result of the installed-app flow
      ([from_client_secrets_file] on the text of the client secrets file,
      then [run_local_server]);
    - [write_fault]: for each path, [None] when it can be written,
      whatever the path is for reading; otherwise how writing it fails;
    - [build_fault]: [None] when [googleapiclient.discovery.build] gives
      a service object; otherwise the exception it raises. *)
Record World := mkWorld {
  now : Z;
  files : gmap string File;
  environ : gmap string string;
  ssm_reachable : bool;
  ssm_params : gmap string Text;
  ssm_put_fault : option (exn * option Text);
  token_endpoint : Credentials -> result RefreshReply;
  consent : Text -> list string -> result Credentials;
  write_fault : string -> option WriteFault;
  build_fault : option exn;
}.

Definition set_files (fs : gmap string File) (w : World) : World :=
  mkWorld (now w) fs (environ w) (ssm_reachable w) (ssm_params w)
          (ssm_put_fault w) (token_endpoint w) (consent w)
          (write_fault w) (build_fault w).

Definition set_ssm_params (ps : gmap string Text) (w : World) : World :=
  mkWorld (now w) (files w) (environ w) (ssm_reachable w) ps
          (ssm_put_fault w) (token_endpoint w) (consent w)
          (write_fault w) (build_fault w).

(** The effects a call performs, as they appear in its trace. *)
Inductive Event :=
| PathExists (path : string)
| ReadFile (path : string)
| OpenForWriting (path : string)
| WriteFile (path : string) (t : Text)
| SsmGet (name : string)
| SsmPut (name : string) (t : Text)
| Refresh (c : Credentials)
| Grant (required : list string)
| Printed (msg : string).

Definition M (A : Type) : Type := World -> result A * World * list Event.

Definition ret {A} (a : A) : M A := fun w => (Ok a, w, []).

Definition raise {A} (e : exn) : M A := fun w => (Raise e, w, []).

Definition bind {A B} (m : M A) (k : A -> M B) : M B := fun w =>
  match m w with
  | (Ok a, w1, t1) =>
      match k a w1 with
      | (r, w2, t2) => (r, w2, t1 ++ t2)
      end
  | (Raise e, w1, t1) => (Raise e, w1, t1)
  end.

(** [try: body  except Exception as e: handler e] *)
Definition try_except {A} (body : M A) (handler : exn -> M A) : M A := fun w =>
  match body w with
  | (Ok a, w1, t1) => (Ok a, w1, t1)
  | (Raise e, w1, t1) =>
      match handler e w1 with
      | (r, w2, t2) => (r, w2, t1 ++ t2)
      end
  end.

Definition lift {A} (r : result A) : M A := fun w => (r, w, []).

Declare Scope py_scope.
Delimit Scope py_scope with py.
Notation "x <- c1 ;; c2" := (bind c1 (fun x => c2))
  (at level 100, c1 at next level, right associativity) : py_scope.
Notation "c1 ;;; c2" := (bind c1 (fun _ => c2))
  (at level 100, right associativity) : py_scope.
Local Open Scope py_scope.

Definition emit (e : Event) : M unit := fun w => (Ok tt, w, [e]).

(** [print(msg)] *)
Definition print (msg : string) : M unit := emit (Printed msg).

(** [os.path.exists(path)] *)
Definition os_path_exists (path : string) : M bool := fun w =>
  (Ok (match files w !! path with Some _ => true | None => false end), w,
   [PathExists path]).

(** [open(path).read()] *)
Definition read_file (path : string) : M Text := fun w =>
  match files w !! path with
  | Some (Readable t) => (Ok t, w, [ReadFile path])
  | Some Unreadable =>
      (Raise (Exn PermissionError ("Permission denied: " +:+ path)), w, [ReadFile path])
  | None =>
      (Raise (Exn FileNotFoundError ("No such file or directory: " +:+ path)), w,
       [ReadFile path])
  end.

(** [with open(path, 'w') as f: f.write(t)] for a text [t] that is at
    hand when the file is opened.  The statement is one effect in the
    trace, made or failed.  When it is the write that fails the file is
    left as the open made it, empty. *)
Definition write_file (path : string) (t : Text) : M unit := fun w =>
  match write_fault w path with
  | Some (CannotOpen e) => (Raise e, w, [WriteFile path t])
  | Some (CannotWrite e) =>
      (Raise e, set_files (<[path := Readable (Raw "")]> (files w)) w, [WriteFile path t])
  | None =>
      (Ok tt, set_files (<[path := Readable t]> (files w)) w, [WriteFile path t])
  end.

(** The two halves of [with open(path, 'w') as f: f.write(<expression>)]
    where the expression is evaluated, and may raise, after the file has
    been opened: the open creates or empties the file; the write fills
    it. *)
Definition open_for_writing (path : string) : M unit := fun w =>
  match write_fault w path with
  | Some (CannotOpen e) => (Raise e, w, [OpenForWriting path])
  | _ =>
      (Ok tt, set_files (<[path := Readable (Raw "")]> (files w)) w,
       [OpenForWriting path])
  end.

Definition write_opened (path : string) (t : Text) : M unit := fun w =>
  match write_fault w path with
  | Some (CannotWrite e) => (Raise e, w, [WriteFile path t])
  | _ =>
      (Ok tt, set_files (<[path := Readable t]> (files w)) w, [WriteFile path t])
  end.

(** [ssm = boto3.client('ssm'); ssm.get_parameter(Name=name,
    WithDecryption=True)['Parameter']['Value']] *)
Definition ssm_get_parameter (name : string) : M Text := fun w =>
  if ssm_reachable w then
    match ssm_params w !! name with
    | Some t => (Ok t, w, [SsmGet name])
    | None => (Raise (Exn ClientError "ParameterNotFound"), w, [SsmGet name])
    end
  else (Raise (Exn ClientError "Could not connect to the endpoint"), w, [SsmGet name]).

(** [ssm = boto3.client('ssm'); ssm.put_parameter(Name=name, Value=t,
    Type='SecureString', Overwrite=True)] *)
Definition ssm_put_parameter (name : string) (t : Text) : M unit := fun w =>
  match ssm_put_fault w with
  | None => (Ok tt, set_ssm_params (<[name := t]> (ssm_params w)) w, [SsmPut name t])
  | Some (e, None) => (Raise e, w, [SsmPut name t])
  | Some (e, Some other) =>
      (Raise e, set_ssm_params (<[name := other]> (ssm_params w)) w, [SsmPut name t])
  end.

(** [Credentials.from_authorized_user_info(json.loads(t), scopes)], which
    reads the clock. *)
Definition creds_from_authorized_user_info (t : Text) (required : list string)
  : M Credentials := fun w =>
  (from_authorized_user_info (now w) t required, w, []).

(** [creds.valid], [creds.expired] read the clock. *)
Definition creds_valid (c : Credentials) : M bool := fun w =>
  (Ok (valid (now w) c), w, []).

Definition creds_expired (c : Credentials) : M bool := fun w =>
  (Ok (expired (now w) c), w, []).

(** [creds.refresh(Request())]: one call to the token endpoint; the
    object is updated from the reply, or the provider's error is raised. *)
Definition creds_refresh (c : Credentials) : M Credentials := fun w =>
  match token_endpoint w c with
  | Ok r => (Ok (apply_refresh c r), w, [Refresh c])
  | Raise e => (Raise e, w, [Refresh c])
  end.

(** [flow = InstalledAppFlow.from_client_secrets_file(path, scopes);
    creds = flow.run_local_server(port=0)] *)
Definition run_installed_app_flow (path : string) (required : list string)
  : M Credentials :=
  secrets <- read_file path ;;
  fun w => (consent w secrets required, w, [Grant required]).

(** [build('calendar', 'v3', credentials=creds)]: the service object is
    represented by the credentials it carries; the call may raise. *)
Definition build (c : Credentials) : M Credentials := fun w =>
  match build_fault w with
  | Some e => (Raise e, w, [])
  | None => (Ok c, w, [])
  end.

(* ===================================================================== *)
(** ** calendar_api.py: GoogleCalendarAPI                                *)
(* ===================================================================== *)

Module CalendarApi.

Record GoogleCalendarAPI := mkSelf {
  credentials_path : string;
  token_path : string;
}.

(** The [else] branch of [_authenticate]: check that the client secrets
    file is there, then run the installed-app flow. *)
Definition interactive_grant (self : GoogleCalendarAPI) : M Credentials :=
  present <- os_path_exists (credentials_path self) ;;
  if negb present then
    raise (Exn FileNotFoundError
             (credentials_path self +:+
              " file not found. Please download it from Google Cloud Console and save it in the current directory."))
  else run_installed_app_flow (credentials_path self) SCOPES.

(** First part of [_authenticate]: [creds] is [None], or the object
    loaded from the token file when there is one and it loads. *)
Definition load_token (self : GoogleCalendarAPI) : M (option Credentials) :=
  token_exists <- os_path_exists (token_path self) ;;
  if token_exists then
    try_except
      (t <- read_file (token_path self) ;;
       c <- creds_from_authorized_user_info t SCOPES ;;
       ret (Some c))
      (fun e => print ("Error loading token: " +:+ str e) ;;; ret None)
  else ret None.

(** Second part: [if not creds or not creds.valid: ...], then [build].
    [not creds or not creds.valid] and
    [creds and creds.expired and creds.refresh_token] are read off the
    two cases of [creds]. *)
Definition obtain (self : GoogleCalendarAPI) (creds : option Credentials)
  : M Credentials :=
  match creds with
  | Some c =>
      v <- creds_valid c ;;
      if negb v then
        e <- creds_expired c ;;
        creds' <- (if e && opt_truthy (refresh_token c)
                   then creds_refresh c
                   else interactive_grant self) ;;
        write_file (token_path self) (to_json creds') ;;;
        build creds'
      else build c
  | None =>
      creds' <- interactive_grant self ;;
      write_file (token_path self) (to_json creds') ;;;
      build creds'
  end.

(** [GoogleCalendarAPI._authenticate] *)
Definition _authenticate (self : GoogleCalendarAPI) : M Credentials :=
  creds <- load_token self ;;
  obtain self creds.

End CalendarApi.

(* ===================================================================== *)
(** ** get_calendar_events.py                                            *)
(* ===================================================================== *)

Module GetCalendarEvents.

Definition interactive_grant : M Credentials :=
  present <- os_path_exists "credentials.json" ;;
  if negb present then
    raise (Exn FileNotFoundError
             "credentials.json file not found. Please download it from Google Cloud Console and save it in the current directory.")
  else run_installed_app_flow "credentials.json" SCOPES.

(** First part of [authenticate_google_calendar]: the token file is
    loaded outside of any [try]. *)
Definition load_token : M (option Credentials) :=
  token_exists <- os_path_exists "token.json" ;;
  if token_exists then
    t <- read_file "token.json" ;;
    c <- creds_from_authorized_user_info t SCOPES ;;
    ret (Some c)
  else ret None.

(** Second part: [if not creds or not creds.valid: ...], then [build]. *)
Definition obtain (creds : option Credentials) : M Credentials :=
  match creds with
  | Some c =>
      v <- creds_valid c ;;
      if negb v then
        e <- creds_expired c ;;
        creds' <- (if e && opt_truthy (refresh_token c)
                   then creds_refresh c
                   else interactive_grant) ;;
        write_file "token.json" (to_json creds') ;;;
        build creds'
      else build c
  | None =>
      creds' <- interactive_grant ;;
      write_file "token.json" (to_json creds') ;;;
      build creds'
  end.

(** [authenticate_google_calendar] *)
Definition authenticate_google_calendar : M Credentials :=
  creds <- load_token ;;
  obtain creds.

End GetCalendarEvents.

(* ===================================================================== *)
(** ** lambda-package/lambda_calendar_api.py: LambdaGoogleCalendarAPI    *)
(* ===================================================================== *)

Module LambdaCalendarApi.

Record LambdaGoogleCalendarAPI := mkSelf {
  credentials_path : string;
  token_path : string;
  parameter_store_token_name : option string;
}.

(** [_get_token_from_parameter_store] *)
Definition _get_token_from_parameter_store (self : LambdaGoogleCalendarAPI)
  : M (option Text) :=
  match parameter_store_token_name self with
  | None => ret None
  | Some name =>
      if negb (str_truthy name) then ret None
      else
        try_except
          (v <- ssm_get_parameter name ;; ret (Some v))
          (fun e =>
             print ("Error retrieving token from Parameter Store: " +:+ str e) ;;;
             ret None)
  end.

(** [_save_token_to_parameter_store] *)
Definition _save_token_to_parameter_store (self : LambdaGoogleCalendarAPI)
    (token_json : Text) : M bool :=
  match parameter_store_token_name self with
  | None => ret false
  | Some name =>
      if negb (str_truthy name) then ret false
      else
        try_except
          (ssm_put_parameter name token_json ;;; ret true)
          (fun e =>
             print ("Error saving token to Parameter Store: " +:+ str e) ;;;
             ret false)
  end.

Definition token_expired_msg : string :=
  "Token is expired and can't be refreshed in Lambda environment. Please generate a new token using the local authentication flow.".

Definition no_credentials_msg : string :=
  "No valid credentials found. Please run the authentication flow locally first.".

(** The first two steps of [_authenticate]: the parameter store, then,
    if that gave no credentials object, the local token file. *)
Definition load_from_parameter_store (self : LambdaGoogleCalendarAPI)
  : M (option Credentials) :=
  token_json <- _get_token_from_parameter_store self ;;
  match token_json with
  | Some t =>
      if text_truthy t then
        try_except
          (c <- creds_from_authorized_user_info t SCOPES ;; ret (Some c))
          (fun e =>
             print ("Error loading token from Parameter Store: " +:+ str e) ;;;
             ret None)
      else ret None
  | None => ret None
  end.

Definition load_from_file (self : LambdaGoogleCalendarAPI)
    (creds : option Credentials) : M (option Credentials) :=
  match creds with
  | Some c => ret (Some c)
  | None =>
      token_exists <- os_path_exists (token_path self) ;;
      if token_exists then
        try_except
          (t <- read_file (token_path self) ;;
           c <- creds_from_authorized_user_info t SCOPES ;;
           ret (Some c))
          (fun e => print ("Error loading token from file: " +:+ str e) ;;; ret None)
      else ret None
  end.

(** The last step of [_authenticate]: refresh credentials that are not
    valid, or give up; there is no interactive flow here. *)
Definition refresh_or_fail (self : LambdaGoogleCalendarAPI)
    (creds : option Credentials) : M Credentials :=
  match creds with
  | Some c =>
      v <- creds_valid c ;;
      if negb v then
        e <- creds_expired c ;;
        if e && opt_truthy (refresh_token c) then
          c' <- creds_refresh c ;;
          let token_json := to_json c' in
          write_file (token_path self) token_json ;;;
          _save_token_to_parameter_store self token_json ;;;
          build c'
        else raise (Exn ValueError token_expired_msg)
      else build c
  | None => raise (Exn ValueError no_credentials_msg)
  end.

(** [LambdaGoogleCalendarAPI._authenticate] *)
Definition _authenticate (self : LambdaGoogleCalendarAPI) : M Credentials :=
  creds <- load_from_parameter_store self ;;
  creds <- load_from_file self creds ;;
  refresh_or_fail self creds.

(** The two loading steps together. *)
Definition load (self : LambdaGoogleCalendarAPI) : M (option Credentials) :=
  creds <- load_from_parameter_store self ;;
  load_from_file self creds.

End LambdaCalendarApi.

(* ===================================================================== *)
(** ** Calendar dates (datetime.date)                                    *)
(* ===================================================================== *)

Module Dates.

Record date := mkDate { year : Z; month : Z; day : Z }.

Definition is_leap (y : Z) : bool :=
  (y mod 4 =? 0) && (negb (y mod 100 =? 0) || (y mod 400 =? 0)).

Definition days_in_month (y m : Z) : Z :=
  if m =? 2 then (if is_leap y then 29 else 28)
  else if (m =? 4) || (m =? 6) || (m =? 9) || (m =? 11) then 30
  else 31.

(** The dates a [datetime.date] can hold: years 1 to 9999. *)
Definition valid_date (d : date) : bool :=
  (1 <=? year d) && (year d <=? 9999) &&
  (1 <=? month d) && (month d <=? 12) &&
  (1 <=? day d) && (day d <=? days_in_month (year d) (month d)).

(** Days before January 1st of year [y], counted from 0001-01-01. *)
Definition days_before_year (y : Z) : Z :=
  let p := y - 1 in p * 365 + p / 4 - p / 100 + p / 400.

(** Days of year [y] before the first day of month [m]. *)
Definition days_before_month (y m : Z) : Z :=
  let feb := if is_leap y then 29 else 28 in
  if m <=? 1 then 0
  else if m =? 2 then 31
  else if m =? 3 then 31 + feb
  else if m =? 4 then 62 + feb
  else if m =? 5 then 92 + feb
  else if m =? 6 then 123 + feb
  else if m =? 7 then 153 + feb
  else if m =? 8 then 184 + feb
  else if m =? 9 then 215 + feb
  else if m =? 10 then 245 + feb
  else if m =? 11 then 276 + feb
  else 306 + feb.

(** [d.toordinal()]: 0001-01-01 is day 1. *)
Definition toordinal (d : date) : Z :=
  days_before_year (year d) + days_before_month (year d) (month d) + day d.

(** [d - datetime.timedelta(days=1)]: the day before, or [OverflowError]
    when [d] is the first representable day. *)
Definition minus_one_day (d : date) : result date :=
  if toordinal d <=? 1 then Raise (Exn OverflowError "date value out of range")
  else if 1 <? day d then Ok (mkDate (year d) (month d) (day d - 1))
  else if 1 <? month d then
    Ok (mkDate (year d) (month d - 1) (days_in_month (year d) (month d - 1)))
  else Ok (mkDate (year d - 1) 12 31).

Definition digit_char (z : Z) : ascii := ascii_of_nat (48 + Z.to_nat (z mod 10)).

Definition two_digits (z : Z) : string :=
  String (digit_char (z / 10)) (String (digit_char z) "").

Definition four_digits (z : Z) : string :=
  String (digit_char (z / 1000)) (String (digit_char (z / 100))
    (String (digit_char (z / 10)) (String (digit_char z) ""))).

(** [d.isoformat()]: YYYY-MM-DD *)
Definition isoformat (d : date) : string :=
  four_digits (year d) +:+ "-" +:+ two_digits (month d) +:+ "-" +:+ two_digits (day d).

Definition digit_val (a : ascii) : option Z :=
  let n := Z.of_nat (nat_of_ascii a) in
  if (48 <=? n) && (n <=? 57) then Some (n - 48) else None.

(** The [%m] field: [1[0-2]|0[1-9]|[1-9]], alternatives tried in order. *)
Definition parse_month (s : string) : option (Z * string) :=
  match s with
  | String a rest =>
      match digit_val a with
      | Some x =>
          let two :=
            match rest with
            | String b rest' =>
                match digit_val b with
                | Some y =>
                    if (x =? 1) && (y <=? 2) then Some (10 + y, rest')
                    else if (x =? 0) && (1 <=? y) then Some (y, rest')
                    else None
                | None => None
                end
            | EmptyString => None
            end in
          match two with
          | Some r => Some r
          | None => if 1 <=? x then Some (x, rest) else None
          end
      | None => None
      end
  | EmptyString => None
  end.

(** The [%d] field: [3[01]|[12]\d|0[1-9]|[1-9]| [1-9]]. *)
Definition parse_day (s : string) : option (Z * string) :=
  match s with
  | String a rest =>
      match digit_val a with
      | Some x =>
          let two :=
            match rest with
            | String b rest' =>
                match digit_val b with
                | Some y =>
                    if (x =? 3) && (y <=? 1) then Some (30 + y, rest')
                    else if (1 <=? x) && (x <=? 2) then Some (10 * x + y, rest')
                    else if (x =? 0) && (1 <=? y) then Some (y, rest')
                    else None
                | None => None
                end
            | EmptyString => None
            end in
          match two with
          | Some r => Some r
          | None => if 1 <=? x then Some (x, rest) else None
          end
      | None =>
          if Ascii.eqb a " " then
            match rest with
            | String b rest' =>
                match digit_val b with
                | Some y => if 1 <=? y then Some (y, rest') else None
                | None => None
                end
            | EmptyString => None
            end
          else None
      end
  | EmptyString => None
  end.

Definition parse_year (s : string) : option (Z * string) :=
  match s with
  | String a (String b (String c (String d rest))) =>
      match digit_val a, digit_val b, digit_val c, digit_val d with
      | Some x3, Some x2, Some x1, Some x0 =>
          Some (1000 * x3 + 100 * x2 + 10 * x1 + x0, rest)
      | _, _, _, _ => None
      end
  | _ => None
  end.

Definition expect_dash (s : string) : option string :=
  match s with
  | String a rest => if Ascii.eqb a "-" then Some rest else None
  | EmptyString => None
  end.

Definition bad_format (s : string) : exn :=
  Exn ValueError ("time data " +:+ py_repr s +:+ " does not match format '%Y-%m-%d'").

(** [datetime.datetime.strptime(s, '%Y-%m-%d').date()] *)
Definition strptime_ymd (s : string) : result date :=
  match parse_year s with
  | None => Raise (bad_format s)
  | Some (y, s1) =>
    match expect_dash s1 with
    | None => Raise (bad_format s)
    | Some s2 =>
      match parse_month s2 with
      | None => Raise (bad_format s)
      | Some (m, s3) =>
        match expect_dash s3 with
        | None => Raise (bad_format s)
        | Some s4 =>
          match parse_day s4 with
          | None => Raise (bad_format s)
          | Some (d, s5) =>
              if negb (String.eqb s5 "") then
                Raise (Exn ValueError ("unconverted data remains: " +:+ s5))
              else if valid_date (mkDate y m d) then Ok (mkDate y m d)
              else Raise (Exn ValueError "day is out of range for month")
          end
        end
      end
    end
  end.

End Dates.

(* ===================================================================== *)
(** ** Operations on Python values                                       *)
(* ===================================================================== *)

(** Lookup in a dict's items. *)
Fixpoint dict_get (d : list (string * pyval)) (k : string) : option pyval :=
  match d with
  | [] => None
  | (k', v) :: rest => if String.eqb k' k then Some v else dict_get rest k
  end.

Definition dict_has (d : list (string * pyval)) (k : string) : bool :=
  match dict_get d k with Some _ => true | None => false end.

(** [type(v).__name__] *)
Definition type_name (v : pyval) : string :=
  match v with
  | PNone => "NoneType"
  | PBool _ => "bool"
  | PInt _ => "int"
  | PStr _ => "str"
  | PList _ => "list"
  | PDict _ => "dict"
  end.

(** What reading the attribute [attr] of a value that has none raises. *)
Definition no_attribute (v : pyval) (attr : string) : exn :=
  Exn AttributeError
    ("'" +:+ type_name v +:+ "' object has no attribute '" +:+ attr +:+ "'").

(** [v.get]: only a dict has the method. *)
Definition as_dict (v : pyval) : result (list (string * pyval)) :=
  match v with
  | PDict d => Ok d
  | _ => Raise (no_attribute v "get")
  end.

(** [d.get(k, default)] on the items of a dict *)
Definition get_default (d : list (string * pyval)) (k : string) (default : pyval)
  : pyval :=
  match dict_get d k with Some v => v | None => default end.

(** [d[k]] on the items of a dict *)
Definition getitem (d : list (string * pyval)) (k : string) : result pyval :=
  match dict_get d k with
  | Some v => Ok v
  | None => Raise (Exn KeyError k)
  end.

(** A text argument of [strptime] or of dateutil's [parse]. *)
Definition as_str (v : pyval) : result string :=
  match v with
  | PStr s => Ok s
  | _ => Raise (Exn TypeError "argument must be str")
  end.

(** Pure code that may raise. *)
Definition rbind {A B} (r : result A) (k : A -> result B) : result B :=
  match r with
  | Ok a => k a
  | Raise e => Raise e
  end.

Notation "x <-- c1 ;; c2" := (rbind c1 (fun x => c2))
  (at level 100, c1 at next level, right associativity) : py_scope.

Fixpoint rmap {A B} (f : A -> result B) (l : list A) : result (list B) :=
  match l with
  | [] => Ok []
  | x :: rest =>
      y <-- f x ;;
      ys <-- rmap f rest ;;
      Ok (y :: ys)
  end.

(* ===================================================================== *)
(** ** format_events (calendar_api.py and lambda_calendar_api.py)        *)
(* ===================================================================== *)

(** The method has the same text in [GoogleCalendarAPI] and in
    [LambdaGoogleCalendarAPI]; it does not use [self]. *)
Module Format.
Section WithDateutil.

(** dateutil's [parse] and the [isoformat] of the [datetime] it gives. *)
Context {datetime : Type}.
Variable dateutil_parse : string -> result datetime.
Variable datetime_isoformat : datetime -> string.

(** [event.get('creator', {}).get('email', '')] *)
Definition email_of (event : list (string * pyval)) (who : string) : result pyval :=
  d <-- as_dict (get_default event who (PDict [])) ;;
  Ok (get_default d "email" (PStr "")).

(** [[a.get('email') for a in event.get('attendees', [])]] *)
Definition attendee_emails (event : list (string * pyval)) : result pyval :=
  match get_default event "attendees" (PList []) with
  | PList l =>
      emails <-- rmap (fun a => d <-- as_dict a ;; Ok (get_default d "email" PNone)) l ;;
      Ok (PList emails)
  | PDict [] => Ok (PList [])
  | PStr EmptyString => Ok (PList [])
  | PDict (_ :: _) => Raise (Exn AttributeError "'str' object has no attribute 'get'")
  | PStr (String _ _) => Raise (Exn AttributeError "'str' object has no attribute 'get'")
  | v => Raise (Exn TypeError ("'" +:+ type_name v +:+ "' object is not iterable"))
  end.

(** The body of the [for] loop: one event to one formatted event. *)
Definition format_event (include_details : bool) (ev : pyval) : result pyval :=
  event <-- as_dict ev ;;
  let event_id := get_default event "id" (PStr "") in
  let summary := get_default event "summary" (PStr "No Title") in
  let description := get_default event "description" (PStr "") in
  let location := get_default event "location" (PStr "") in
  start_v <-- getitem event "start" ;;
  start_d <-- as_dict start_v ;;
  let start := get_default start_d "dateTime" (get_default start_d "date" PNone) in
  end_v <-- getitem event "end" ;;
  end_d <-- as_dict end_v ;;
  let end_ := get_default end_d "dateTime" (get_default end_d "date" PNone) in
  let is_all_day := dict_has start_d "date" && negb (dict_has start_d "dateTime") in
  times <--
    (if is_all_day then
       s <-- as_str start ;;
       start_obj <-- Dates.strptime_ymd s ;;
       e <-- as_str end_ ;;
       end_obj <-- Dates.strptime_ymd e ;;
       end_obj <-- Dates.minus_one_day end_obj ;;
       Ok (Dates.isoformat start_obj, Dates.isoformat end_obj)
     else
       s <-- as_str start ;;
       start_obj <-- dateutil_parse s ;;
       e <-- as_str end_ ;;
       end_obj <-- dateutil_parse e ;;
       Ok (datetime_isoformat start_obj, datetime_isoformat end_obj)) ;;
  let formatted_event :=
    [("id", event_id); ("summary", summary);
     ("start", PStr (fst times)); ("end", PStr (snd times));
     ("is_all_day", PBool is_all_day)] in
  if include_details then
    creator <-- email_of event "creator" ;;
    organizer <-- email_of event "organizer" ;;
    attendees <-- attendee_emails event ;;
    Ok (PDict (formatted_event ++
               [("description", description); ("location", location);
                ("creator", creator); ("organizer", organizer);
                ("attendees", attendees);
                ("status", get_default event "status" (PStr ""));
                ("link", get_default event "htmlLink" (PStr ""))]))
  else Ok (PDict formatted_event).

(** [format_events(events, include_details)]: the loop appends one
    formatted event per event; an exception leaves the loop. *)
Definition format_events (events : list pyval) (include_details : bool)
  : result (list pyval) :=
  rmap (format_event include_details) events.

End WithDateutil.
End Format.

(* ===================================================================== *)
(** ** lambda_function.py: lambda_handler                                *)
(* ===================================================================== *)

(** The text [json.dumps] produces for a value. *)
Inductive JsonText := json_dumps (v : pyval).

(** The dictionary the handler returns. *)
Record Response := mkResponse {
  statusCode : Z;
  headers : option (list (string * string));
  body : JsonText;
}.

Module LambdaFunction.
Section WithCollaborators.

Context {datetime : Type}.
Variable dateutil_parse : string -> result datetime.
Variable datetime_isoformat : datetime -> string.

(** [int(s)] on a string: the integer it spells, if any. *)
Variable int_of_str : string -> option Z.

(** [base64.b64decode(s).decode('utf-8')] *)
Variable b64decode_utf8 : string -> result Text.

(** [calendar_api.get_events(days_back=...)], a call to the calendar
    service with the credentials of the service object. *)
Variable get_events : Credentials -> Z -> M (list pyval).

(** [calendar_analysis_local.analyze_events] *)
Variable analyze_events : list pyval -> Z -> result pyval.

Definition DEFAULT_DAYS : Z := 7.

(** [int(v)] *)
Definition py_int (v : pyval) : result Z :=
  match v with
  | PInt z => Ok z
  | PBool b => Ok (if b then 1 else 0)
  | PStr s =>
      match int_of_str s with
      | Some z => Ok z
      | None =>
          Raise (Exn ValueError ("invalid literal for int() with base 10: " +:+ py_repr s))
      end
  | _ =>
      Raise (Exn TypeError
               ("int() argument must be a string, a bytes-like object or a real number, not '"
                +:+ type_name v +:+ "'"))
  end.

(** [os.environ.get(k)] *)
Definition os_environ_get (k : string) : M (option string) := fun w =>
  (Ok (environ w !! k), w, []).

Definition response_400 : Response :=
  mkResponse 400 None
    (json_dumps (PDict [("error", PStr "Google credentials not configured in environment variables")])).

Definition response_500 (e : exn) : Response :=
  mkResponse 500 None
    (json_dumps (PDict [("error", PStr ("An error occurred: " +:+ str e))])).

Definition response_200 (formatted_events : list pyval) (days_back : Z)
    (analysis_results : pyval) : Response :=
  mkResponse 200 (Some [("Content-Type", "application/json")])
    (json_dumps (PDict [("events_count", PInt (Z.of_nat (length formatted_events)));
                        ("days_analyzed", PInt days_back);
                        ("analysis", analysis_results)])).

(** The [try] block of [lambda_handler]. *)
Definition handler_body (event : pyval) : M Response :=
  days_back <- lift (ev <-- as_dict event ;;
                     qs <-- as_dict (get_default ev "queryStringParameters" (PDict [])) ;;
                     py_int (get_default qs "days" (PInt DEFAULT_DAYS))) ;;
  creds_env <- os_environ_get "GOOGLE_CREDENTIALS_JSON" ;;
  if negb (opt_truthy creds_env) then ret response_400
  else
    credentials_json <- lift (b64decode_utf8 (default "" creds_env)) ;;
    token_json <- os_environ_get "GOOGLE_TOKEN_JSON" ;;
    write_file "/tmp/credentials.json" credentials_json ;;;
    (if opt_truthy token_json then
       open_for_writing "/tmp/token.json" ;;;
       t <- lift (b64decode_utf8 (default "" token_json)) ;;
       write_opened "/tmp/token.json" t
     else ret tt) ;;;
    name <- os_environ_get "TOKEN_PARAMETER_NAME" ;;
    service <- LambdaCalendarApi._authenticate
                 (LambdaCalendarApi.mkSelf "/tmp/credentials.json" "/tmp/token.json" name) ;;
    events <- get_events service days_back ;;
    formatted_events <-
      lift (Format.format_events dateutil_parse datetime_isoformat events true) ;;
    token_exists <- os_path_exists "/tmp/token.json" ;;
    (if token_exists then _ <- read_file "/tmp/token.json" ;; ret tt else ret tt) ;;;
    analysis_results <- lift (analyze_events formatted_events days_back) ;;
    ret (response_200 formatted_events days_back analysis_results).

(** [lambda_handler(event, context)] *)
Definition lambda_handler (event : pyval) (context : pyval) : M Response :=
  try_except (handler_body event)
    (fun e => print ("Error: " +:+ str e) ;;; ret (response_500 e)).

End WithCollaborators.
End LambdaFunction.

(* ===================================================================== *)
(** ** Reading traces                                                    *)
(* ===================================================================== *)

(** The three components of a run. *)
Definition outcome {A} (x : result A * World * list Event) : result A := x.1.1.
Definition world_after {A} (x : result A * World * list Event) : World := x.1.2.
Definition effects {A} (x : result A * World * list Event) : list Event := x.2.

(** A call to the token endpoint or a consent flow. *)
Definition is_refresh (e : Event) : bool :=
  match e with Refresh _ => true | _ => false end.

Definition is_grant (e : Event) : bool :=
  match e with Grant _ => true | _ => false end.

(** A write to the local file or to the remote store, made or failed. *)
Definition is_write (e : Event) : bool :=
  match e with
  | OpenForWriting _ | WriteFile _ _ | SsmPut _ _ => true
  | _ => false
  end.

(** A look at the local file system. *)
Definition is_file_read (e : Event) : bool :=
  match e with ReadFile _ | PathExists _ => true | _ => false end.

Definition is_remote_load (e : Event) : bool :=
  match e with SsmGet _ => true | _ => false end.

(** A run is quiet when it neither refreshes, nor runs a grant, nor writes
    to a store. *)
Definition quiet (t : list Event) : bool :=
  forallb (fun e => negb (is_refresh e || is_grant e || is_write e)) t.

Fixpoint count (p : Event -> bool) (t : list Event) : nat :=
  match t with
  | [] => 0
  | e :: rest => ((if p e then 1 else 0) + count p rest)%nat
  end.

(** The events after the first write to the remote store. *)
Fixpoint after_remote_save (t : list Event) : list Event :=
  match t with
  | [] => []
  | SsmPut _ _ :: rest => rest
  | _ :: rest => after_remote_save rest
  end.

(** How the branches of [_authenticate] sort a loaded credentials object.
    The names are the specification's; [ScopeMismatch] is listed because
    the specification has it. *)
Inductive Classification :=
| Absent | Valid | Refreshable | Terminal | ScopeMismatch.

Definition classify (now : Z) (creds : option Credentials) : Classification :=
  match creds with
  | None => Absent
  | Some c =>
      if valid now c then Valid
      else if expired now c && opt_truthy (refresh_token c) then Refreshable
      else Terminal
  end.

(** What the loading steps make of a stored record that has a refresh
    token and an expiry: the record with the required scopes attached. *)
Definition loaded (stored : Credentials) : Credentials :=
  mkCreds (token stored) (refresh_token stored) (expiry stored) SCOPES.

(** [granted] is a strict subset of [required]. *)
Definition strict_subset (granted required : list string) : Prop :=
  granted ⊆ required ∧ ¬ required ⊆ granted.

(* ===================================================================== *)
(** ** The three deployments of the credential procedure                 *)
(* ===================================================================== *)

(** The specification's [acquire()] is, in the sources, one of three
    procedures. *)
Inductive Deployment :=
| LocalClass (self : CalendarApi.GoogleCalendarAPI)
| LocalScript
| LambdaClass (self : LambdaCalendarApi.LambdaGoogleCalendarAPI).

Definition acquire (d : Deployment) : M Credentials :=
  match d with
  | LocalClass self => CalendarApi._authenticate self
  | LocalScript => GetCalendarEvents.authenticate_google_calendar
  | LambdaClass self => LambdaCalendarApi._authenticate self
  end.

(** The path of the local token file. *)
Definition token_file (d : Deployment) : string :=
  match d with
  | LocalClass self => CalendarApi.token_path self
  | LocalScript => "token.json"
  | LambdaClass self => LambdaCalendarApi.token_path self
  end.

(** The name of the remote parameter, when one is configured. *)
Definition remote_name (d : Deployment) : option string :=
  match d with
  | LambdaClass self =>
      match LambdaCalendarApi.parameter_store_token_name self with
      | Some name => if str_truthy name then Some name else None
      | None => None
      end
  | _ => None
  end.

(** The stores of deployment [d] hold the record [stored]: the parameter
    store serves it, or the parameter store yields no credentials object
    and the token file has it. *)
Definition holds (d : Deployment) (w : World) (stored : Credentials) : Prop :=
  match d with
  | LambdaClass self =>
      (exists name, remote_name d = Some name /\ ssm_reachable w = true /\
                    ssm_params w !! name = Some (TokenJson stored))
      \/ (outcome (LambdaCalendarApi.load_from_parameter_store self w) = Ok None /\
          files w !! token_file d = Some (Readable (TokenJson stored)))
  | _ => files w !! token_file d = Some (Readable (TokenJson stored))
  end.

(** The two parts of [acquire d]: loading what is stored, and what is done
    with the result. *)
Definition load_stored (d : Deployment) : M (option Credentials) :=
  match d with
  | LocalClass self => CalendarApi.load_token self
  | LocalScript => GetCalendarEvents.load_token
  | LambdaClass self => LambdaCalendarApi.load self
  end.

Definition after_load (d : Deployment) (creds : option Credentials) : M Credentials :=
  match d with
  | LocalClass self => CalendarApi.obtain self creds
  | LocalScript => GetCalendarEvents.obtain creds
  | LambdaClass self => LambdaCalendarApi.refresh_or_fail self creds
  end.

(** The remote store, where one is configured, accepts a write. *)
Definition remote_save_accepted (d : Deployment) (w : World) : Prop :=
  match remote_name d with
  | Some _ => ssm_put_fault w = None
  | None => True
  end.

(** The token file exists but cannot be read, or holds a text that is
    not the serialisation of a credentials object. *)
Definition bad_token_file (w : World) (path : string) : bool :=
  match files w !! path with
  | Some Unreadable => true
  | Some (Readable (Raw _)) => true
  | _ => false
  end.

(** The world after [text] has been written to [path]. *)
Definition with_file (path : string) (text : Text) (w : World) : World :=
  set_files (<[path := Readable text]> (files w)) w.

(** The world after [text] has been put in the parameter [name]. *)
Definition with_param (name : string) (text : Text) (w : World) : World :=
  set_ssm_params (<[name := text]> (ssm_params w)) w.

(* ===================================================================== *)
(** ** Sample configurations and worlds                                  *)
(* ===================================================================== *)

Module Examples.

Definition local_api : CalendarApi.GoogleCalendarAPI :=
  CalendarApi.mkSelf "credentials.json" "token.json".

Definition lambda_api : LambdaCalendarApi.LambdaGoogleCalendarAPI :=
  LambdaCalendarApi.mkSelf "/tmp/credentials.json" "/tmp/token.json"
    (Some "/calendar/token").

(** A provider that has revoked every refresh token. *)
Definition rejecting_endpoint (c : Credentials) : result RefreshReply :=
  Raise (Exn RefreshError "invalid_grant: Token has been expired or revoked.").

(** A provider that answers every refresh with a token good until 5000. *)
Definition refreshing_endpoint (c : Credentials) : result RefreshReply :=
  Ok (mkReply "ya29.fresh" 5000 None).

Definition granted : Credentials :=
  mkCreds (Some "ya29.granted") (Some "1//granted") (Some 6000) SCOPES.

(** A user who completes the consent step. *)
Definition consenting (secrets : Text) (required : list string) : result Credentials :=
  Ok granted.

(** Nobody is there to consent. *)
Definition no_consent (secrets : Text) (required : list string) : result Credentials :=
  Raise (Exn OtherError "could not open a browser").

(** Good until 2000, granted no scope at all. *)
Definition narrow_record : Credentials :=
  mkCreds (Some "ya29.a0") (Some "1//0g") (Some 2000) [].

(** Good until 2000, granted the required scope. *)
Definition fresh_record : Credentials :=
  mkCreds (Some "ya29.a0") (Some "1//0g") (Some 2000) SCOPES.

(** Good until 1100, which at time 1000 is closer than the refresh
    threshold; granted the required scope. *)
Definition closing_record : Credentials :=
  mkCreds (Some "ya29.a0") (Some "1//0g") (Some 1100) SCOPES.

(** Expired at 999, with a refresh token. *)
Definition stale_record : Credentials :=
  mkCreds (Some "ya29.old") (Some "1//0g") (Some 999) SCOPES.

(** Written by another invocation, good until 7000. *)
Definition newer_record : Credentials :=
  mkCreds (Some "ya29.other") (Some "1//0g") (Some 7000) SCOPES.

Definition client_secrets : File := Readable (Raw "{installed: ...}").

(** A workstation at time 1000 with [text] in token.json and the client
    secrets in place. *)
Definition workstation (text : Text)
    (endpoint : Credentials -> result RefreshReply) : World :=
  mkWorld 1000
    (<["token.json" := Readable text]> {["credentials.json" := client_secrets]})
    ∅ false ∅ None endpoint consenting (fun _ => None) None.

(** A Lambda container at time 1000: [file] is what /tmp/token.json is,
    [param] what the parameter holds, [fault] how a put goes. *)
Definition container (file : option File) (param : option Text)
    (fault : option (exn * option Text))
    (endpoint : Credentials -> result RefreshReply) : World :=
  mkWorld 1000
    (match file with
     | Some f => {["/tmp/token.json" := f]}
     | None => ∅
     end)
    ∅ true
    (match param with
     | Some t => {["/calendar/token" := t]}
     | None => ∅
     end)
    fault endpoint no_consent (fun _ => None) None.

Definition too_many_updates : exn :=
  Exn ClientError "TooManyUpdates: concurrent updates to the parameter".

Definition access_denied : exn :=
  Exn ClientError "AccessDeniedException: not authorized to perform ssm:PutParameter".

(** The same world where the file at [path] cannot be opened for
    writing. *)
Definition read_only_at (path : string) (w : World) : World :=
  mkWorld (now w) (files w) (environ w) (ssm_reachable w) (ssm_params w)
    (ssm_put_fault w) (token_endpoint w) (consent w)
    (fun p => if String.eqb p path
              then Some (CannotOpen (Exn PermissionError ("Permission denied: " +:+ p)))
              else write_fault w p)
    (build_fault w).

(** The same world where [build] raises. *)
Definition without_discovery (w : World) : World :=
  mkWorld (now w) (files w) (environ w) (ssm_reachable w) (ssm_params w)
    (ssm_put_fault w) (token_endpoint w) (consent w) (write_fault w)
    (Some (Exn OtherError "name: calendar  version: v3")).

(** Good until 2000, stored without refresh token. *)
Definition access_only_record : Credentials :=
  mkCreds (Some "ya29.a0") None (Some 2000) SCOPES.

(** Stored without expiry. *)
Definition undated_record : Credentials :=
  mkCreds (Some "ya29.a0") (Some "1//0g") None SCOPES.

End Examples.

(* ===================================================================== *)
(** ** Events as the calendar provider supplies them                     *)
(* ===================================================================== *)

(** The value [format_events] reads from a start or end object:
    [d.get('dateTime', d.get('date'))]. *)
Definition time_value (d : list (string * pyval)) : pyval :=
  get_default d "dateTime" (get_default d "date" PNone).

(** An all-day event: its start has a 'date' and no 'dateTime'. *)
Definition is_all_day_event (ev : pyval) : bool :=
  match ev with
  | PDict event =>
      match dict_get event "start" with
      | Some (PDict s) => dict_has s "date" && negb (dict_has s "dateTime")
      | _ => false
      end
  | _ => false
  end.

(** The end date the provider supplied for an all-day event. *)
Definition raw_end_date (ev : pyval) : option Dates.date :=
  match ev with
  | PDict event =>
      match dict_get event "end" with
      | Some (PDict e) =>
          match time_value e with
          | PStr s =>
              match Dates.strptime_ymd s with
              | Ok d => Some d
              | Raise _ => None
              end
          | _ => None
          end
      | _ => None
      end
  | _ => None
  end.

(** [event.get('id', '')] of an event. *)
Definition event_id (ev : pyval) : pyval :=
  match ev with
  | PDict event => get_default event "id" (PStr "")
  | _ => PNone
  end.

Definition is_dict (v : pyval) : bool :=
  match v with PDict _ => true | _ => false end.

(** The people fields read with [include_details]: creator and organizer
    are objects when present, attendees a list of objects. *)
Definition people_ok (event : list (string * pyval)) : bool :=
  match dict_get event "creator" with None => true | Some v => is_dict v end &&
  match dict_get event "organizer" with None => true | Some v => is_dict v end &&
  match dict_get event "attendees" with
  | None => true
  | Some (PList l) => forallb is_dict l
  | Some _ => false
  end.

Section ProviderEvents.
Context {datetime : Type}.
Variable dateutil_parse : string -> result datetime.

(** An event that carries start and end fields as the provider writes
    them: for an all-day event two dates, the end date not being the
    first day of the calendar; otherwise two times that dateutil
    parses. *)
Definition carries_start_end (include_details : bool) (ev : pyval) : bool :=
  match ev with
  | PDict event =>
      match dict_get event "start", dict_get event "end" with
      | Some (PDict s), Some (PDict e) =>
          match time_value s, time_value e with
          | PStr a, PStr b =>
              if dict_has s "date" && negb (dict_has s "dateTime") then
                match Dates.strptime_ymd a, Dates.strptime_ymd b with
                | Ok _, Ok last => 1 <? Dates.toordinal last
                | _, _ => false
                end
              else is_ok (dateutil_parse a) && is_ok (dateutil_parse b)
          | _, _ => false
          end
      | _, _ => false
      end
      && (negb include_details || people_ok event)
  | _ => false
  end.
End ProviderEvents.

Module FormatExamples.

(** A stand-in for dateutil on the sample inputs: the parsed value is
    the text itself. *)
Definition parse_as_text (s : string) : result string := Ok s.

(** A two-day holiday, 28 and 29 February 2024: the provider gives
    March 1st as its end. *)
Definition holiday : pyval :=
  PDict [("id", PStr "ev1"); ("summary", PStr "Holiday");
         ("start", PDict [("date", PStr "2024-02-28")]);
         ("end", PDict [("date", PStr "2024-03-01")])].

Definition meeting : pyval :=
  PDict [("id", PStr "ev2"); ("summary", PStr "Sync");
         ("start", PDict [("dateTime", PStr "2024-03-04T10:00:00+01:00")]);
         ("end", PDict [("dateTime", PStr "2024-03-04T10:30:00+01:00")]);
         ("attendees", PList [PDict [("email", PStr "a@example.org")]])].

End FormatExamples.

Module HandlerExamples.

(** Stand-ins for the collaborators of the handler on sample runs. *)
Definition int_of_digit (s : string) : option Z :=
  match s with
  | String a EmptyString => Dates.digit_val a
  | _ => None
  end.

Definition decode (s : string) : result Text :=
  if String.eqb s "dG9rZW4=" then Ok (TokenJson Examples.fresh_record)
  else if String.eqb s "!" then Raise (Exn ValueError "Incorrect padding")
  else Ok (Raw s).

Definition one_holiday (service : Credentials) (days_back : Z) : M (list pyval) :=
  ret [FormatExamples.holiday].

Definition no_analysis (events : list pyval) (days_back : Z) : result pyval :=
  Ok (PDict [("summary", PStr "1 event")]).

Definition handler : pyval -> pyval -> M Response :=
  LambdaFunction.lambda_handler FormatExamples.parse_as_text (fun s => s)
    int_of_digit decode one_holiday no_analysis.

(** A container at time 1000 with the given environment and nothing
    else. *)
Definition bare (env : gmap string string) : World :=
  mkWorld 1000 ∅ env true ∅ None Examples.refreshing_endpoint Examples.no_consent
    (fun _ => None) None.

Definition configured : gmap string string :=
  <["GOOGLE_TOKEN_JSON" := "dG9rZW4="]> {["GOOGLE_CREDENTIALS_JSON" := "e30="]}.

End HandlerExamples.

(** Every value a computation returns, when it returns one, satisfies
    [P]. *)
Definition returns_only {A} (P : A -> Prop) (m : M A) : Prop :=
  forall w a w' t, m w = (Ok a, w', t) -> P a.

(** Properties of every run of a computation, proved by following its
    structure. *)
Definition emits_only {A} (P : Event -> bool) (m : M A) : Prop :=
  forall w, forallb P (effects (m w)) = true.

Definition keeps_world {A} (m : M A) : Prop :=
  forall w, world_after (m w) = w.

Definition never_raises {A} (m : M A) : Prop :=
  forall w, is_ok (outcome (m w)) = true.

(* ===================================================================== *)
(** ** Further notions for the credential procedures                     *)
(* ===================================================================== *)

(** The two procedures that can run the consent flow. *)
Definition is_local (d : Deployment) : bool :=
  match d with
  | LambdaClass _ => false
  | _ => true
  end.

(** The path of the client secrets file. *)
Definition secrets_file (d : Deployment) : string :=
  match d with
  | LocalClass self => CalendarApi.credentials_path self
  | LocalScript => "credentials.json"
  | LambdaClass self => LambdaCalendarApi.credentials_path self
  end.

(** Calls that obtain credentials from the provider: refreshes and
    grants. *)
Definition provider_calls (t : list Event) : nat :=
  (count is_refresh t + count is_grant t)%nat.

(** A world in which the file at [path] can be written and [build] gives
    a service object. *)
Definition can_finish (path : string) (w : World) : Prop :=
  write_fault w path = None /\ build_fault w = None.

(** A computation that, in such a world, has written nothing and leaves
    the world as it found it when it raises. *)
Definition fails_cleanly (path : string) {A} (m : M A) : Prop :=
  forall w, can_finish path w ->
            is_ok (outcome (m w)) = false ->
            world_after (m w) = w /\ count is_write (effects (m w)) = 0%nat.

(** A computation that, in such a world, does not raise. *)
Definition finishes (path : string) {A} (m : M A) : Prop :=
  forall w, can_finish path w -> is_ok (outcome (m w)) = true.

(** A computation that makes at most [n] provider calls. *)
Definition calls_at_most {A} (n : nat) (m : M A) : Prop :=
  forall w, (provider_calls (effects (m w)) <= n)%nat.

(** The same token, refresh token and expiry. *)
Definition same_token_material (a b : Credentials) : Prop :=
  token a = token b /\ refresh_token a = refresh_token b /\ expiry a = expiry b.

(* ===================================================================== *)
(** ** Further notions for the handler                                   *)
(* ===================================================================== *)

(** The first statement of [lambda_handler]'s [try] block:
    [int(event.get('queryStringParameters', {}).get('days', DEFAULT_DAYS))]. *)
Definition requested_days (int_of_str : string -> option Z) (event : pyval) : result Z :=
  ev <-- as_dict event ;;
  qs <-- as_dict (get_default ev "queryStringParameters" (PDict [])) ;;
  LambdaFunction.py_int int_of_str (get_default qs "days" (PInt LambdaFunction.DEFAULT_DAYS)).

(** Two worlds that differ at most in what /tmp/credentials.json and
    /tmp/token.json are. *)
Definition same_but_tmp_files (w1 w2 : World) : Prop :=
  now w1 = now w2 /\ environ w1 = environ w2 /\
  ssm_reachable w1 = ssm_reachable w2 /\ ssm_params w1 = ssm_params w2 /\
  ssm_put_fault w1 = ssm_put_fault w2 /\
  token_endpoint w1 = token_endpoint w2 /\ consent w1 = consent w2 /\
  write_fault w1 = write_fault w2 /\ build_fault w1 = build_fault w2 /\
  forall path, path <> "/tmp/credentials.json" -> path <> "/tmp/token.json" ->
               files w1 !! path = files w2 !! path.

(* ===================================================================== *)
(** ** Further notions for format_events                                 *)
(* ===================================================================== *)

(** The keys of a formatted event, in the order they are set. *)
Definition basic_keys : list string :=
  ["id"; "summary"; "start"; "end"; "is_all_day"].

Definition detail_keys : list string :=
  ["description"; "location"; "creator"; "organizer"; "attendees"; "status"; "link"].

(** The start date the provider supplied for an all-day event. *)
Definition raw_start_date (ev : pyval) : option Dates.date :=
  match ev with
  | PDict event =>
      match dict_get event "start" with
      | Some (PDict s) =>
          match time_value s with
          | PStr a =>
              match Dates.strptime_ymd a with
              | Ok d => Some d
              | Raise _ => None
              end
          | _ => None
          end
      | _ => None
      end
  | _ => None
  end.

(* ===================================================================== *)
(** ** Text operations                                                   *)
(* ===================================================================== *)

(** [needle in hay] on two texts: [needle] occurs somewhere in [hay]. *)
Fixpoint str_contains (needle hay : string) : bool :=
  String.prefix needle hay ||
  match hay with
  | EmptyString => false
  | String _ rest => str_contains needle rest
  end.

(** [s.split(sep)[0]] for a one-character separator: the text before the
    first [sep], or all of [s] when there is none. *)
Fixpoint before_first (sep : ascii) (s : string) : string :=
  match s with
  | EmptyString => EmptyString
  | String c rest => if Ascii.eqb c sep then EmptyString else String c (before_first sep rest)
  end.

(** [s.replace(c, by)] for a one-character [c]. *)
Fixpoint replace_char (c : ascii) (by_ : string) (s : string) : string :=
  match s with
  | EmptyString => EmptyString
  | String a rest =>
      if Ascii.eqb a c then by_ +:+ replace_char c by_ rest
      else String a (replace_char c by_ rest)
  end.

(** [s.endswith(suffix)]: some tail of [s] is [suffix]. *)
Fixpoint ends_with (suffix s : string) : bool :=
  String.eqb s suffix ||
  match s with
  | EmptyString => false
  | String _ rest => ends_with suffix rest
  end.

(** The line feed the sources write as a backslash followed by n. *)
Definition nl : string := String (Ascii.ascii_of_nat 10) EmptyString.

(** The characters of a text, each as a one-character text: what
    iterating over a [str] yields. *)
Fixpoint chars_of (s : string) : list pyval :=
  match s with
  | EmptyString => []
  | String c rest => PStr (String c EmptyString) :: chars_of rest
  end.

(** [x == 'T'] for a value [x] and a text. *)
Definition equals_text (t : string) (v : pyval) : bool :=
  match v with
  | PStr s => String.eqb s t
  | _ => false
  end.

(** [t in v] for a text [t]: substring of a text, element of a list, key
    of a dict; other values are not containers. *)
Definition text_in (t : string) (v : pyval) : result bool :=
  match v with
  | PStr s => Ok (str_contains t s)
  | PList l => Ok (existsb (equals_text t) l)
  | PDict d => Ok (dict_has d t)
  | _ => Raise (Exn TypeError ("argument of type '" +:+ type_name v +:+ "' is not iterable"))
  end.

(** [v[k]] for a text key [k]: only a dict can be indexed by a text. *)
Definition subscript (v : pyval) (k : string) : result pyval :=
  match v with
  | PDict d => getitem d k
  | PList _ => Raise (Exn TypeError "list indices must be integers or slices, not str")
  | PStr _ => Raise (Exn TypeError "string indices must be integers, not 'str'")
  | _ => Raise (Exn TypeError ("'" +:+ type_name v +:+ "' object is not subscriptable"))
  end.

(* ===================================================================== *)
(** ** get_calendar_events.py: format_event                              *)
(* ===================================================================== *)

Module EventLine.
Section WithLibraries.

(** [datetime.datetime.fromisoformat(s).strftime('%Y-%m-%d %H:%M:%S')] *)
Variable reformat_iso : string -> result string.

(** [str(v)], as an f-string shows a value that is not a text. *)
Variable py_str : pyval -> string.

(** How an f-string shows a value. *)
Definition shown (v : pyval) : string :=
  match v with
  | PStr s => s
  | _ => py_str v
  end.

(** The first part of [format_event]: [start], then [start_formatted]. *)
Definition start_formatted (event : pyval) : result string :=
  start_v <-- subscript event "start" ;;
  start_d <-- as_dict start_v ;;
  let start := get_default start_d "dateTime" (get_default start_d "date" PNone) in
  has_time <-- text_in "T" start ;;
  if has_time then
    match start with
    | PStr s => reformat_iso (replace_char "Z" "+00:00" s)
    | _ => Raise (no_attribute start "replace")
    end
  else Ok (shown start).

(** [format_event(event)] *)
Definition format_event (event : pyval) : result string :=
  start_text <-- start_formatted event ;;
  summary <-- subscript event "summary" ;;
  Ok (start_text +:+ " - " +:+ shown summary).

End WithLibraries.
End EventLine.


(* ===================================================================== *)
(** ** calendar_analysis_local.py: categorize_events, analyze_events     *)
(* ===================================================================== *)

(** A dict of lists, in insertion order: [categories], [events_by_day]. *)
Definition buckets := list (string * list pyval).

(** [d.get(k, [])] on a dict of lists *)
Fixpoint bucket (d : buckets) (k : string) : list pyval :=
  match d with
  | [] => []
  | (k', l) :: rest => if String.eqb k' k then l else bucket rest k
  end.

(** [len(events)] summed over the lists of a dict *)
Definition total (d : buckets) : nat :=
  list_sum (map (fun kl => length (snd kl)) d).

(** The keys of a dict, as iterating over it yields them. *)
Fixpoint dict_keys (d : list (string * pyval)) : list string :=
  match d with
  | [] => []
  | (k, _) :: rest =>
      k :: List.filter (fun k' => negb (String.eqb k' k)) (dict_keys rest)
  end.

(** [for x in v]: what iterating over a value yields. *)
Definition iterate (v : pyval) : result (list pyval) :=
  match v with
  | PList l => Ok l
  | PStr s => Ok (chars_of s)
  | PDict d => Ok (map PStr (dict_keys d))
  | _ => Raise (Exn TypeError ("'" +:+ type_name v +:+ "' object is not iterable"))
  end.

Module CalendarAnalysis.

(** The keys of [categories], in the order of the literal. *)
Definition CATEGORIES : list string :=
  ["work"; "meeting"; "personal"; "travel"; "social"; "health"; "other"].

Definition keywords : list (string * list string) :=
  [("work", ["work"; "project"; "deadline"; "report"; "task"; "review"; "client"]);
   ("meeting", ["meeting"; "call"; "conference"; "sync"; "discussion"; "interview";
                "1:1"; "1on1"]);
   ("travel", ["flight"; "train"; "trip"; "travel"; "commute"; "drive"; "airport"]);
   ("social", ["dinner"; "lunch"; "coffee"; "drinks"; "party"; "celebration";
               "birthday"; "wedding"; "restaurant"]);
   ("health", ["doctor"; "dentist"; "gym"; "workout"; "exercise"; "therapy";
               "medical"; "appointment"])].

(** The loop over [keywords.items()] with its [break]: the first category
    one of whose terms occurs in the text. *)
Fixpoint first_match (kw : list (string * list string)) (combined_text : string)
  : option string :=
  match kw with
  | [] => None
  | (category, terms) :: rest =>
      if existsb (fun term => str_contains term combined_text) terms
      then Some category
      else first_match rest combined_text
  end.

(** [categories[category].append(event)] *)
Fixpoint append_to (category : string) (event : pyval) (categories : buckets)
  : buckets :=
  match categories with
  | [] => []
  | (k, l) :: rest =>
      if String.eqb k category then (k, l ++ [event]) :: rest
      else (k, l) :: append_to category event rest
  end.

(** [attendee.split('@')[0]]: only a text has the method. *)
Definition local_part (attendee : pyval) : result string :=
  match attendee with
  | PStr s => Ok (before_first "@" s)
  | _ => Raise (no_attribute attendee "split")
  end.

(** The two steps of the loop that groups events by day: a new day gets
    an empty list, then the event is appended to the list of its day. *)
Fixpoint day_add (date_str : string) (event : pyval) (events_by_day : buckets)
  : buckets :=
  match events_by_day with
  | [] => [(date_str, [event])]
  | (k, l) :: rest =>
      if String.eqb k date_str then (k, l ++ [event]) :: rest
      else (k, l) :: day_add date_str event rest
  end.

(** [event['start'].split('T')[0] if 'T' in event['start'] else
    event['start']], as a key of [events_by_day]: a list or a dict that
    passes the test cannot be split and cannot be a key. *)
Definition date_str (event : pyval) : result string :=
  start <-- subscript event "start" ;;
  has_time <-- text_in "T" start ;;
  match start with
  | PStr s => Ok (if has_time then before_first "T" s else s)
  | _ =>
      if has_time then Raise (no_attribute start "split")
      else Raise (Exn TypeError ("unhashable type: '" +:+ type_name start +:+ "'"))
  end.

Fixpoint group_loop (events : list pyval) (events_by_day : buckets)
  : result buckets :=
  match events with
  | [] => Ok events_by_day
  | event :: rest =>
      day <-- date_str event ;;
      group_loop rest (day_add day event events_by_day)
  end.

(** The loop that fills [events_by_day]. *)
Definition group_by_day (events : list pyval) : result buckets :=
  group_loop events [].

(** [{k: len(l) for k, l in d.items()}] *)
Definition counts (d : buckets) : list (string * nat) :=
  map (fun kl => (fst kl, length (snd kl))) d.

(** [max(items, key=lambda x: x[1])]: the first item of the largest
    count. *)
Fixpoint max_from (best : string * nat) (items : list (string * nat))
  : string * nat :=
  match items with
  | [] => best
  | x :: rest =>
      if (snd best <? snd x)%nat then max_from x rest else max_from best rest
  end.

(** [min(items, key=lambda x: x[1])]: the first item of the smallest
    count. *)
Fixpoint min_from (best : string * nat) (items : list (string * nat))
  : string * nat :=
  match items with
  | [] => best
  | x :: rest =>
      if (snd x <? snd best)%nat then min_from x rest else min_from best rest
  end.

(** [max(day_counts.items(), ...) if day_counts else ("None", 0)] *)
Definition busiest_day (day_counts : list (string * nat)) : string * nat :=
  match day_counts with
  | [] => ("None", 0%nat)
  | x :: rest => max_from x rest
  end.

Definition lightest_day (day_counts : list (string * nat)) : string * nat :=
  match day_counts with
  | [] => ("None", 0%nat)
  | x :: rest => min_from x rest
  end.

(** [sorted(items, key=lambda x: x[1], reverse=True)]: by falling count,
    items of one count in the order they had. *)
Fixpoint insert_desc (x : string * nat) (sorted : list (string * nat))
  : list (string * nat) :=
  match sorted with
  | [] => [x]
  | y :: rest =>
      if (snd x <? snd y)%nat then y :: insert_desc x rest else x :: y :: rest
  end.

Definition sorted_desc (items : list (string * nat)) : list (string * nat) :=
  fold_right insert_desc [] items.

(** [category_counts.get(k, 0)] *)
Fixpoint count_of (category_counts : list (string * nat)) (k : string) : nat :=
  match category_counts with
  | [] => 0%nat
  | (k', n) :: rest => if String.eqb k' k then n else count_of rest k
  end.

Section WithLibraries.

(** [s.lower()] and [s.capitalize()] *)
Variable lower : string -> string.
Variable capitalize : string -> string.

(** How an f-string shows an integer, the quotient [a / b] with the
    format [.1f], and [a / b * 100] with the format [.1f]. *)
Variable show_int : Z -> string.
Variable show_ratio : nat -> nat -> string.
Variable show_percent : nat -> nat -> string.

(** [a > n * 0.7], in floating point. *)
Variable exceeds_70_percent : nat -> nat -> bool.

Definition show_nat (n : nat) : string := show_int (Z.of_nat n).

(** [v.lower()]: only a text has the method. *)
Definition lower_of (v : pyval) : result string :=
  match v with
  | PStr s => Ok (lower s)
  | _ => Raise (no_attribute v "lower")
  end.

(** [any(attendee.split('@')[0] in title.lower() for attendee in ...)]:
    it stops at the first attendee whose name occurs in the title. *)
Fixpoint any_attendee (title : string) (attendees : list pyval) : result bool :=
  match attendees with
  | [] => Ok false
  | attendee :: rest =>
      name <-- local_part attendee ;;
      if str_contains name (lower title) then Ok true
      else any_attendee title rest
  end.

(** The body of the loop of [categorize_events], up to the choice of the
    list the event is appended to. *)
Definition category_of (event : pyval) : result string :=
  d <-- as_dict event ;;
  title <-- lower_of (get_default d "summary" (PStr EmptyString)) ;;
  desc <-- lower_of (get_default d "description" (PStr EmptyString)) ;;
  location <-- lower_of (get_default d "location" (PStr EmptyString)) ;;
  let combined_text := title +:+ " " +:+ desc +:+ " " +:+ location in
  match first_match keywords combined_text with
  | Some category => Ok category
  | None =>
      attendees <-- iterate (get_default d "attendees" (PList [])) ;;
      personal <-- any_attendee title attendees ;;
      Ok (if personal then "personal" else "other")
  end.

Fixpoint categorize_loop (events : list pyval) (categories : buckets)
  : result buckets :=
  match events with
  | [] => Ok categories
  | event :: rest =>
      category <-- category_of event ;;
      categorize_loop rest (append_to category event categories)
  end.

(** [categorize_events(events)] *)
Definition categorize_events (events : list pyval) : result buckets :=
  categorize_loop events (map (fun c => (c, [])) CATEGORIES).

(** [{category: len(l) for category, l in categories.items() if l}] *)
Definition category_counts_of (categories : buckets) : list (string * nat) :=
  counts (List.filter (fun kl => negb (Nat.eqb (length (snd kl)) 0)) categories).

(** The loop that extends [analysis] by one entry per category. *)
Fixpoint distribution (n_events : nat) (items : list (string * nat)) : string :=
  match items with
  | [] => EmptyString
  | (category, count) :: rest =>
      (if (0 <? count)%nat
       then capitalize category +:+ ": " +:+ show_nat count +:+ " events ("
            +:+ show_percent count n_events +:+ "%), "
       else EmptyString)
      +:+ distribution n_events rest
  end.

(** The advice of [analyze_events], from the header to the last test. *)
Definition advice (n_events : nat) (category_counts : list (string * nat))
    (busiest : string * nat) : string :=
  let recommendations :=
    "Based on your calendar data, here are some suggestions:" +:+ nl in
  let recommendations :=
    if (length category_counts <=? 2)%nat
    then recommendations +:+ "- Your calendar appears to be focused on a limited number of categories. Consider diversifying your activities for better work-life balance." +:+ nl
    else recommendations in
  let recommendations :=
    if (5 <? snd busiest)%nat
    then recommendations +:+ "- Your busiest day (" +:+ fst busiest +:+ ") had "
         +:+ show_nat (snd busiest)
         +:+ " events. Consider spreading out commitments more evenly when possible." +:+ nl
    else recommendations in
  let recommendations :=
    if exceeds_70_percent
         (count_of category_counts "work" + count_of category_counts "meeting")
         n_events
    then recommendations +:+ "- Work-related events dominate your calendar. Consider allocating more time for personal activities and self-care." +:+ nl
    else recommendations in
  let recommendations :=
    if Nat.eqb (count_of category_counts "health") 0
    then recommendations +:+ "- No health-related events were found. Consider scheduling time for exercise or wellness activities." +:+ nl
    else recommendations in
  if negb (ends_with nl recommendations)
  then recommendations +:+ "- Your calendar appears to be well-balanced across different categories of activities."
  else recommendations.

(** [analyze_events(events, days_back)]: the dict it returns, as its
    items. *)
Definition analyze_events (events : list pyval) (days_back : Z)
  : result (list (string * string)) :=
  match events with
  | [] =>
      Ok [("summary", "No events found in the specified time period.");
          ("analysis", "No data to analyze.");
          ("recommendations", "No recommendations available.")]
  | _ :: _ =>
      categories <-- categorize_events events ;;
      let category_counts := category_counts_of categories in
      events_by_day <-- group_by_day events ;;
      let day_counts := counts events_by_day in
      let busiest := busiest_day day_counts in
      let lightest := lightest_day day_counts in
      let avg_events_per_day :=
        match events_by_day with
        | [] => "0.0"
        | _ :: _ => show_ratio (length events) (length events_by_day)
        end in
      let summary_text :=
        "Over the past " +:+ show_int days_back +:+ " days, you had "
        +:+ show_nat (length events) +:+ " events across "
        +:+ show_nat (length events_by_day) +:+ " days, averaging "
        +:+ avg_events_per_day +:+ " events per day. " in
      let analysis_text :=
        "Your calendar shows the following distribution of events: "
        +:+ distribution (length events) (sorted_desc category_counts)
        +:+ "Your busiest day was " +:+ fst busiest +:+ " with "
        +:+ show_nat (snd busiest) +:+ " events, while your lightest day was "
        +:+ fst lightest +:+ " with " +:+ show_nat (snd lightest) +:+ " events. " in
      Ok [("summary", summary_text);
          ("analysis", analysis_text);
          ("recommendations", advice (length events) category_counts busiest)]
  end.

End WithLibraries.
End CalendarAnalysis.

(** Events as the loops of [categorize_events] and of the grouping by
    day sort them: [in_category c] holds of the events appended to
    [categories[c]], [on_day d] of those appended to [events_by_day[d]]. *)
Definition in_category (lower : string -> string) (c : string) (event : pyval)
  : bool :=
  match CalendarAnalysis.category_of lower event with
  | Ok c' => String.eqb c' c
  | Raise _ => false
  end.

Definition on_day (day : string) (event : pyval) : bool :=
  match CalendarAnalysis.date_str event with
  | Ok d => String.eqb d day
  | Raise _ => false
  end.

(** Formatted events as [analyze_events] receives them, with texts in
    lower case, on which [lower] changes nothing. *)
Module AnalysisExamples.

Definition team_meeting : list (string * pyval) :=
  [("summary", PStr "team meeting"); ("start", PStr "2024-03-04T10:00:00+00:00")].

Definition nap : list (string * pyval) :=
  [("summary", PStr "nap"); ("start", PStr "2024-03-04")].

Definition visit : list (string * pyval) :=
  [("summary", PStr "visit bob"); ("attendees", PList [PStr "bob@example.com"]);
   ("start", PStr "2024-03-05")].

Definition lunch_meeting : list (string * pyval) :=
  [("summary", PStr "lunch meeting"); ("start", PStr "2024-03-05")].

(** An attendee without an address, as [format_events] passes it on. *)
Definition no_address : list (string * pyval) :=
  [("summary", PStr "nap"); ("attendees", PList [PNone]); ("start", PStr "2024-03-05")].

Definition odd_address : list (string * pyval) :=
  [("summary", PStr "nap"); ("attendees", PList [PStr "@x"]); ("start", PStr "2024-03-05")].

Definition week : list pyval :=
  [PDict team_meeting; PDict nap; PDict visit; PDict lunch_meeting; PDict odd_address].

Definition sorted_week : buckets :=
  [("work", []);
   ("meeting", [PDict team_meeting; PDict lunch_meeting]);
   ("personal", [PDict visit; PDict odd_address]);
   ("travel", []); ("social", []); ("health", []);
   ("other", [PDict nap])].

Definition week_by_day : buckets :=
  [("2024-03-04", [PDict team_meeting; PDict nap]);
   ("2024-03-05", [PDict visit; PDict lunch_meeting; PDict odd_address])].

Definition as_is (s : string) : string := s.
Definition no_text (z : Z) : string := EmptyString.
Definition no_quotient (a b : nat) : string := EmptyString.

(** [a > n * 0.7] where the product is exact: [10 * a > 7 * n]. *)
Definition exceeds_exactly (a n : nat) : bool := (7 * n <? 10 * a)%nat.

Definition analyze_events :=
  CalendarAnalysis.analyze_events as_is as_is no_text no_quotient no_quotient
    exceeds_exactly.

End AnalysisExamples.
(* ===================================================================== *)
(** ** Proof support: runs of monadic code                               *)
(* ===================================================================== *)

Lemma bind_run {A B} (m : M A) (k : A -> M B) w a w1 t1 :
  m w = (Ok a, w1, t1) ->
  bind m k w = (outcome (k a w1), world_after (k a w1), t1 ++ effects (k a w1)).
Proof.
  intros H. unfold bind, outcome, world_after, effects. rewrite H.
  destruct (k a w1) as [[r w2] t2]. reflexivity.
Qed.

Lemma bind_run_raise {A B} (m : M A) (k : A -> M B) w e w1 t1 :
  m w = (Raise e, w1, t1) -> bind m k w = (Raise e, w1, t1).
Proof. intros H. unfold bind. rewrite H. reflexivity. Qed.

Lemma bind_assoc {A B C} (m : M A) (k : A -> M B) (h : B -> M C) w :
  bind (bind m k) h w = bind m (fun a => bind (k a) h) w.
Proof.
  unfold bind. destruct (m w) as [[[a|e] w1] t1]; [| reflexivity].
  destruct (k a w1) as [[[b|e] w2] t2]; [| reflexivity].
  destruct (h b w2) as [[r w3] t3]. rewrite app_assoc. reflexivity.
Qed.

Lemma run_eta {A} (x : result A * World * list Event) :
  x = (outcome x, world_after x, effects x).
Proof. destruct x as [[r w] t]. reflexivity. Qed.

Section Structural.
Context {A B : Type} (P : Event -> bool).

Lemma emits_only_ret (a : A) : emits_only P (ret a).
Proof. intros w. reflexivity. Qed.

Lemma emits_only_raise (e : exn) : emits_only P (@raise A e).
Proof. intros w. reflexivity. Qed.

Lemma emits_only_lift (r : result A) : emits_only P (lift r).
Proof. intros w. reflexivity. Qed.

Lemma emits_only_bind (m : M A) (k : A -> M B) :
  emits_only P m -> (forall a, emits_only P (k a)) -> emits_only P (bind m k).
Proof.
  intros Hm Hk w. specialize (Hm w). unfold bind, effects in *.
  destruct (m w) as [[[a|e] w1] t1]; cbn in *; [| exact Hm].
  specialize (Hk a w1). unfold effects in Hk.
  destruct (k a w1) as [[r w2] t2]; cbn in *.
  rewrite forallb_app, Hm, Hk. reflexivity.
Qed.

Lemma emits_only_try (m : M A) (h : exn -> M A) :
  emits_only P m -> (forall e, emits_only P (h e)) -> emits_only P (try_except m h).
Proof.
  intros Hm Hh w. specialize (Hm w). unfold try_except, effects in *.
  destruct (m w) as [[[a|e] w1] t1]; cbn in *; [exact Hm |].
  specialize (Hh e w1). unfold effects in Hh.
  destruct (h e w1) as [[r w2] t2]; cbn in *.
  rewrite forallb_app, Hm, Hh. reflexivity.
Qed.

Lemma keeps_world_ret (a : A) : keeps_world (ret a).
Proof. intros w. reflexivity. Qed.

Lemma keeps_world_lift (r : result A) : keeps_world (lift r).
Proof. intros w. reflexivity. Qed.

Lemma keeps_world_raise (e : exn) : keeps_world (@raise A e).
Proof. intros w. reflexivity. Qed.

Lemma keeps_world_bind (m : M A) (k : A -> M B) :
  keeps_world m -> (forall a, keeps_world (k a)) -> keeps_world (bind m k).
Proof.
  intros Hm Hk w. specialize (Hm w). unfold bind, world_after in *.
  destruct (m w) as [[[a|e] w1] t1]; cbn in *; [| exact Hm].
  specialize (Hk a w1). unfold world_after in Hk.
  destruct (k a w1) as [[r w2] t2]; cbn in *. congruence.
Qed.

Lemma keeps_world_try (m : M A) (h : exn -> M A) :
  keeps_world m -> (forall e, keeps_world (h e)) -> keeps_world (try_except m h).
Proof.
  intros Hm Hh w. specialize (Hm w). unfold try_except, world_after in *.
  destruct (m w) as [[[a|e] w1] t1]; cbn in *; [exact Hm |].
  specialize (Hh e w1). unfold world_after in Hh.
  destruct (h e w1) as [[r w2] t2]; cbn in *. congruence.
Qed.

Lemma never_raises_ret (a : A) : never_raises (ret a).
Proof. intros w. reflexivity. Qed.

Lemma never_raises_bind (m : M A) (k : A -> M B) :
  never_raises m -> (forall a, never_raises (k a)) -> never_raises (bind m k).
Proof.
  intros Hm Hk w. specialize (Hm w). unfold bind, outcome in *.
  destruct (m w) as [[[a|e] w1] t1]; cbn in *; [| discriminate].
  specialize (Hk a w1). unfold outcome in Hk.
  destruct (k a w1) as [[r w2] t2]; cbn in *. exact Hk.
Qed.

Lemma never_raises_try (m : M A) (h : exn -> M A) :
  (forall e, never_raises (h e)) -> never_raises (try_except m h).
Proof.
  intros Hh w. unfold try_except, outcome.
  destruct (m w) as [[[a|e] w1] t1]; cbn; [reflexivity |].
  specialize (Hh e w1). unfold outcome in Hh.
  destruct (h e w1) as [[r w2] t2]; cbn in *. exact Hh.
Qed.
End Structural.

Lemma emits_only_emit P e : P e = true -> emits_only P (emit e).
Proof. intros H w. cbn. rewrite H. reflexivity. Qed.

Lemma emits_only_print P msg : P (Printed msg) = true -> emits_only P (print msg).
Proof. apply emits_only_emit. Qed.

Lemma emits_only_exists P path :
  P (PathExists path) = true -> emits_only P (os_path_exists path).
Proof. intros H w. cbn. rewrite H. reflexivity. Qed.

Lemma emits_only_read P path :
  P (ReadFile path) = true -> emits_only P (read_file path).
Proof.
  intros H w. unfold read_file, effects.
  destruct (files w !! path) as [[t|]|]; cbn; rewrite H; reflexivity.
Qed.

Lemma emits_only_write P path t :
  P (WriteFile path t) = true -> emits_only P (write_file path t).
Proof.
  intros H w. unfold write_file, effects.
  destruct (write_fault w path) as [[e|e]|]; cbn; rewrite H; reflexivity.
Qed.

Lemma emits_only_open_for_writing P path :
  P (OpenForWriting path) = true -> emits_only P (open_for_writing path).
Proof.
  intros H w. unfold open_for_writing, effects.
  destruct (write_fault w path) as [[e|e]|]; cbn; rewrite H; reflexivity.
Qed.

Lemma emits_only_write_opened P path t :
  P (WriteFile path t) = true -> emits_only P (write_opened path t).
Proof.
  intros H w. unfold write_opened, effects.
  destruct (write_fault w path) as [[e|e]|]; cbn; rewrite H; reflexivity.
Qed.

Lemma emits_only_from_info P t required :
  emits_only P (creds_from_authorized_user_info t required).
Proof. intros w. reflexivity. Qed.

Lemma emits_only_build P c : emits_only P (build c).
Proof. intros w. unfold build, effects. destruct (build_fault w); reflexivity. Qed.

Lemma emits_only_ssm_get P name :
  P (SsmGet name) = true -> emits_only P (ssm_get_parameter name).
Proof.
  intros H w. unfold ssm_get_parameter, effects.
  destruct (ssm_reachable w); [destruct (ssm_params w !! name) |]; cbn;
    rewrite H; reflexivity.
Qed.

Lemma emits_only_ssm_put P name t :
  P (SsmPut name t) = true -> emits_only P (ssm_put_parameter name t).
Proof.
  intros H w. unfold ssm_put_parameter, effects.
  destruct (ssm_put_fault w) as [[e [o|]]|]; cbn; rewrite H; reflexivity.
Qed.

Lemma emits_only_refresh P c :
  P (Refresh c) = true -> emits_only P (creds_refresh c).
Proof.
  intros H w. unfold creds_refresh, effects.
  destruct (token_endpoint w c); cbn; rewrite H; reflexivity.
Qed.

Lemma emits_only_valid P c : emits_only P (creds_valid c).
Proof. intros w. reflexivity. Qed.

Lemma emits_only_expired P c : emits_only P (creds_expired c).
Proof. intros w. reflexivity. Qed.

Lemma keeps_world_print msg : keeps_world (print msg).
Proof. intros w. reflexivity. Qed.

Lemma keeps_world_exists path : keeps_world (os_path_exists path).
Proof. intros w. reflexivity. Qed.

Lemma keeps_world_read path : keeps_world (read_file path).
Proof.
  intros w. unfold read_file, world_after.
  destruct (files w !! path) as [[t|]|]; reflexivity.
Qed.

Lemma keeps_world_ssm_get name : keeps_world (ssm_get_parameter name).
Proof.
  intros w. unfold ssm_get_parameter, world_after.
  destruct (ssm_reachable w); [destruct (ssm_params w !! name) |]; reflexivity.
Qed.

Lemma keeps_world_valid c : keeps_world (creds_valid c).
Proof. intros w. reflexivity. Qed.

Lemma keeps_world_expired c : keeps_world (creds_expired c).
Proof. intros w. reflexivity. Qed.

Lemma keeps_world_from_info t required :
  keeps_world (creds_from_authorized_user_info t required).
Proof. intros w. reflexivity. Qed.

Lemma keeps_world_build c : keeps_world (build c).
Proof. intros w. unfold build, world_after. destruct (build_fault w); reflexivity. Qed.

Lemma never_raises_print msg : never_raises (print msg).
Proof. intros w. reflexivity. Qed.

Lemma never_raises_exists path : never_raises (os_path_exists path).
Proof. intros w. reflexivity. Qed.

(** Follow the structure of a computation, splitting on the tests it
    makes; the side conditions on single events hold by computation. *)
Ltac structural :=
  repeat first
    [ apply emits_only_bind; [| intros ?]
    | apply emits_only_try; [| intros ?]
    | apply emits_only_ret | apply emits_only_raise | apply emits_only_lift
    | apply emits_only_valid | apply emits_only_expired
    | apply emits_only_from_info | apply emits_only_build
    | apply emits_only_open_for_writing; reflexivity
    | apply emits_only_write_opened; reflexivity
    | apply emits_only_print; reflexivity
    | apply emits_only_exists; reflexivity
    | apply emits_only_read; reflexivity
    | apply emits_only_write; reflexivity
    | apply emits_only_ssm_get; reflexivity
    | apply emits_only_ssm_put; reflexivity
    | apply emits_only_refresh; reflexivity
    | apply keeps_world_bind; [| intros ?]
    | apply keeps_world_try; [| intros ?]
    | apply keeps_world_ret | apply keeps_world_raise | apply keeps_world_lift
    | apply keeps_world_print | apply keeps_world_exists | apply keeps_world_read
    | apply keeps_world_ssm_get | apply keeps_world_valid | apply keeps_world_expired
    | apply keeps_world_from_info | apply keeps_world_build
    | apply never_raises_bind; [| intros ?]
    | apply never_raises_try; intros ?
    | apply never_raises_ret | apply never_raises_print | apply never_raises_exists
    | match goal with
      | |- context [match ?x with _ => _ end] => destruct x
      end ].

(* ===================================================================== *)
(** ** The credential procedures: loading                                *)
(* ===================================================================== *)

Lemma valid_loaded_future now stored tok e :
  token stored = Some tok -> expiry stored = Some e -> now + REFRESH_THRESHOLD < e ->
  valid now (loaded stored) = true.
Proof.
  intros Ht He Hlt. unfold valid, expired, loaded; cbn. rewrite Ht, He.
  destruct (Z.leb_spec (e - REFRESH_THRESHOLD) now); [lia | reflexivity].
Qed.

Lemma expired_loaded_near now stored e :
  expiry stored = Some e -> e - REFRESH_THRESHOLD <= now ->
  expired now (loaded stored) = true.
Proof.
  intros He Hle. unfold expired, loaded; cbn. rewrite He.
  destruct (Z.leb_spec (e - REFRESH_THRESHOLD) now); [reflexivity | lia].
Qed.

Lemma expired_loaded_past now stored e :
  expiry stored = Some e -> e <= now -> expired now (loaded stored) = true.
Proof.
  intros He Hle. apply (expired_loaded_near _ _ e He).
  unfold REFRESH_THRESHOLD. lia.
Qed.

Lemma opt_truthy_some o : opt_truthy o = true -> exists s, o = Some s.
Proof. destruct o as [s|]; [eexists; reflexivity | discriminate]. Qed.

(** A stored record with a refresh token and an expiry loads as it is. *)
Lemma from_info_loaded now stored rt e :
  refresh_token stored = Some rt -> expiry stored = Some e ->
  from_authorized_user_info now (TokenJson stored) SCOPES = Ok (loaded stored).
Proof.
  intros Hr He. unfold from_authorized_user_info, loaded. rewrite Hr, He. reflexivity.
Qed.

Lemma expired_not_valid now c : expired now c = true -> valid now c = false.
Proof. intros H. unfold valid. rewrite H. destruct (token c); reflexivity. Qed.

Lemma valid_not_expired now c : valid now c = true -> expired now c = false.
Proof.
  intros H. destruct (expired now c) eqn:E; [| reflexivity].
  rewrite (expired_not_valid _ _ E) in H. discriminate.
Qed.

Lemma acquire_split d w : acquire d w = bind (load_stored d) (after_load d) w.
Proof.
  destruct d as [self | | self]; cbn; try reflexivity.
  unfold LambdaCalendarApi._authenticate, LambdaCalendarApi.load.
  symmetry. apply bind_assoc.
Qed.

(** Running [acquire] once the loading step is known. *)
Lemma acquire_after_load d w creds t0 :
  load_stored d w = (Ok creds, w, t0) ->
  acquire d w = (outcome (after_load d creds w), world_after (after_load d creds w),
                 t0 ++ effects (after_load d creds w)).
Proof. intros H. rewrite acquire_split. apply bind_run. exact H. Qed.

Lemma quiet_app t1 t2 : quiet (t1 ++ t2) = quiet t1 && quiet t2.
Proof. apply forallb_app. Qed.

Lemma count_app p t1 t2 : count p (t1 ++ t2) = (count p t1 + count p t2)%nat.
Proof. induction t1 as [| e t1 IH]; cbn; [reflexivity | rewrite IH; lia]. Qed.

Lemma quiet_counts t :
  quiet t = true ->
  count is_refresh t = 0%nat /\ count is_grant t = 0%nat /\ count is_write t = 0%nat.
Proof.
  induction t as [| e t IH]; cbn; [auto |].
  intros H. apply andb_true_iff in H as [He Ht]. destruct (IH Ht) as (-> & -> & ->).
  destruct e; cbn in *; try discriminate; auto.
Qed.

(** Loading in the Lambda class never raises, changes nothing, and only
    reads. *)
Lemma lambda_load_ps_shape self w :
  exists creds t, LambdaCalendarApi.load_from_parameter_store self w = (Ok creds, w, t)
                  /\ quiet t = true /\ forallb (fun e => negb (is_file_read e)) t = true.
Proof.
  unfold LambdaCalendarApi.load_from_parameter_store,
    LambdaCalendarApi._get_token_from_parameter_store.
  destruct (LambdaCalendarApi.parameter_store_token_name self) as [name|];
    [| do 2 eexists; split; [reflexivity | split; reflexivity]].
  destruct (str_truthy name);
    [| do 2 eexists; split; [reflexivity | split; reflexivity]].
  cbn. unfold bind, try_except, ssm_get_parameter, creds_from_authorized_user_info,
    from_authorized_user_info.
  destruct (ssm_reachable w); [destruct (ssm_params w !! name) as [[s|c]|] |]; cbn;
    try (do 2 eexists; split; [reflexivity | split; reflexivity]).
  - destruct (str_truthy s); cbn; do 2 eexists; split; try reflexivity; split; reflexivity.
  - destruct (refresh_token c); cbn; do 2 eexists; split; try reflexivity; split; reflexivity.
Qed.

Lemma lambda_load_file_shape self creds w :
  exists creds' t, LambdaCalendarApi.load_from_file self creds w = (Ok creds', w, t)
                   /\ quiet t = true.
Proof.
  unfold LambdaCalendarApi.load_from_file.
  destruct creds as [c|]; [do 2 eexists; split; reflexivity |].
  unfold bind, try_except, os_path_exists, read_file, creds_from_authorized_user_info,
    from_authorized_user_info.
  destruct (files w !! LambdaCalendarApi.token_path self) as [[[s|c]|]|] eqn:E;
    cbn; rewrite ?E; cbn; try destruct (refresh_token c); cbn;
    do 2 eexists; split; reflexivity.
Qed.

Lemma lambda_load_shape self w :
  exists creds t, LambdaCalendarApi.load self w = (Ok creds, w, t) /\ quiet t = true.
Proof.
  destruct (lambda_load_ps_shape self w) as (c1 & t1 & H1 & Q1 & _).
  destruct (lambda_load_file_shape self c1 w) as (c2 & t2 & H2 & Q2).
  exists c2, (t1 ++ t2). split.
  - unfold LambdaCalendarApi.load. rewrite (bind_run _ _ _ _ _ _ H1), H2. reflexivity.
  - rewrite quiet_app, Q1, Q2. reflexivity.
Qed.

Lemma remote_name_none_load self w :
  remote_name (LambdaClass self) = None ->
  LambdaCalendarApi.load_from_parameter_store self w = (Ok None, w, []).
Proof.
  unfold remote_name, LambdaCalendarApi.load_from_parameter_store,
    LambdaCalendarApi._get_token_from_parameter_store.
  destruct (LambdaCalendarApi.parameter_store_token_name self) as [name|]; [| reflexivity].
  destruct (str_truthy name); [discriminate | reflexivity].
Qed.

Lemma remote_name_some self name :
  remote_name (LambdaClass self) = Some name ->
  LambdaCalendarApi.parameter_store_token_name self = Some name /\ str_truthy name = true.
Proof.
  unfold remote_name.
  destruct (LambdaCalendarApi.parameter_store_token_name self) as [n|]; [| discriminate].
  destruct (str_truthy n) eqn:E; [| discriminate]. intros [= <-]. auto.
Qed.

(** The first effect of the remote load is the call to the store. *)
Lemma lambda_load_ps_first self w name :
  remote_name (LambdaClass self) = Some name ->
  exists rest, effects (LambdaCalendarApi.load_from_parameter_store self w) = SsmGet name :: rest.
Proof.
  intros Hn. apply remote_name_some in Hn as [Hp Ht].
  unfold LambdaCalendarApi.load_from_parameter_store,
    LambdaCalendarApi._get_token_from_parameter_store.
  rewrite Hp, Ht. cbn. unfold bind, try_except, ssm_get_parameter,
    creds_from_authorized_user_info, from_authorized_user_info.
  destruct (ssm_reachable w); [destruct (ssm_params w !! name) as [[s|c]|] |]; cbn;
    try (eexists; reflexivity).
  - destruct (str_truthy s); cbn; eexists; reflexivity.
  - destruct (refresh_token c); cbn; eexists; reflexivity.
Qed.

(** A record the stores hold, with a refresh token and an expiry, is
    what the loading step returns. *)
Lemma holds_load d w stored rt e :
  holds d w stored ->
  refresh_token stored = Some rt -> expiry stored = Some e ->
  exists t0, load_stored d w = (Ok (Some (loaded stored)), w, t0) /\ quiet t0 = true.
Proof.
  intros Hh Hrt He.
  pose proof (from_info_loaded (now w) stored rt e Hrt He) as Hinfo.
  destruct d as [self | | self]; cbn in Hh |- *.
  - eexists. unfold CalendarApi.load_token, bind, try_except,
      os_path_exists, read_file, creds_from_authorized_user_info.
    rewrite !Hh. cbn -[from_authorized_user_info]. rewrite Hinfo. cbn. split; reflexivity.
  - eexists. unfold GetCalendarEvents.load_token, bind, os_path_exists,
      read_file, creds_from_authorized_user_info.
    rewrite !Hh. cbn -[from_authorized_user_info]. rewrite Hinfo. cbn. split; reflexivity.
  - destruct Hh as [(name & Hn & Hr & Hp) | (Hps & Hf)].
    + apply remote_name_some in Hn as [Hc Ht].
      eexists. unfold LambdaCalendarApi.load, LambdaCalendarApi.load_from_parameter_store,
        LambdaCalendarApi._get_token_from_parameter_store, bind, try_except,
        ssm_get_parameter, creds_from_authorized_user_info.
      rewrite Hc, Ht. cbn -[from_authorized_user_info]. rewrite Hr, Hp. cbn -[from_authorized_user_info]. rewrite Hinfo. cbn.
      split; reflexivity.
    + destruct (lambda_load_ps_shape self w) as (c1 & t1 & H1 & Q1 & _).
      rewrite H1 in Hps. cbn in Hps. injection Hps as ->.
      exists (t1 ++ [PathExists (LambdaCalendarApi.token_path self);
                     ReadFile (LambdaCalendarApi.token_path self)]).
      unfold LambdaCalendarApi.load. rewrite (bind_run _ _ _ _ _ _ H1).
      unfold LambdaCalendarApi.load_from_file, bind, try_except, os_path_exists, read_file,
        creds_from_authorized_user_info.
      rewrite !Hf. cbn -[from_authorized_user_info]. rewrite Hinfo. cbn. split; [reflexivity |].
      rewrite quiet_app, Q1. reflexivity.
Qed.

(* ===================================================================== *)
(** ** The credential procedures: after loading                          *)
(* ===================================================================== *)

Ltac unfold_after_load :=
  unfold after_load, CalendarApi.obtain, GetCalendarEvents.obtain,
    LambdaCalendarApi.refresh_or_fail, LambdaCalendarApi._save_token_to_parameter_store,
    bind, try_except, creds_valid, creds_expired, creds_refresh, write_file,
    ssm_put_parameter, build, ret, raise, print, emit.

(** Valid credentials are returned as they are. *)
Lemma after_load_valid d c w :
  valid (now w) c = true -> build_fault w = None ->
  after_load d (Some c) w = (Ok c, w, []).
Proof.
  intros Hv Hb. destruct d; unfold_after_load; rewrite Hv; cbn; rewrite Hb; reflexivity.
Qed.

(** What [build] gives when it does not fail. *)
Lemma build_run c w :
  build c w = (match build_fault w with Some e => Raise e | None => Ok c end, w, []).
Proof. unfold build. destruct (build_fault w); reflexivity. Qed.

(** With valid credentials only [build] is left to do. *)
Lemma after_load_valid_build d c w :
  valid (now w) c = true -> after_load d (Some c) w = build c w.
Proof.
  intros Hv. destruct d; unfold_after_load; rewrite Hv; cbn;
    destruct (build_fault w); reflexivity.
Qed.

(** A refresh that the provider rejects ends the procedure there. *)
Lemma after_load_refresh_rejected d c w err :
  expired (now w) c = true -> opt_truthy (refresh_token c) = true ->
  token_endpoint w c = Raise err ->
  after_load d (Some c) w = (Raise err, w, [Refresh c]).
Proof.
  intros He Hr Ht. pose proof (expired_not_valid _ _ He) as Hv.
  destruct d; unfold_after_load;
    repeat (progress (cbn; rewrite ?Hv, ?He, ?Hr, ?Ht)); reflexivity.
Qed.

(** A successful refresh in the two local procedures. *)
Lemma after_load_refreshed_local d c w reply :
  (forall self, d <> LambdaClass self) ->
  expired (now w) c = true -> opt_truthy (refresh_token c) = true ->
  token_endpoint w c = Ok reply ->
  write_fault w (token_file d) = None -> build_fault w = None ->
  after_load d (Some c) w =
    (Ok (apply_refresh c reply),
     with_file (token_file d) (to_json (apply_refresh c reply)) w,
     [Refresh c; WriteFile (token_file d) (to_json (apply_refresh c reply))]).
Proof.
  intros Hd He Hr Ht Hw Hb. pose proof (expired_not_valid _ _ He) as Hv.
  destruct d as [self | | self]; [| | destruct (Hd self); reflexivity];
    cbn [token_file] in Hw; unfold_after_load;
    repeat (progress (cbn; rewrite ?Hv, ?He, ?Hr, ?Ht, ?Hw, ?Hb)); reflexivity.
Qed.

(** A successful refresh in the Lambda class: the token file is written,
    then the parameter store is tried. *)
Lemma after_load_refreshed_lambda self c w reply :
  expired (now w) c = true -> opt_truthy (refresh_token c) = true ->
  token_endpoint w c = Ok reply ->
  write_fault w (LambdaCalendarApi.token_path self) = None -> build_fault w = None ->
  let d := LambdaClass self in
  let c' := apply_refresh c reply in
  let w1 := with_file (token_file d) (to_json c') w in
  after_load d (Some c) w =
    match remote_name d with
    | None => (Ok c', w1, [Refresh c; WriteFile (token_file d) (to_json c')])
    | Some name =>
        match ssm_put_fault w with
        | None =>
            (Ok c', with_param name (to_json c') w1,
             [Refresh c; WriteFile (token_file d) (to_json c'); SsmPut name (to_json c')])
        | Some (err, concurrent) =>
            (Ok c',
             match concurrent with
             | Some other => with_param name other w1
             | None => w1
             end,
             [Refresh c; WriteFile (token_file d) (to_json c'); SsmPut name (to_json c');
              Printed ("Error saving token to Parameter Store: " +:+ str err)])
        end
    end.
Proof.
  intros He Hr Ht Hw Hb. pose proof (expired_not_valid _ _ He) as Hv. cbn zeta.
  unfold remote_name. unfold_after_load.
  repeat (progress (cbn; rewrite ?Hv, ?He, ?Hr, ?Ht, ?Hw, ?Hb)).
  destruct (LambdaCalendarApi.parameter_store_token_name self) as [name|];
    [| cbn; rewrite Hb; reflexivity].
  destruct (str_truthy name); cbn; [| rewrite Hb; reflexivity].
  destruct (ssm_put_fault w) as [[err [other|]]|]; cbn; rewrite Hb; reflexivity.
Qed.

(** Without usable credentials the Lambda class raises, touching nothing. *)
Lemma after_load_lambda_unusable self creds w :
  classify (now w) creds <> Valid -> classify (now w) creds <> Refreshable ->
  after_load (LambdaClass self) creds w =
    (Raise (Exn ValueError
              (match creds with
               | Some _ => LambdaCalendarApi.token_expired_msg
               | None => LambdaCalendarApi.no_credentials_msg
               end)), w, []).
Proof.
  intros Hv Hr. destruct creds as [c|]; [| reflexivity].
  unfold classify in *. unfold_after_load.
  destruct (valid (now w) c); [congruence |].
  destruct (expired (now w) c && opt_truthy (refresh_token c)) eqn:E; [congruence |].
  cbn. rewrite E. reflexivity.
Qed.

(* ===================================================================== *)
(** ** Claims about the credential procedures                            *)
(* ===================================================================== *)

(** No branch of the procedures looks at scopes. *)
Lemma classify_never_scope_mismatch now creds : classify now creds <> ScopeMismatch.
Proof.
  unfold classify. destruct creds as [c|]; [| discriminate].
  destruct (valid now c); [discriminate |].
  destruct (expired now c && opt_truthy (refresh_token c)); discriminate.
Qed.

(** C1, as stated, fails: a stored record good until 2000 that was granted
    no scope at all, a strict subset of the required scopes, is sorted as
    [Valid] and [_authenticate] returns it after reading the token file,
    with no grant. *)
Lemma narrow_scopes_accepted :
  let d := LocalClass Examples.local_api in
  let w := Examples.workstation (TokenJson Examples.narrow_record)
             Examples.rejecting_endpoint in
  strict_subset (scopes Examples.narrow_record) SCOPES /\
  holds d w Examples.narrow_record /\
  expiry Examples.narrow_record = Some 2000 /\ now w < 2000 /\
  classify (now w) (Some (loaded Examples.narrow_record)) = Valid /\
  acquire d w = (Ok (loaded Examples.narrow_record), w,
                 [PathExists "token.json"; ReadFile "token.json"]).
Proof.
  cbn zeta. split; [split |].
  - intros x Hx. inversion Hx.
  - intros H. specialize (H _ (list_elem_of_here _ _)). inversion H.
  - repeat split.
Qed.

(** C1 (amended): a stored record that holds an access token and a
    refresh token and whose expiry lies further ahead than the library's
    refresh threshold is sorted as [Valid] whatever scopes it was
    granted: in all three procedures [acquire] makes no refresh, no grant
    and no write and leaves the world as it was, and, [build] giving a
    service object, it returns the record with the required scopes
    attached. *)
Theorem future_expiry_accepted_whatever_scopes d w stored tok rt e :
  holds d w stored ->
  token stored = Some tok ->
  refresh_token stored = Some rt ->
  expiry stored = Some e ->
  now w + REFRESH_THRESHOLD < e ->
  classify (now w) (Some (loaded stored)) = Valid /\
  (build_fault w = None -> outcome (acquire d w) = Ok (loaded stored)) /\
  world_after (acquire d w) = w /\
  quiet (effects (acquire d w)) = true /\
  (forall now' creds, classify now' creds <> ScopeMismatch).
Proof.
  intros Hh Ht Hrt He Hlt.
  pose proof (valid_loaded_future _ _ _ _ Ht He Hlt) as Hv.
  destruct (holds_load _ _ _ _ _ Hh Hrt He) as (t0 & Hl & Hq).
  rewrite (acquire_after_load _ _ _ _ Hl), (after_load_valid_build _ _ _ Hv), build_run.
  cbn [outcome world_after effects fst snd].
  split; [| split; [| split; [| split]]]; try reflexivity.
  - unfold classify. rewrite Hv. reflexivity.
  - intros ->. reflexivity.
  - rewrite app_nil_r. exact Hq.
  - intros now' creds. apply classify_never_scope_mismatch.
Qed.

Lemma future_expiry_accepted_witness :
  outcome (acquire (LocalClass Examples.local_api)
             (Examples.workstation (TokenJson Examples.narrow_record)
                Examples.rejecting_endpoint))
  = Ok (loaded Examples.narrow_record) /\
  quiet (effects (acquire (LocalClass Examples.local_api)
                    (Examples.workstation (TokenJson Examples.narrow_record)
                       Examples.rejecting_endpoint))) = true.
Proof.
  destruct (future_expiry_accepted_whatever_scopes
              (LocalClass Examples.local_api)
              (Examples.workstation (TokenJson Examples.narrow_record)
                 Examples.rejecting_endpoint)
              Examples.narrow_record "ya29.a0" "1//0g" 2000)
    as (_ & Hout & _ & Hquiet & _);
    [reflexivity | reflexivity | reflexivity | reflexivity | reflexivity |].
  split; [apply Hout; reflexivity | exact Hquiet].
Defined.

(** C4, as stated, fails: a stored record with the required scopes whose
    expiry is in the future, but less than the refresh threshold ahead,
    is not valid for the library.  Each [acquire] calls the token
    endpoint; with a provider that rejects the refresh, the second
    [acquire] right after the first makes that call again and raises. *)
Lemma near_expiry_refreshed_each_time :
  let d := LocalClass Examples.local_api in
  let w := Examples.workstation (TokenJson Examples.closing_record)
             Examples.rejecting_endpoint in
  let first := acquire d w in
  let second := acquire d (world_after first) in
  holds d w Examples.closing_record /\
  expiry Examples.closing_record = Some 1100 /\ now w < 1100 /\
  SCOPES ⊆ scopes Examples.closing_record /\
  classify (now w) (Some (loaded Examples.closing_record)) = Refreshable /\
  effects second =
    [PathExists "token.json"; ReadFile "token.json";
     Refresh (loaded Examples.closing_record)] /\
  count is_refresh (effects second) = 1%nat /\
  outcome second =
    Raise (Exn RefreshError "invalid_grant: Token has been expired or revoked.").
Proof.
  cbn zeta. split; [reflexivity |]. split; [reflexivity |]. split; [reflexivity |].
  split; [intros x Hx; exact Hx |]. repeat split.
Qed.

(** C4 (amended): with a stored record that holds an access token and a
    refresh token, has its expiry further ahead than the library's
    refresh threshold and was granted the required scopes, and [build]
    giving a service object, a second [acquire] right after the first
    makes no refresh, no grant and no write, returns the record as
    stored, and leaves the world as it was before the first. *)
Theorem acquire_idempotent_on_valid d w stored tok rt e :
  holds d w stored ->
  token stored = Some tok ->
  refresh_token stored = Some rt ->
  expiry stored = Some e ->
  now w + REFRESH_THRESHOLD < e ->
  build_fault w = None ->
  SCOPES ⊆ scopes stored ->
  let first := acquire d w in
  let second := acquire d (world_after first) in
  outcome first = Ok (loaded stored) /\
  outcome second = Ok (loaded stored) /\
  quiet (effects second) = true /\
  world_after second = w /\
  token (loaded stored) = token stored /\
  refresh_token (loaded stored) = refresh_token stored /\
  expiry (loaded stored) = expiry stored.
Proof.
  intros Hh Ht Hrt He Hlt Hb _ first second.
  pose proof (valid_loaded_future _ _ _ _ Ht He Hlt) as Hv.
  destruct (holds_load _ _ _ _ _ Hh Hrt He) as (t0 & Hl & Hq).
  assert (Hrun : acquire d w = (Ok (loaded stored), w, t0)).
  { rewrite (acquire_after_load _ _ _ _ Hl), (after_load_valid _ _ _ Hv Hb). cbn.
    rewrite app_nil_r. reflexivity. }
  subst second first. rewrite Hrun. cbn. rewrite Hrun. cbn.
  repeat split; try reflexivity. exact Hq.
Qed.

Lemma acquire_idempotent_witness :
  outcome (acquire (LocalClass Examples.local_api)
             (world_after
                (acquire (LocalClass Examples.local_api)
                   (Examples.workstation (TokenJson Examples.fresh_record)
                      Examples.rejecting_endpoint))))
  = Ok (loaded Examples.fresh_record).
Proof.
  apply (acquire_idempotent_on_valid
           (LocalClass Examples.local_api)
           (Examples.workstation (TokenJson Examples.fresh_record)
              Examples.rejecting_endpoint)
           Examples.fresh_record "ya29.a0" "1//0g" 2000);
    [reflexivity | reflexivity | reflexivity | reflexivity | reflexivity | reflexivity
    | intros x Hx; exact Hx].
Defined.

(** C2, as stated, fails: on a workstation where the consent flow would
    succeed, a refresh that the provider rejects with invalid_grant is
    raised out of [_authenticate]; no grant is attempted. *)
Lemma rejected_refresh_is_raised :
  let d := LocalClass Examples.local_api in
  let w := Examples.workstation (TokenJson Examples.stale_record)
             Examples.rejecting_endpoint in
  consent w (Raw "{installed: ...}") SCOPES = Ok Examples.granted /\
  acquire d w =
    (Raise (Exn RefreshError "invalid_grant: Token has been expired or revoked."), w,
     [PathExists "token.json"; ReadFile "token.json";
      Refresh (loaded Examples.stale_record)]) /\
  count is_grant (effects (acquire d w)) = 0%nat.
Proof. cbn zeta. repeat split. Qed.

(** C2 (amended): when the stored record is expired and has a refresh
    token but the provider rejects the refresh, the provider's error is
    raised out of [acquire] at once, in all three procedures and whether
    or not a consent flow is available: no grant is attempted, nothing is
    written, and the world is left as it was. *)
Theorem rejected_refresh_propagates d w stored e err :
  holds d w stored ->
  expiry stored = Some e ->
  e <= now w ->
  opt_truthy (refresh_token stored) = true ->
  token_endpoint w (loaded stored) = Raise err ->
  outcome (acquire d w) = Raise err /\
  world_after (acquire d w) = w /\
  count is_refresh (effects (acquire d w)) = 1%nat /\
  count is_grant (effects (acquire d w)) = 0%nat /\
  count is_write (effects (acquire d w)) = 0%nat.
Proof.
  intros Hh He Hle Hr Herr.
  pose proof (expired_loaded_past _ _ _ He Hle) as Hx.
  destruct (opt_truthy_some _ Hr) as (rt & Hrt).
  destruct (holds_load _ _ _ _ _ Hh Hrt He) as (t0 & Hl & Hq).
  rewrite (acquire_after_load _ _ _ _ Hl),
    (after_load_refresh_rejected _ _ _ _ Hx Hr Herr). cbn.
  destruct (quiet_counts _ Hq) as (Q1 & Q2 & Q3).
  rewrite !count_app, Q1, Q2, Q3. repeat split.
Qed.

Lemma forallb_count_zero p t :
  forallb (fun e => negb (p e)) t = true -> count p t = 0%nat.
Proof.
  induction t as [| e t IH]; cbn; [reflexivity |].
  intros H. apply andb_true_iff in H as [He Ht]. rewrite (IH Ht).
  destruct (p e); [discriminate | reflexivity].
Qed.

Lemma after_remote_save_skip t0 t :
  count is_write t0 = 0%nat -> after_remote_save (t0 ++ t) = after_remote_save t.
Proof.
  induction t0 as [| e t0 IH]; cbn; [reflexivity |].
  destruct e; cbn; intros H; try discriminate; apply IH; exact H.
Qed.

(** A valid stored record is returned after the loading step alone. *)
Lemma acquire_valid_run d w stored rt e :
  holds d w stored ->
  refresh_token stored = Some rt -> expiry stored = Some e ->
  valid (now w) (loaded stored) = true ->
  build_fault w = None ->
  exists t0, acquire d w = (Ok (loaded stored), w, t0) /\ quiet t0 = true.
Proof.
  intros Hh Hrt He Hv Hb. destruct (holds_load _ _ _ _ _ Hh Hrt He) as (t0 & Hl & Hq).
  exists t0. split; [| exact Hq].
  rewrite (acquire_after_load _ _ _ _ Hl), (after_load_valid _ _ _ Hv Hb). cbn.
  rewrite app_nil_r. reflexivity.
Qed.

Lemma refreshed_has_refresh_token c reply rt :
  refresh_token c = Some rt ->
  exists rt', refresh_token (apply_refresh c reply) = Some rt'.
Proof.
  intros H. unfold apply_refresh. cbn.
  destruct (rotated_refresh_token reply); eexists; [reflexivity | exact H].
Qed.

Lemma unreachable_load self w :
  ssm_reachable w = false ->
  outcome (LambdaCalendarApi.load_from_parameter_store self w) = Ok None.
Proof.
  intros Hr. unfold LambdaCalendarApi.load_from_parameter_store,
    LambdaCalendarApi._get_token_from_parameter_store.
  destruct (LambdaCalendarApi.parameter_store_token_name self) as [name|]; [| reflexivity].
  destruct (str_truthy name); [| reflexivity].
  cbn. unfold bind, try_except, ssm_get_parameter. rewrite Hr. reflexivity.
Qed.

(** Loading in the Lambda class leaves the world as it is and raises
    nothing, whatever the stores hold. *)
Lemma lambda_load_keeps_world self : keeps_world (LambdaCalendarApi.load self).
Proof.
  unfold LambdaCalendarApi.load, LambdaCalendarApi.load_from_parameter_store,
    LambdaCalendarApi.load_from_file, LambdaCalendarApi._get_token_from_parameter_store.
  structural.
Qed.

Lemma lambda_load_never_raises self : never_raises (LambdaCalendarApi.load self).
Proof.
  intros w. destruct (lambda_load_shape self w) as (creds & t & -> & _). reflexivity.
Qed.

(** With a parameter configured, loading calls the store exactly once. *)
Lemma lambda_load_remote_count self w name :
  remote_name (LambdaClass self) = Some name ->
  count is_remote_load (effects (LambdaCalendarApi.load self w)) = 1%nat.
Proof.
  intros Hn. destruct (lambda_load_ps_first self w name Hn) as (rest & Hfirst).
  apply remote_name_some in Hn as [Hp Ht].
  unfold LambdaCalendarApi.load.
  assert (H1 : count is_remote_load
                 (effects (LambdaCalendarApi.load_from_parameter_store self w)) = 1%nat).
  { unfold LambdaCalendarApi.load_from_parameter_store,
      LambdaCalendarApi._get_token_from_parameter_store.
    rewrite Hp, Ht. cbn. unfold bind, try_except, ssm_get_parameter,
      creds_from_authorized_user_info, from_authorized_user_info.
    destruct (ssm_reachable w); [destruct (ssm_params w !! name) as [[s|c]|] |]; cbn;
      try reflexivity.
    - destruct (str_truthy s); reflexivity.
    - destruct (refresh_token c); reflexivity. }
  destruct (lambda_load_ps_shape self w) as (c1 & t1 & E1 & _ & _).
  rewrite E1 in H1. cbn in H1.
  rewrite (bind_run _ _ _ _ _ _ E1). cbn. rewrite count_app, H1.
  assert (H2 : emits_only (fun e => negb (is_remote_load e))
                 (LambdaCalendarApi.load_from_file self c1)).
  { unfold LambdaCalendarApi.load_from_file. structural. }
  rewrite (forallb_count_zero _ _ (H2 w)). reflexivity.
Qed.

(** C5, as stated, fails: in the Lambda class the stored record has
    expired and has a refresh token, and the refresh succeeds, but the
    write to the parameter store is refused.  The refusal is printed and
    passed over, so the parameter keeps the expired record; the next
    [acquire] consults the parameter store first, finds that record and
    calls the token endpoint again. *)
Lemma swallowed_save_refreshes_again :
  let d := LambdaClass Examples.lambda_api in
  let w := Examples.container None (Some (TokenJson Examples.stale_record))
             (Some (Examples.access_denied, None)) Examples.refreshing_endpoint in
  let fresh := apply_refresh (loaded Examples.stale_record)
                 (mkReply "ya29.fresh" 5000 None) in
  let first := acquire d w in
  let second := acquire d (world_after first) in
  expiry Examples.stale_record = Some 999 /\ 999 <= now w /\
  opt_truthy (refresh_token Examples.stale_record) = true /\
  outcome first = Ok fresh /\
  count is_refresh (effects first) = 1%nat /\
  files (world_after first) !! "/tmp/token.json" = Some (Readable (to_json fresh)) /\
  ssm_params (world_after first) !! "/calendar/token"
    = Some (TokenJson Examples.stale_record) /\
  effects second =
    [SsmGet "/calendar/token"; Refresh (loaded Examples.stale_record);
     WriteFile "/tmp/token.json" (to_json fresh);
     SsmPut "/calendar/token" (to_json fresh);
     Printed "Error saving token to Parameter Store: AccessDeniedException: not authorized to perform ssm:PutParameter"] /\
  count is_refresh (effects second) = 1%nat.
Proof.
  cbn zeta. split; [reflexivity |]. split; [cbn; lia |]. repeat split.
Qed.

(** C5 (amended): with a stored record whose expiry has passed and whose
    refresh token is not empty, a provider that answers the refresh with
    a token whose expiry lies further ahead than the library's refresh
    threshold, a token file that can be written, a remote store (where
    one is configured) that accepts the write, and [build] giving a
    service object: [acquire] sorts the record as refreshable, calls the
    token endpoint exactly once and runs no grant, has the new record in
    the token store when it returns, and the next [acquire] finds it
    valid and returns it with no refresh, no grant and no write. *)
Theorem refresh_persists_then_valid d w stored e reply :
  holds d w stored ->
  expiry stored = Some e ->
  e <= now w ->
  opt_truthy (refresh_token stored) = true ->
  token_endpoint w (loaded stored) = Ok reply ->
  now w + REFRESH_THRESHOLD < new_expiry reply ->
  write_fault w (token_file d) = None ->
  build_fault w = None ->
  remote_save_accepted d w ->
  let fresh := apply_refresh (loaded stored) reply in
  let first := acquire d w in
  let second := acquire d (world_after first) in
  classify (now w) (Some (loaded stored)) = Refreshable /\
  outcome first = Ok fresh /\
  count is_refresh (effects first) = 1%nat /\
  count is_grant (effects first) = 0%nat /\
  holds d (world_after first) fresh /\
  classify (now (world_after first)) (Some (loaded fresh)) = Valid /\
  outcome second = Ok fresh /\
  quiet (effects second) = true.
Proof.
  intros Hh He Hle Hr Hep Hfut Hwr Hb Hacc fresh first second.
  pose proof (expired_loaded_past _ _ _ He Hle) as Hx.
  pose proof (expired_not_valid _ _ Hx) as Hnv.
  destruct (opt_truthy_some _ Hr) as (rt & Hrt).
  destruct (holds_load _ _ _ _ _ Hh Hrt He) as (t0 & Hl & Hq).
  destruct (quiet_counts _ Hq) as (Q1 & Q2 & Q3).
  destruct (refreshed_has_refresh_token (loaded stored) reply rt Hrt) as (rt' & Hrt').
  assert (Hfresh : forall now', now' = now w -> valid now' (loaded fresh) = true).
  { intros now' ->. unfold valid, expired, fresh; cbn.
    destruct (Z.leb_spec (new_expiry reply - REFRESH_THRESHOLD) (now w));
      [lia | reflexivity]. }
  (* the first run, and the world it leaves *)
  assert (Hfirst : exists w1 t1,
             acquire d w = (Ok fresh, w1, t0 ++ Refresh (loaded stored) :: t1) /\
             count is_refresh t1 = 0%nat /\ count is_grant t1 = 0%nat /\
             now w1 = now w /\ build_fault w1 = None /\ holds d w1 fresh).
  { rewrite (acquire_after_load _ _ _ _ Hl).
    destruct d as [self | | self].
    - rewrite (after_load_refreshed_local (LocalClass self) _ _ _
                 ltac:(intros ? [=]) Hx Hr Hep Hwr Hb).
      do 2 eexists. split; [reflexivity |]. repeat split; [exact Hb |].
      cbn. apply lookup_insert_eq.
    - rewrite (after_load_refreshed_local LocalScript _ _ _
                 ltac:(intros ? [=]) Hx Hr Hep Hwr Hb).
      do 2 eexists. split; [reflexivity |]. repeat split; [exact Hb |].
      cbn. apply lookup_insert_eq.
    - rewrite (after_load_refreshed_lambda self _ _ _ Hx Hr Hep Hwr Hb).
      unfold remote_save_accepted in Hacc.
      destruct (remote_name (LambdaClass self)) as [name|] eqn:En.
      + rewrite Hacc. do 2 eexists. split; [reflexivity |]. repeat split; [exact Hb |].
        destruct (ssm_reachable w) eqn:Er.
        * left. exists name. rewrite En. repeat split; [exact Er |].
          cbn. apply lookup_insert_eq.
        * right. split; [apply unreachable_load; exact Er |].
          cbn. apply lookup_insert_eq.
      + do 2 eexists. split; [reflexivity |]. repeat split; [exact Hb |].
        right. split.
        * rewrite (remote_name_none_load _ _ En). reflexivity.
        * cbn. apply lookup_insert_eq. }
  destruct Hfirst as (w1 & t1 & Hrun & C1 & C2 & Hnow & Hb1 & Hh1).
  destruct (acquire_valid_run _ _ _ rt' (new_expiry reply) Hh1 Hrt' eq_refl
              (Hfresh _ Hnow) Hb1) as (t2 & Hrun2 & Hq2).
  subst second first. rewrite Hrun. cbn [outcome world_after effects fst snd].
  rewrite Hrun2. cbn [outcome world_after effects fst snd].
  repeat split; try assumption.
  - assert (Hr' : opt_truthy (refresh_token (loaded stored)) = true) by exact Hr.
    unfold classify. rewrite Hnv, Hx, Hr'. reflexivity.
  - rewrite count_app. cbn. rewrite Q1, C1. reflexivity.
  - rewrite count_app. cbn. rewrite Q2, C2. reflexivity.
  - unfold classify. rewrite (Hfresh _ Hnow). reflexivity.
Qed.

Lemma refresh_persists_witness :
  outcome (acquire (LambdaClass Examples.lambda_api)
             (Examples.container None (Some (TokenJson Examples.stale_record)) None
                Examples.refreshing_endpoint))
  = Ok (apply_refresh (loaded Examples.stale_record) (mkReply "ya29.fresh" 5000 None)).
Proof.
  apply (refresh_persists_then_valid
           (LambdaClass Examples.lambda_api)
           (Examples.container None (Some (TokenJson Examples.stale_record)) None
              Examples.refreshing_endpoint)
           Examples.stale_record 999 (mkReply "ya29.fresh" 5000 None)).
  - left. exists "/calendar/token". repeat split.
  - reflexivity.
  - cbn. lia.
  - reflexivity.
  - reflexivity.
  - reflexivity.
  - reflexivity.
  - reflexivity.
  - reflexivity.
Defined.

Lemma rejected_refresh_witness :
  outcome (acquire (LocalClass Examples.local_api)
             (Examples.workstation (TokenJson Examples.stale_record)
                Examples.rejecting_endpoint))
  = Raise (Exn RefreshError "invalid_grant: Token has been expired or revoked.").
Proof.
  apply (rejected_refresh_propagates
           (LocalClass Examples.local_api)
           (Examples.workstation (TokenJson Examples.stale_record)
              Examples.rejecting_endpoint)
           Examples.stale_record 999
           (Exn RefreshError "invalid_grant: Token has been expired or revoked."));
    [reflexivity | reflexivity | cbn; lia | reflexivity | reflexivity].
Defined.

(** C7, as stated, fails: the stored record has expired; the refresh
    succeeds; the write to the parameter store fails because another
    invocation has just written a newer record, which is valid.  The
    procedure does not load from the store again: after the failed write
    it only prints, and it returns the record it refreshed itself. *)
Lemma conflicting_save_not_reloaded :
  let d := LambdaClass Examples.lambda_api in
  let w := Examples.container None (Some (TokenJson Examples.stale_record))
             (Some (Examples.too_many_updates, Some (TokenJson Examples.newer_record)))
             Examples.refreshing_endpoint in
  let fresh := apply_refresh (loaded Examples.stale_record)
                 (mkReply "ya29.fresh" 5000 None) in
  ssm_params (world_after (acquire d w)) !! "/calendar/token"
    = Some (TokenJson Examples.newer_record) /\
  valid (now w) (loaded Examples.newer_record) = true /\
  outcome (acquire d w) = Ok fresh /\
  effects (acquire d w) =
    [SsmGet "/calendar/token"; Refresh (loaded Examples.stale_record);
     WriteFile "/tmp/token.json" (to_json fresh);
     SsmPut "/calendar/token" (to_json fresh);
     Printed "Error saving token to Parameter Store: TooManyUpdates: concurrent updates to the parameter"] /\
  count is_remote_load (after_remote_save (effects (acquire d w))) = 0%nat.
Proof. cbn zeta. repeat split. Qed.

(** C7 (amended): when the refreshed record has been written to the
    local token file and its write to the parameter store fails, for
    whatever reason, the Lambda class prints the error and goes on: it
    does not load from the store again and does not retry; [build]
    giving a service object, [acquire] does not raise, returns the
    record it has just refreshed, and that record is in the local token
    file. *)
Theorem failed_remote_save_not_retried self w name stored e reply err concurrent :
  remote_name (LambdaClass self) = Some name ->
  holds (LambdaClass self) w stored ->
  expiry stored = Some e ->
  e <= now w ->
  opt_truthy (refresh_token stored) = true ->
  token_endpoint w (loaded stored) = Ok reply ->
  write_fault w (LambdaCalendarApi.token_path self) = None ->
  build_fault w = None ->
  ssm_put_fault w = Some (err, concurrent) ->
  let fresh := apply_refresh (loaded stored) reply in
  let run := acquire (LambdaClass self) w in
  outcome run = Ok fresh /\
  files (world_after run) !! LambdaCalendarApi.token_path self
    = Some (Readable (to_json fresh)) /\
  after_remote_save (effects run)
    = [Printed ("Error saving token to Parameter Store: " +:+ str err)] /\
  count is_remote_load (after_remote_save (effects run)) = 0%nat /\
  count is_remote_load (effects run) = 1%nat /\
  count is_refresh (effects run) = 1%nat.
Proof.
  intros Hn Hh He Hle Hr Hep Hwr Hb Hfault fresh run.
  pose proof (expired_loaded_past _ _ _ He Hle) as Hx.
  destruct (opt_truthy_some _ Hr) as (rt & Hrt).
  destruct (holds_load _ _ _ _ _ Hh Hrt He) as (t0 & Hl & Hq).
  destruct (quiet_counts _ Hq) as (Q1 & Q2 & Q3).
  pose proof (lambda_load_remote_count self w name Hn) as Hcount.
  cbn in Hl. rewrite Hl in Hcount. cbn [effects snd] in Hcount.
  assert (Hrun : exists w1,
             acquire (LambdaClass self) w =
               (Ok fresh, w1,
                t0 ++ [Refresh (loaded stored);
                       WriteFile (LambdaCalendarApi.token_path self) (to_json fresh);
                       SsmPut name (to_json fresh);
                       Printed ("Error saving token to Parameter Store: " +:+ str err)]) /\
             files w1 !! LambdaCalendarApi.token_path self = Some (Readable (to_json fresh))).
  { rewrite (acquire_after_load (LambdaClass self) _ _ _ Hl).
    rewrite (after_load_refreshed_lambda self _ _ _ Hx Hr Hep Hwr Hb), Hn, Hfault.
    eexists. split; [reflexivity |].
    destruct concurrent; cbn; apply lookup_insert_eq. }
  destruct Hrun as (w1 & Hrun & Hfile).
  subst run. rewrite Hrun. cbn [outcome world_after effects fst snd].
  rewrite (after_remote_save_skip _ _ Q3), !count_app, Hcount, Q1. cbn.
  repeat split. exact Hfile.
Qed.

Lemma failed_remote_save_witness :
  outcome (acquire (LambdaClass Examples.lambda_api)
             (Examples.container None (Some (TokenJson Examples.stale_record))
                (Some (Examples.too_many_updates, Some (TokenJson Examples.newer_record)))
                Examples.refreshing_endpoint))
  = Ok (apply_refresh (loaded Examples.stale_record) (mkReply "ya29.fresh" 5000 None)).
Proof.
  apply (failed_remote_save_not_retried Examples.lambda_api
           (Examples.container None (Some (TokenJson Examples.stale_record))
              (Some (Examples.too_many_updates, Some (TokenJson Examples.newer_record)))
              Examples.refreshing_endpoint)
           "/calendar/token" Examples.stale_record 999 (mkReply "ya29.fresh" 5000 None)
           Examples.too_many_updates (Some (TokenJson Examples.newer_record))).
  - reflexivity.
  - left. exists "/calendar/token". repeat split.
  - reflexivity.
  - cbn. lia.
  - reflexivity.
  - reflexivity.
  - reflexivity.
  - reflexivity.
  - reflexivity.
Defined.

(** A record with a refresh token that the parameter store serves is
    what the remote loading step yields. *)
Lemma remote_record_loads self w name c rt :
  remote_name (LambdaClass self) = Some name ->
  ssm_reachable w = true ->
  ssm_params w !! name = Some (TokenJson c) ->
  refresh_token c = Some rt ->
  exists c', outcome (LambdaCalendarApi.load_from_parameter_store self w) = Ok (Some c').
Proof.
  intros Hn Hr Hp Hrt. apply remote_name_some in Hn as [Hc Ht].
  unfold LambdaCalendarApi.load_from_parameter_store,
    LambdaCalendarApi._get_token_from_parameter_store.
  rewrite Hc, Ht. cbn. unfold bind, try_except, ssm_get_parameter,
    creds_from_authorized_user_info, from_authorized_user_info.
  rewrite Hr, Hp. cbn. rewrite Hrt. cbn. eexists. reflexivity.
Qed.

(** C6: with a parameter configured, the first thing [_authenticate] of
    the Lambda class does is the call to the parameter store; when that
    yields a credentials object, as it does whenever the store can be
    reached and holds a record with a refresh token under the configured
    name, the local file system is not looked at at all, so the token
    file is read only when the remote store yielded none. *)
Theorem remote_store_consulted_first self w name :
  remote_name (LambdaClass self) = Some name ->
  let run := acquire (LambdaClass self) w in
  (exists rest, effects run = SsmGet name :: rest) /\
  (forall c, outcome (LambdaCalendarApi.load_from_parameter_store self w) = Ok (Some c) ->
             count is_file_read (effects run) = 0%nat) /\
  (count is_file_read (effects run) <> 0%nat ->
   outcome (LambdaCalendarApi.load_from_parameter_store self w) = Ok None) /\
  (forall c rt, ssm_reachable w = true ->
                ssm_params w !! name = Some (TokenJson c) ->
                refresh_token c = Some rt ->
                count is_file_read (effects run) = 0%nat).
Proof.
  intros Hn run.
  destruct (lambda_load_ps_first self w name Hn) as (rest & Hfirst).
  destruct (lambda_load_ps_shape self w) as (c1 & t1 & E1 & _ & Hnr).
  rewrite E1 in Hfirst. cbn in Hfirst. subst t1.
  assert (Hrun : effects run =
            SsmGet name :: rest ++
              effects ((creds <- LambdaCalendarApi.load_from_file self c1 ;;
                        LambdaCalendarApi.refresh_or_fail self creds) w)).
  { subst run. cbn [acquire]. unfold LambdaCalendarApi._authenticate.
    rewrite (bind_run _ _ _ _ _ _ E1). reflexivity. }
  assert (Hsome : forall c, c1 = Some c -> count is_file_read (effects run) = 0%nat).
  { intros c ->. rewrite Hrun.
    rewrite (bind_run (LambdaCalendarApi.load_from_file self (Some c)) _ w
               (Some c) w [] eq_refl).
    cbn [effects snd app].
    change (count is_file_read
              ((SsmGet name :: rest) ++
               effects (LambdaCalendarApi.refresh_or_fail self (Some c) w)) = 0%nat).
    rewrite count_app, (forallb_count_zero _ _ Hnr).
    apply forallb_count_zero.
    assert (H : emits_only (fun e => negb (is_file_read e))
                  (LambdaCalendarApi.refresh_or_fail self (Some c))).
    { unfold LambdaCalendarApi.refresh_or_fail,
        LambdaCalendarApi._save_token_to_parameter_store, build. structural. }
    apply H. }
  split; [| split; [| split]].
  - rewrite Hrun. eexists. reflexivity.
  - intros c Hc. rewrite E1 in Hc. cbn in Hc. injection Hc as ->. eapply Hsome. reflexivity.
  - intros Hread. rewrite E1. cbn. destruct c1 as [c|]; [| reflexivity].
    destruct Hread. eapply Hsome. reflexivity.
  - intros c rt Hr Hp Hrt.
    destruct (remote_record_loads self w name c rt Hn Hr Hp Hrt) as (c' & Hc').
    rewrite E1 in Hc'. cbn in Hc'. injection Hc' as ->. eapply Hsome. reflexivity.
Qed.

Lemma remote_store_consulted_first_witness :
  (exists rest,
      effects (acquire (LambdaClass Examples.lambda_api)
                 (Examples.container (Some (Readable (TokenJson Examples.newer_record)))
                    (Some (TokenJson Examples.fresh_record)) None
                    Examples.refreshing_endpoint))
      = SsmGet "/calendar/token" :: rest) /\
  count is_file_read
    (effects (acquire (LambdaClass Examples.lambda_api)
                (Examples.container (Some (Readable (TokenJson Examples.newer_record)))
                   (Some (TokenJson Examples.fresh_record)) None
                   Examples.refreshing_endpoint))) = 0%nat.
Proof.
  destruct (remote_store_consulted_first Examples.lambda_api
              (Examples.container (Some (Readable (TokenJson Examples.newer_record)))
                 (Some (TokenJson Examples.fresh_record)) None
                 Examples.refreshing_endpoint)
              "/calendar/token" eq_refl) as (Hfirst & _ & _ & Hstore).
  split; [exact Hfirst |].
  apply (Hstore Examples.fresh_record "1//0g"); reflexivity.
Defined.

Lemma lambda_never_grants self :
  emits_only (fun e => negb (is_grant e)) (LambdaCalendarApi._authenticate self).
Proof.
  unfold LambdaCalendarApi._authenticate, LambdaCalendarApi.load_from_parameter_store,
    LambdaCalendarApi.load_from_file, LambdaCalendarApi.refresh_or_fail,
    LambdaCalendarApi._get_token_from_parameter_store,
    LambdaCalendarApi._save_token_to_parameter_store, build.
  structural.
Qed.

(** C3: the Lambda class never runs a consent flow, in any world.  When
    what it loads is neither valid nor refreshable, [_authenticate] raises
    a [ValueError] whose message says what is missing (no valid
    credentials were found, or the token is expired and cannot be
    refreshed), and the failing call makes no refresh and no write, to
    the token file or to the parameter store: the world is left as it
    was. *)
Theorem lambda_fails_without_usable_record self w creds :
  outcome (LambdaCalendarApi.load self w) = Ok creds ->
  classify (now w) creds <> Valid ->
  classify (now w) creds <> Refreshable ->
  let run := acquire (LambdaClass self) w in
  outcome run =
    Raise (Exn ValueError
             (match creds with
              | Some _ => LambdaCalendarApi.token_expired_msg
              | None => LambdaCalendarApi.no_credentials_msg
              end)) /\
  world_after run = w /\
  count is_grant (effects run) = 0%nat /\
  count is_write (effects run) = 0%nat /\
  count is_refresh (effects run) = 0%nat /\
  (forall w', count is_grant (effects (acquire (LambdaClass self) w')) = 0%nat).
Proof.
  intros Hl Hv Hr run.
  destruct (lambda_load_shape self w) as (c & t0 & El & Hq).
  rewrite El in Hl. cbn in Hl. injection Hl as ->.
  destruct (quiet_counts _ Hq) as (Q1 & Q2 & Q3).
  subst run. rewrite (acquire_after_load (LambdaClass self) _ _ _ El).
  rewrite (after_load_lambda_unusable self creds w Hv Hr).
  cbn [outcome world_after effects fst snd]. rewrite app_nil_r.
  repeat split; try assumption.
  intros w'. apply forallb_count_zero. apply (lambda_never_grants self w').
Qed.

Lemma lambda_fails_witness :
  outcome (acquire (LambdaClass Examples.lambda_api)
             (Examples.container None None None Examples.refreshing_endpoint))
  = Raise (Exn ValueError LambdaCalendarApi.no_credentials_msg).
Proof.
  apply (lambda_fails_without_usable_record Examples.lambda_api
           (Examples.container None None None Examples.refreshing_endpoint) None);
    [reflexivity | discriminate | discriminate].
Defined.

(** C8, as stated, fails: in a Lambda container whose token file is not
    JSON and whose parameter is not set, the file is passed over, but
    [_authenticate] then fails with a [ValueError]; it goes on to no
    refresh and to no grant. *)
Lemma lambda_bad_token_file_fails :
  let d := LambdaClass Examples.lambda_api in
  let w := Examples.container (Some (Readable (Raw "{not json"))) None None
             Examples.refreshing_endpoint in
  bad_token_file w (token_file d) = true /\
  outcome (acquire d w) = Raise (Exn ValueError LambdaCalendarApi.no_credentials_msg) /\
  count is_refresh (effects (acquire d w)) = 0%nat /\
  count is_grant (effects (acquire d w)) = 0%nat.
Proof. cbn zeta. repeat split. Qed.

(** The script of get_calendar_events.py loads the token file outside of
    any [try]: a token file that is not JSON makes it raise. *)
Lemma script_bad_token_file_raises :
  let w := Examples.workstation (Raw "{not json") Examples.refreshing_endpoint in
  bad_token_file w "token.json" = true /\
  acquire LocalScript w =
    (Raise (Exn ValueError "Authorized user info was not in the expected format"), w,
     [PathExists "token.json"; ReadFile "token.json"]).
Proof. cbn zeta. repeat split. Qed.

Lemma bad_file_cases w path :
  bad_token_file w path = true ->
  files w !! path = Some Unreadable \/ exists s, files w !! path = Some (Readable (Raw s)).
Proof.
  unfold bad_token_file. destruct (files w !! path) as [[[s|c]|]|]; try discriminate.
  - right. exists s. reflexivity.
  - left. reflexivity.
Qed.

(** C8 (amended): in [GoogleCalendarAPI] and in [LambdaGoogleCalendarAPI]
    a token file that cannot be read or does not hold a loadable record
    is treated as absent: the loading step prints the error and yields no
    credentials, without raising and without changing anything.
    [GoogleCalendarAPI._authenticate] then goes on as it does without
    credentials, to the interactive grant.
    [LambdaGoogleCalendarAPI._authenticate], which has no interactive
    grant, then raises the "No valid credentials found" [ValueError]
    when the parameter store gave no credentials either. *)
Theorem bad_token_file_treated_as_absent self lself w :
  bad_token_file w (CalendarApi.token_path self) = true ->
  bad_token_file w (LambdaCalendarApi.token_path lself) = true ->
  (exists msg,
      CalendarApi.load_token self w =
        (Ok None, w,
         [PathExists (CalendarApi.token_path self); ReadFile (CalendarApi.token_path self);
          Printed ("Error loading token: " +:+ msg)]) /\
      acquire (LocalClass self) w =
        (outcome (CalendarApi.obtain self None w),
         world_after (CalendarApi.obtain self None w),
         [PathExists (CalendarApi.token_path self); ReadFile (CalendarApi.token_path self);
          Printed ("Error loading token: " +:+ msg)]
         ++ effects (CalendarApi.obtain self None w))) /\
  (exists msg,
      LambdaCalendarApi.load_from_file lself None w =
        (Ok None, w,
         [PathExists (LambdaCalendarApi.token_path lself);
          ReadFile (LambdaCalendarApi.token_path lself);
          Printed ("Error loading token from file: " +:+ msg)])) /\
  (outcome (LambdaCalendarApi.load_from_parameter_store lself w) = Ok None ->
   outcome (acquire (LambdaClass lself) w)
     = Raise (Exn ValueError LambdaCalendarApi.no_credentials_msg) /\
   count is_refresh (effects (acquire (LambdaClass lself) w)) = 0%nat /\
   count is_grant (effects (acquire (LambdaClass lself) w)) = 0%nat).
Proof.
  intros Hb Hlb.
  assert (Hlocal : exists msg,
             CalendarApi.load_token self w =
               (Ok None, w,
                [PathExists (CalendarApi.token_path self);
                 ReadFile (CalendarApi.token_path self);
                 Printed ("Error loading token: " +:+ msg)])).
  { unfold CalendarApi.load_token, bind, try_except, os_path_exists, read_file.
    destruct (bad_file_cases _ _ Hb) as [E | [s E]]; rewrite !E; cbn;
      eexists; reflexivity. }
  assert (Hlambda : exists msg,
             LambdaCalendarApi.load_from_file lself None w =
               (Ok None, w,
                [PathExists (LambdaCalendarApi.token_path lself);
                 ReadFile (LambdaCalendarApi.token_path lself);
                 Printed ("Error loading token from file: " +:+ msg)])).
  { unfold LambdaCalendarApi.load_from_file, bind, try_except, os_path_exists, read_file.
    destruct (bad_file_cases _ _ Hlb) as [E | [s E]]; rewrite !E; cbn;
      eexists; reflexivity. }
  split; [| split].
  - destruct Hlocal as (msg & Hload). exists msg. split; [exact Hload |].
    apply (acquire_after_load (LocalClass self) w None _ Hload).
  - exact Hlambda.
  - intros Hps. destruct Hlambda as (msg & Hfile).
    destruct (lambda_load_ps_shape lself w) as (c1 & t1 & E1 & Q1 & _).
    rewrite E1 in Hps. cbn in Hps. injection Hps as ->.
    assert (Hload : LambdaCalendarApi.load lself w =
              (Ok None, w,
               t1 ++ [PathExists (LambdaCalendarApi.token_path lself);
                      ReadFile (LambdaCalendarApi.token_path lself);
                      Printed ("Error loading token from file: " +:+ msg)])).
    { unfold LambdaCalendarApi.load. rewrite (bind_run _ _ _ _ _ _ E1), Hfile.
      reflexivity. }
    rewrite (acquire_after_load (LambdaClass lself) w None _ Hload).
    cbn [outcome world_after effects fst snd after_load
         LambdaCalendarApi.refresh_or_fail raise].
    destruct (quiet_counts _ Q1) as (C1 & C2 & _).
    rewrite !count_app, C1, C2. repeat split.
Qed.

Lemma bad_token_file_witness :
  outcome (acquire (LambdaClass Examples.lambda_api)
             (Examples.container (Some Unreadable) None None
                Examples.refreshing_endpoint))
  = Raise (Exn ValueError LambdaCalendarApi.no_credentials_msg).
Proof.
  apply (bad_token_file_treated_as_absent
           (CalendarApi.mkSelf "/tmp/credentials.json" "/tmp/token.json")
           Examples.lambda_api
           (Examples.container (Some Unreadable) None None Examples.refreshing_endpoint));
    reflexivity.
Defined.

(* ===================================================================== *)
(** ** Dates                                                             *)
(* ===================================================================== *)

Lemma strptime_ymd_valid s d :
  Dates.strptime_ymd s = Ok d -> Dates.valid_date d = true.
Proof.
  unfold Dates.strptime_ymd. intros H.
  repeat match type of H with
         | match ?x with _ => _ end = _ => destruct x eqn:?; try discriminate
         | (if ?b then _ else _) = _ => destruct b eqn:?; try discriminate
         end.
  injection H as <-. assumption.
Qed.

Lemma days_before_year_succ p :
  1 <= p ->
  Dates.days_before_year (p + 1)
  = Dates.days_before_year p + 365 + (if Dates.is_leap p then 1 else 0).
Proof.
  intros Hp. unfold Dates.days_before_year, Dates.is_leap. cbn zeta.
  replace (p + 1 - 1) with p by lia.
  destruct (Z.eqb_spec (p mod 4) 0) as [H4|H4];
    destruct (Z.eqb_spec (p mod 100) 0) as [H100|H100];
    destruct (Z.eqb_spec (p mod 400) 0) as [H400|H400]; cbn;
    Z.div_mod_to_equations; lia.
Qed.

Lemma days_before_month_succ y m :
  1 <= m -> m < 12 ->
  Dates.days_before_month y (m + 1)
  = Dates.days_before_month y m + Dates.days_in_month y m.
Proof.
  intros H1 H12.
  assert (Hm : m = 1 \/ m = 2 \/ m = 3 \/ m = 4 \/ m = 5 \/ m = 6 \/ m = 7 \/
               m = 8 \/ m = 9 \/ m = 10 \/ m = 11) by lia.
  unfold Dates.days_before_month, Dates.days_in_month.
  destruct (Dates.is_leap y);
    destruct Hm as [-> | [-> | [-> | [-> | [-> | [-> | [-> | [-> | [-> | [-> | ->]]]]]]]]]];
    reflexivity.
Qed.

(** The day before a valid date is a valid date, one day earlier. *)
Lemma minus_one_day_spec d :
  Dates.valid_date d = true -> 1 < Dates.toordinal d ->
  exists d', Dates.minus_one_day d = Ok d' /\
             Dates.valid_date d' = true /\
             Dates.toordinal d' = Dates.toordinal d - 1.
Proof.
  destruct d as [y m dd]. unfold Dates.valid_date, Dates.minus_one_day; cbn.
  intros Hv Hord.
  repeat (apply andb_true_iff in Hv as [Hv ?]).
  repeat match goal with H : (_ <=? _) = true |- _ => apply Z.leb_le in H end.
  destruct (Z.leb_spec (Dates.toordinal (Dates.mkDate y m dd)) 1) as [Hc|_]; [lia |].
  destruct (Z.ltb_spec 1 dd) as [Hd|Hd].
  - eexists. split; [reflexivity |]. split.
    + unfold Dates.valid_date; cbn.
      repeat (apply andb_true_iff; split); apply Z.leb_le; lia.
    + unfold Dates.toordinal; cbn. lia.
  - assert (dd = 1) by lia. subst dd.
    destruct (Z.ltb_spec 1 m) as [Hm|Hm].
    + eexists. split; [reflexivity |].
      pose proof (days_before_month_succ y (m - 1) ltac:(lia) ltac:(lia)) as Hs.
      replace (m - 1 + 1) with m in Hs by lia.
      split.
      * unfold Dates.valid_date; cbn.
        repeat (apply andb_true_iff; split); apply Z.leb_le; try lia.
        unfold Dates.days_in_month.
        repeat match goal with |- context [if ?b then _ else _] => destruct b end; lia.
      * unfold Dates.toordinal; cbn. lia.
    + assert (m = 1) by lia. subst m.
      assert (Hy : 2 <= y).
      { destruct (Z.eq_dec y 1) as [-> |]; [| lia].
        vm_compute in Hord. discriminate. }
      eexists. split; [reflexivity |].
      pose proof (days_before_year_succ (y - 1) ltac:(lia)) as Hs.
      replace (y - 1 + 1) with y in Hs by lia.
      split.
      * unfold Dates.valid_date; cbn.
        repeat (apply andb_true_iff; split);
          first [reflexivity | apply Z.leb_le; lia].
      * unfold Dates.toordinal; cbn. rewrite Hs.
        change (Dates.days_before_month (y - 1) 12)
          with (306 + (if Dates.is_leap (y - 1) then 29 else 28)).
        change (Dates.days_before_month y 1) with 0.
        destruct (Dates.is_leap (y - 1)); lia.
Qed.

Lemma digit_val_char z : Dates.digit_val (Dates.digit_char z) = Some (z mod 10).
Proof.
  pose proof (Z.mod_pos_bound z 10 ltac:(lia)) as Hb.
  unfold Dates.digit_val, Dates.digit_char.
  rewrite nat_ascii_embedding by lia.
  replace (Z.of_nat (48 + Z.to_nat (z mod 10))) with (48 + z mod 10) by lia.
  destruct (Z.leb_spec 48 (48 + z mod 10)); [| lia].
  destruct (Z.leb_spec (48 + z mod 10) 57); [| lia].
  cbn. f_equal. lia.
Qed.

Lemma parse_year_four_digits y rest :
  0 <= y <= 9999 ->
  Dates.parse_year (Dates.four_digits y +:+ rest) = Some (y, rest).
Proof.
  intros Hy. unfold Dates.four_digits, Dates.parse_year. cbv beta iota fix delta [String.append].
  rewrite !digit_val_char. do 2 f_equal.
  Z.div_mod_to_equations. lia.
Qed.

Lemma parse_month_two_digits m rest :
  1 <= m <= 12 ->
  Dates.parse_month (Dates.two_digits m +:+ String "-" rest) = Some (m, String "-" rest).
Proof.
  intros Hm.
  assert (H : m = 1 \/ m = 2 \/ m = 3 \/ m = 4 \/ m = 5 \/ m = 6 \/ m = 7 \/ m = 8 \/
              m = 9 \/ m = 10 \/ m = 11 \/ m = 12) by lia.
  destruct H as [-> | [-> | [-> | [-> | [-> | [-> | [-> | [-> | [-> | [-> | [-> | ->]]]]]]]]]]];
    reflexivity.
Qed.

Lemma parse_day_two_digits d :
  1 <= d <= 31 ->
  Dates.parse_day (Dates.two_digits d) = Some (d, "").
Proof.
  intros Hd.
  assert (H : exists n : nat, (n < 31)%nat /\ d = 1 + Z.of_nat n).
  { exists (Z.to_nat (d - 1)). lia. }
  destruct H as (n & Hn & ->).
  do 31 (destruct n as [| n]; [reflexivity |]). lia.
Qed.

Lemma days_in_month_le_31 y m : Dates.days_in_month y m <= 31.
Proof.
  unfold Dates.days_in_month.
  repeat match goal with |- context [if ?b then _ else _] => destruct b end; lia.
Qed.

(** The ISO text of a valid date reads back, with the format
    [%Y-%m-%d], as that date. *)
Lemma strptime_isoformat d :
  Dates.valid_date d = true -> Dates.strptime_ymd (Dates.isoformat d) = Ok d.
Proof.
  intros Hv. pose proof Hv as Hv'. destruct d as [y m dd].
  unfold Dates.valid_date in Hv'. cbn in Hv'.
  repeat (apply andb_true_iff in Hv' as [Hv' ?]).
  repeat match goal with H : (_ <=? _) = true |- _ => apply Z.leb_le in H end.
  pose proof (days_in_month_le_31 y m).
  unfold Dates.strptime_ymd, Dates.isoformat. cbn [Dates.year Dates.month Dates.day].
  rewrite parse_year_four_digits by lia.
  change ("-" +:+ Dates.two_digits m +:+ "-" +:+ Dates.two_digits dd)
    with (String "-" (Dates.two_digits m +:+ String "-" (Dates.two_digits dd))).
  cbn [Dates.expect_dash Ascii.eqb Bool.eqb].
  rewrite parse_month_two_digits by lia.
  cbn [Dates.expect_dash Ascii.eqb Bool.eqb].
  rewrite parse_day_two_digits by lia.
  cbn [String.eqb negb]. rewrite Hv. reflexivity.
Qed.

(* ===================================================================== *)
(** ** format_events                                                     *)
(* ===================================================================== *)

(** A loop body that succeeds on every element gives one result per
    element, in order. *)
Lemma rmap_spec {A B} (f : A -> result B) (l : list A) :
  (forall x, x ∈ l -> exists y, f x = Ok y) ->
  exists out, rmap f l = Ok out /\ length out = length l /\
              forall (i : nat) x, l !! i = Some x ->
                                  exists y, out !! i = Some y /\ f x = Ok y.
Proof.
  induction l as [| a l IH]; intros Hall.
  - exists []. repeat split. intros i x Hi. destruct i; discriminate.
  - destruct (Hall a (list_elem_of_here _ _)) as (b & Hb).
    destruct IH as (out & Hout & Hlen & Hnth).
    { intros x Hx. apply Hall. apply list_elem_of_further. exact Hx. }
    exists (b :: out). cbn. rewrite Hb. cbn. rewrite Hout. cbn.
    repeat split; [rewrite Hlen; reflexivity |].
    intros [| i] x Hi; cbn in *.
    + injection Hi as <-. exists b. split; [reflexivity | exact Hb].
    + apply Hnth. exact Hi.
Qed.

Section FormatFacts.
Context {datetime : Type}.
Variable dateutil_parse : string -> result datetime.
Variable datetime_isoformat : datetime -> string.

Lemma email_of_ok event who :
  match dict_get event who with None => true | Some v => is_dict v end = true ->
  exists v, Format.email_of event who = Ok v.
Proof.
  unfold Format.email_of, get_default.
  destruct (dict_get event who) as [[]|]; cbn; try discriminate; eauto.
Qed.

Lemma attendee_emails_ok event :
  match dict_get event "attendees" with
  | None => true
  | Some (PList l) => forallb is_dict l
  | Some _ => false
  end = true ->
  exists v, Format.attendee_emails event = Ok v.
Proof.
  unfold Format.attendee_emails, get_default.
  destruct (dict_get event "attendees") as [[| | | | l |]|]; cbn; try discriminate;
    [| eauto].
  intros Hl.
  destruct (rmap_spec (fun a => d <-- as_dict a ;; Ok (get_default d "email" PNone)) l)
    as (out & Hout & _).
  { intros x Hx. rewrite forallb_forall in Hl.
    apply list_elem_of_In in Hx. specialize (Hl x Hx).
    destruct x; try discriminate. cbn. eauto. }
  unfold get_default in Hout. rewrite Hout. cbn. eauto.
Qed.

(** One well-formed event: the loop body succeeds, keeps the id, sets
    the all-day flag, and for an all-day event shows the day before the
    provider's end date. *)
Lemma format_event_spec details ev :
  carries_start_end dateutil_parse details ev = true ->
  exists fe,
    Format.format_event dateutil_parse datetime_isoformat details ev = Ok (PDict fe) /\
    dict_get fe "id" = Some (event_id ev) /\
    dict_get fe "is_all_day" = Some (PBool (is_all_day_event ev)) /\
    (is_all_day_event ev = true ->
     exists last shown,
       raw_end_date ev = Some last /\
       dict_get fe "end" = Some (PStr (Dates.isoformat shown)) /\
       Dates.strptime_ymd (Dates.isoformat shown) = Ok shown /\
       Dates.toordinal shown = Dates.toordinal last - 1).
Proof.
  destruct ev as [| | | | | event]; try discriminate.
  unfold carries_start_end, is_all_day_event, raw_end_date, event_id.
  intros H. apply andb_true_iff in H as [Htimes Hpeople].
  unfold Format.format_event. cbn [as_dict rbind]. unfold getitem.
  destruct (dict_get event "start") as [[| | | | | s]|]; try discriminate.
  destruct (dict_get event "end") as [[| | | | | e]|]; try discriminate.
  cbn [as_dict rbind]. fold (time_value s). fold (time_value e).
  destruct (time_value s) as [| | | a | |]; try discriminate.
  destruct (time_value e) as [| | | b | |]; try discriminate.
  cbn [as_str rbind].
  assert (Hdetails :
    forall base,
      exists fe,
        (if details
         then
           creator <-- Format.email_of event "creator" ;;
           organizer <-- Format.email_of event "organizer" ;;
           attendees <-- Format.attendee_emails event ;;
           Ok (PDict (base ++
                      [("description", get_default event "description" (PStr ""));
                       ("location", get_default event "location" (PStr ""));
                       ("creator", creator); ("organizer", organizer);
                       ("attendees", attendees);
                       ("status", get_default event "status" (PStr ""));
                       ("link", get_default event "htmlLink" (PStr ""))]))
         else Ok (PDict base)) = Ok (PDict fe) /\
        exists more, fe = base ++ more).
  { intros base. destruct details.
    - unfold people_ok in Hpeople. cbn in Hpeople.
      apply andb_true_iff in Hpeople as [Hcr Hat].
      apply andb_true_iff in Hcr as [Hcr Hor].
      destruct (email_of_ok event "creator" Hcr) as (v1 & ->).
      destruct (email_of_ok event "organizer" Hor) as (v2 & ->).
      destruct (attendee_emails_ok event Hat) as (v3 & ->).
      cbn. eexists. split; [reflexivity |]. eexists. reflexivity.
    - exists base. split; [reflexivity |]. exists []. rewrite app_nil_r. reflexivity. }
  destruct (dict_has s "date" && negb (dict_has s "dateTime")) eqn:Eall.
  - destruct (Dates.strptime_ymd a) as [first|] eqn:Ea; try discriminate.
    destruct (Dates.strptime_ymd b) as [last|] eqn:Eb; try discriminate.
    apply Z.ltb_lt in Htimes.
    destruct (minus_one_day_spec last (strptime_ymd_valid _ _ Eb) Htimes)
      as (shown & Hm & Hvalid & Hord).
    cbn [rbind]. rewrite Hm. cbn [rbind fst snd].
    edestruct Hdetails as (fe & Hfe & more & ->). rewrite Hfe.
    eexists. split; [reflexivity |]. repeat split.
    intros _. exists last, shown. repeat split; try assumption.
    apply strptime_isoformat. exact Hvalid.
  - destruct (dateutil_parse a) as [start_obj|] eqn:Ea; try discriminate.
    destruct (dateutil_parse b) as [end_obj|] eqn:Eb; try discriminate.
    cbn [rbind fst snd].
    edestruct Hdetails as (fe & Hfe & more & ->). rewrite Hfe.
    eexists. split; [reflexivity |]. repeat split.
    intros [=].
Qed.
End FormatFacts.

(** C10: for a list of events that carry start and end fields as the
    provider writes them, [format_events] returns a list with one
    formatted event per event, in the same order (the i-th result is the
    formatting of the i-th event and keeps its id); and for every all-day
    event the formatted event has [is_all_day] true and an end that is
    the ISO text of a date, reading back as that date, which is exactly
    one day before the end date the provider gave. *)
Theorem format_events_one_per_event {datetime : Type}
    (dateutil_parse : string -> result datetime)
    (datetime_isoformat : datetime -> string)
    (events : list pyval) (include_details : bool) :
  forallb (carries_start_end dateutil_parse include_details) events = true ->
  exists formatted,
    Format.format_events dateutil_parse datetime_isoformat events include_details
      = Ok formatted /\
    length formatted = length events /\
    (forall (i : nat) ev,
        events !! i = Some ev ->
        exists fe,
          formatted !! i = Some (PDict fe) /\
          Format.format_event dateutil_parse datetime_isoformat include_details ev
            = Ok (PDict fe) /\
          dict_get fe "id" = Some (event_id ev) /\
          dict_get fe "is_all_day" = Some (PBool (is_all_day_event ev))) /\
    (forall (i : nat) ev,
        events !! i = Some ev ->
        is_all_day_event ev = true ->
        exists fe last shown,
          formatted !! i = Some (PDict fe) /\
          dict_get fe "is_all_day" = Some (PBool true) /\
          raw_end_date ev = Some last /\
          dict_get fe "end" = Some (PStr (Dates.isoformat shown)) /\
          Dates.strptime_ymd (Dates.isoformat shown) = Ok shown /\
          Dates.toordinal shown = Dates.toordinal last - 1).
Proof.
  intros Hall. rewrite forallb_forall in Hall.
  assert (Hev : forall ev, ev ∈ events ->
                           carries_start_end dateutil_parse include_details ev = true).
  { intros ev Hin. apply Hall. apply list_elem_of_In. exact Hin. }
  destruct (rmap_spec
              (Format.format_event dateutil_parse datetime_isoformat include_details)
              events) as (formatted & Hrun & Hlen & Hnth).
  { intros ev Hin.
    destruct (format_event_spec dateutil_parse datetime_isoformat include_details ev
                (Hev ev Hin)) as (fe & Hfe & _).
    eauto. }
  exists formatted. split; [exact Hrun |]. split; [exact Hlen |]. split.
  - intros i ev Hi. destruct (Hnth i ev Hi) as (y & Hy & Hf).
    destruct (format_event_spec dateutil_parse datetime_isoformat include_details ev
                (Hev ev (list_elem_of_lookup_2 _ _ _ Hi))) as (fe & Hfe & Hid & Hflag & _).
    rewrite Hfe in Hf. injection Hf as <-. exists fe. auto.
  - intros i ev Hi Hday. destruct (Hnth i ev Hi) as (y & Hy & Hf).
    destruct (format_event_spec dateutil_parse datetime_isoformat include_details ev
                (Hev ev (list_elem_of_lookup_2 _ _ _ Hi)))
      as (fe & Hfe & Hid & Hflag & Hend).
    rewrite Hfe in Hf. injection Hf as <-.
    destruct (Hend Hday) as (last & shown & H1 & H2 & H3 & H4).
    exists fe, last, shown. rewrite Hday in Hflag. auto 10.
Qed.

Lemma format_events_witness :
  exists formatted,
    Format.format_events FormatExamples.parse_as_text (fun s => s)
      [FormatExamples.holiday; FormatExamples.meeting] true = Ok formatted /\
    length formatted = 2%nat.
Proof.
  destruct (format_events_one_per_event FormatExamples.parse_as_text (fun s => s)
              [FormatExamples.holiday; FormatExamples.meeting] true eq_refl)
    as (formatted & Hrun & Hlen & _).
  exists formatted. split; [exact Hrun | exact Hlen].
Defined.

(* ===================================================================== *)
(** ** lambda_handler                                                    *)
(* ===================================================================== *)

Lemma returns_only_ret {A} (P : A -> Prop) (a : A) : P a -> returns_only P (ret a).
Proof. intros H w a' w' t [= <- _ _]. exact H. Qed.

Lemma returns_only_bind {A B} (P : B -> Prop) (m : M A) (k : A -> M B) :
  (forall a, returns_only P (k a)) -> returns_only P (bind m k).
Proof.
  intros Hk w b w' t. unfold bind.
  destruct (m w) as [[[a|e] w1] t1]; [| discriminate].
  destruct (k a w1) as [[r w2] t2] eqn:E. intros [= -> <- <-].
  exact (Hk a w1 b w2 t2 E).
Qed.

Section HandlerFacts.
Context {datetime : Type}.
Variable dateutil_parse : string -> result datetime.
Variable datetime_isoformat : datetime -> string.
Variable int_of_str : string -> option Z.
Variable b64decode_utf8 : string -> result Text.
Variable get_events : Credentials -> Z -> M (list pyval).
Variable analyze_events : list pyval -> Z -> result pyval.

Let handler_body :=
  LambdaFunction.handler_body dateutil_parse datetime_isoformat int_of_str
    b64decode_utf8 get_events analyze_events.

(** What the [try] block returns, when it returns, is the 400 answer or
    a 200 answer. *)
Lemma handler_body_returns event :
  returns_only (fun r => statusCode r = 400 \/ statusCode r = 200) (handler_body event).
Proof.
  unfold handler_body, LambdaFunction.handler_body.
  apply returns_only_bind; intros days_back.
  apply returns_only_bind; intros creds_env.
  destruct (negb (opt_truthy creds_env)).
  - apply returns_only_ret. left. reflexivity.
  - repeat (apply returns_only_bind; intros ?).
    apply returns_only_ret. right. reflexivity.
Qed.
End HandlerFacts.

(** The handler's [except] clause prints and returns: nothing it does can
    raise, so nothing leaves [lambda_handler]. *)
Lemma lambda_handler_never_raises {datetime : Type}
    (dateutil_parse : string -> result datetime)
    (datetime_isoformat : datetime -> string)
    (int_of_str : string -> option Z)
    (b64decode_utf8 : string -> result Text)
    (get_events : Credentials -> Z -> M (list pyval))
    (analyze_events : list pyval -> Z -> result pyval)
    (event context : pyval) :
  never_raises (LambdaFunction.lambda_handler dateutil_parse datetime_isoformat
                  int_of_str b64decode_utf8 get_events analyze_events event context).
Proof. unfold LambdaFunction.lambda_handler. structural. Qed.

(** C9: for every event, context and world, and whatever the decoding,
    the calendar service and the analysis do, [lambda_handler] returns a
    response and raises nothing: the response is the one the [try] block
    returned, with status 200 or 400, or, when the block raised [e], the
    status 500 response whose body is the JSON text of
    [{'error': 'An error occurred: ' + str(e)}], after printing the
    error. *)
Theorem lambda_handler_always_responds {datetime : Type}
    (dateutil_parse : string -> result datetime)
    (datetime_isoformat : datetime -> string)
    (int_of_str : string -> option Z)
    (b64decode_utf8 : string -> result Text)
    (get_events : Credentials -> Z -> M (list pyval))
    (analyze_events : list pyval -> Z -> result pyval)
    (event context : pyval) (w : World) :
  let attempt := LambdaFunction.handler_body dateutil_parse datetime_isoformat
                int_of_str b64decode_utf8 get_events analyze_events event w in
  let run := LambdaFunction.lambda_handler dateutil_parse datetime_isoformat
               int_of_str b64decode_utf8 get_events analyze_events event context w in
  exists resp,
    outcome run = Ok resp /\
    (statusCode resp = 200 \/ statusCode resp = 400 \/ statusCode resp = 500) /\
    (exists v, body resp = json_dumps v) /\
    (forall r, outcome attempt = Ok r ->
               resp = r /\ (statusCode r = 200 \/ statusCode r = 400)) /\
    (forall e, outcome attempt = Raise e ->
               resp = LambdaFunction.response_500 e /\
               statusCode resp = 500 /\
               body resp = json_dumps (PDict [("error", PStr ("An error occurred: " +:+ str e))]) /\
               effects run = effects attempt ++ [Printed ("Error: " +:+ str e)]).
Proof.
  intros attempt run. subst run. unfold LambdaFunction.lambda_handler, try_except.
  fold attempt.
  pose proof (handler_body_returns dateutil_parse datetime_isoformat int_of_str
                b64decode_utf8 get_events analyze_events event w) as Hret.
  fold attempt in Hret.
  destruct attempt as [[[r|e] w1] t1] eqn:E; cbn.
  - specialize (Hret r w1 t1 eq_refl). cbn in Hret.
    exists r. split; [reflexivity |]. split; [tauto |]. split.
    { destruct (body r) as [v]. exists v. reflexivity. }
    split.
    + intros r' [= <-]. split; [reflexivity | tauto].
    + intros e' [=].
  - exists (LambdaFunction.response_500 e). split; [reflexivity |].
    split; [right; right; reflexivity |]. split; [eexists; reflexivity |]. split.
    + intros r [=].
    + intros e' [= <-]. repeat split.
Qed.

(* ===================================================================== *)
(** ** Sample runs                                                       *)
(* ===================================================================== *)

Example strptime_unpadded :
  Dates.strptime_ymd "2024-2-9" = Ok (Dates.mkDate 2024 2 9).
Proof. reflexivity. Qed.

Example strptime_no_such_day :
  is_ok (Dates.strptime_ymd "2023-02-29") = false.
Proof. reflexivity. Qed.

Example strptime_trailing_text :
  Dates.strptime_ymd "2024-03-01T10:00:00"
  = Raise (Exn ValueError "unconverted data remains: T10:00:00").
Proof. reflexivity. Qed.

Example day_before_march_first :
  Dates.minus_one_day (Dates.mkDate 2024 3 1) = Ok (Dates.mkDate 2024 2 29).
Proof. reflexivity. Qed.

Example day_before_new_year :
  Dates.minus_one_day (Dates.mkDate 2025 1 1) = Ok (Dates.mkDate 2024 12 31).
Proof. reflexivity. Qed.

Example day_before_first_day :
  Dates.minus_one_day (Dates.mkDate 1 1 1)
  = Raise (Exn OverflowError "date value out of range").
Proof. reflexivity. Qed.

Example ordinal_of_march_first : Dates.toordinal (Dates.mkDate 2024 3 1) = 738946.
Proof. reflexivity. Qed.

Example holiday_formatted :
  Format.format_events FormatExamples.parse_as_text (fun s => s)
    [FormatExamples.holiday] false
  = Ok [PDict [("id", PStr "ev1"); ("summary", PStr "Holiday");
               ("start", PStr "2024-02-28"); ("end", PStr "2024-02-29");
               ("is_all_day", PBool true)]].
Proof. reflexivity. Qed.

Example event_without_start :
  Format.format_events FormatExamples.parse_as_text (fun s => s)
    [PDict [("id", PStr "ev3")]] false
  = Raise (Exn KeyError "start").
Proof. reflexivity. Qed.

(** First run on a workstation: no token file, the consent flow gives
    credentials, which are written to token.json. *)
Example first_run_grants :
  let w := mkWorld 1000 {["credentials.json" := Examples.client_secrets]} ∅ false ∅ None
             Examples.rejecting_endpoint Examples.consenting (fun _ => None) None in
  let run := acquire (LocalClass Examples.local_api) w in
  outcome run = Ok Examples.granted /\
  effects run = [PathExists "token.json"; PathExists "credentials.json";
                 ReadFile "credentials.json"; Grant SCOPES;
                 WriteFile "token.json" (to_json Examples.granted)] /\
  files (world_after run) !! "token.json" = Some (Readable (to_json Examples.granted)).
Proof. cbn zeta. repeat split. Qed.

(** No client secrets either: the grant cannot start. *)
Example first_run_without_secrets :
  let w := mkWorld 1000 ∅ ∅ false ∅ None
             Examples.rejecting_endpoint Examples.consenting (fun _ => None) None in
  outcome (acquire (LocalClass Examples.local_api) w)
  = Raise (Exn FileNotFoundError
             "credentials.json file not found. Please download it from Google Cloud Console and save it in the current directory.").
Proof. reflexivity. Qed.

(** The handler without credentials in the environment answers 400. *)
Example handler_not_configured :
  outcome (HandlerExamples.handler (PDict []) PNone (HandlerExamples.bare ∅))
  = Ok (LambdaFunction.response_400).
Proof. reflexivity. Qed.

(** An event whose queryStringParameters is null: [.get] on [None]
    raises, and the handler answers 500. *)
Example handler_null_query_string :
  statusCode <$> match outcome (HandlerExamples.handler
                                   (PDict [("queryStringParameters", PNone)]) PNone
                                   (HandlerExamples.bare HandlerExamples.configured)) with
                 | Ok r => Some r
                 | Raise _ => None
                 end
  = Some 500.
Proof. reflexivity. Qed.

(** A configured container: one event, status 200. *)
Example handler_answers :
  outcome (HandlerExamples.handler
             (PDict [("queryStringParameters", PDict [("days", PStr "3")])]) PNone
             (HandlerExamples.bare HandlerExamples.configured))
  = Ok (mkResponse 200 (Some [("Content-Type", "application/json")])
          (json_dumps (PDict [("events_count", PInt 1); ("days_analyzed", PInt 3);
                              ("analysis", PDict [("summary", PStr "1 event")])]))).
Proof. reflexivity. Qed.

(** Credentials but no token anywhere: the Lambda class raises and the
    handler turns that into a 500 answer carrying the message. *)
Example handler_without_token :
  outcome (HandlerExamples.handler (PDict []) PNone
             (HandlerExamples.bare {["GOOGLE_CREDENTIALS_JSON" := "e30="]}))
  = Ok (LambdaFunction.response_500
          (Exn ValueError LambdaCalendarApi.no_credentials_msg)).
Proof. reflexivity. Qed.

(** A stored record without refresh token does not load: the class
    prints the error and runs the consent flow although the access token
    would be good until 2000. *)
Example record_without_refresh_token_not_loaded :
  let w := Examples.workstation (TokenJson Examples.access_only_record)
             Examples.rejecting_endpoint in
  acquire (LocalClass Examples.local_api) w
  = (Ok Examples.granted, with_file "token.json" (to_json Examples.granted) w,
     [PathExists "token.json"; ReadFile "token.json";
      Printed "Error loading token: Authorized user info was not in the expected format, missing fields refresh_token.";
      PathExists "credentials.json"; ReadFile "credentials.json"; Grant SCOPES;
      WriteFile "token.json" (to_json Examples.granted)]).
Proof. reflexivity. Qed.

(** A stored record without expiry counts as expired when it is loaded,
    and is refreshed. *)
Example record_without_expiry_is_refreshed :
  let w := Examples.workstation (TokenJson Examples.undated_record)
             Examples.refreshing_endpoint in
  effects (acquire LocalScript w)
  = [PathExists "token.json"; ReadFile "token.json";
     Refresh (mkCreds (Some "ya29.a0") (Some "1//0g") (Some 775) SCOPES);
     WriteFile "token.json"
       (to_json (mkCreds (Some "ya29.fresh") (Some "1//0g") (Some 5000) SCOPES))].
Proof. reflexivity. Qed.

(** A token file that cannot be opened for writing: the refresh has been
    made, the write raises out of [_authenticate], and neither the file
    nor the parameter has the new token. *)
Example unwritable_token_file_loses_refresh :
  let w := Examples.read_only_at "/tmp/token.json"
             (Examples.container None (Some (TokenJson Examples.stale_record)) None
                Examples.refreshing_endpoint) in
  let fresh := apply_refresh (loaded Examples.stale_record)
                 (mkReply "ya29.fresh" 5000 None) in
  acquire (LambdaClass Examples.lambda_api) w
  = (Raise (Exn PermissionError "Permission denied: /tmp/token.json"), w,
     [SsmGet "/calendar/token"; Refresh (loaded Examples.stale_record);
      WriteFile "/tmp/token.json" (to_json fresh)]).
Proof. reflexivity. Qed.

(** When [build] raises, the refreshed token has already been written to
    the file and to the parameter. *)
Example failed_build_after_saving :
  let w := Examples.without_discovery
             (Examples.container None (Some (TokenJson Examples.stale_record)) None
                Examples.refreshing_endpoint) in
  let fresh := apply_refresh (loaded Examples.stale_record)
                 (mkReply "ya29.fresh" 5000 None) in
  let run := acquire (LambdaClass Examples.lambda_api) w in
  outcome run = Raise (Exn OtherError "name: calendar  version: v3") /\
  files (world_after run) !! "/tmp/token.json" = Some (Readable (to_json fresh)) /\
  ssm_params (world_after run) !! "/calendar/token" = Some (to_json fresh).
Proof. cbn zeta. repeat split. Qed.

(** A token variable that does not decode: /tmp/token.json has been
    opened by then, and is left empty. *)
Example failed_decode_leaves_empty_token_file :
  let w := HandlerExamples.bare
             (<["GOOGLE_TOKEN_JSON" := "!"]> {["GOOGLE_CREDENTIALS_JSON" := "e30="]}) in
  let run := HandlerExamples.handler (PDict []) PNone w in
  outcome run = Ok (LambdaFunction.response_500 (Exn ValueError "Incorrect padding")) /\
  effects run = [WriteFile "/tmp/credentials.json" (Raw "e30=");
                 OpenForWriting "/tmp/token.json";
                 Printed "Error: Incorrect padding"] /\
  files (world_after run) !! "/tmp/token.json" = Some (Readable (Raw EmptyString)).
Proof. cbn zeta. repeat split. Qed.

(** The text of a [KeyError] is the repr of the key. *)
Example str_of_key_error :
  str (Exn KeyError "start") = "'start'" /\
  str (Exn ValueError "day is out of range for month") = "day is out of range for month" /\
  py_repr "it's" = String double_quote ("it's" +:+ String double_quote EmptyString) /\
  Dates.strptime_ymd "2024"
  = Raise (Exn ValueError "time data '2024' does not match format '%Y-%m-%d'").
Proof. repeat split. Qed.

(* ===================================================================== *)
(** ** Further properties of the credential procedures                   *)
(* ===================================================================== *)

Lemma keeps_world_refresh c : keeps_world (creds_refresh c).
Proof.
  intros w. unfold creds_refresh, world_after. destruct (token_endpoint w c); reflexivity.
Qed.

Lemma keeps_world_flow path required : keeps_world (run_installed_app_flow path required).
Proof.
  intros w. unfold run_installed_app_flow, bind, read_file, world_after.
  destruct (files w !! path) as [[t|]|]; reflexivity.
Qed.

Lemma emits_only_flow P path required :
  P (ReadFile path) = true -> P (Grant required) = true ->
  emits_only P (run_installed_app_flow path required).
Proof.
  intros H1 H2 w. unfold run_installed_app_flow, bind, read_file, effects.
  destruct (files w !! path) as [[t|]|]; cbn; rewrite ?H1, ?H2; reflexivity.
Qed.

Lemma never_raises_save self t :
  never_raises (LambdaCalendarApi._save_token_to_parameter_store self t).
Proof. unfold LambdaCalendarApi._save_token_to_parameter_store. structural. Qed.

Lemma finishes_fails_cleanly path {A} (m : M A) : finishes path m -> fails_cleanly path m.
Proof. intros H w Hw Hr. rewrite (H w Hw) in Hr. discriminate. Qed.

Lemma fails_cleanly_raise path {A} e : fails_cleanly path (@raise A e).
Proof. intros w _ _. split; reflexivity. Qed.

(** A step that changes and writes nothing, followed by steps that fail
    cleanly, fails cleanly. *)
Lemma fails_cleanly_bind path {A B} (m : M A) (k : A -> M B) :
  keeps_world m -> emits_only (fun e => negb (is_write e)) m ->
  (forall a, fails_cleanly path (k a)) -> fails_cleanly path (bind m k).
Proof.
  intros Hw He Hk w Hok. specialize (Hw w). specialize (He w).
  apply forallb_count_zero in He.
  unfold bind, outcome, world_after, effects in *.
  destruct (m w) as [[[a|e] w1] t1]; cbn in *; subst w1.
  - specialize (Hk a w Hok). unfold outcome, world_after, effects in Hk.
    destruct (k a w) as [[r w2] t2]; cbn in *. intros Hr.
    destruct (Hk Hr) as [-> Hc]. split; [reflexivity |].
    rewrite count_app, He, Hc. reflexivity.
  - intros _. split; [reflexivity | exact He].
Qed.

Ltac no_write_step :=
  first [ apply keeps_world_refresh | apply keeps_world_flow
        | apply emits_only_flow; reflexivity
        | structural ].

Lemma interactive_grant_class_clean self :
  keeps_world (CalendarApi.interactive_grant self) /\
  emits_only (fun e => negb (is_write e)) (CalendarApi.interactive_grant self) /\
  emits_only (fun e => negb (is_refresh e)) (CalendarApi.interactive_grant self).
Proof.
  unfold CalendarApi.interactive_grant. repeat split.
  - apply keeps_world_bind; [structural | intros []; [apply keeps_world_flow | structural]].
  - apply emits_only_bind; [structural | intros []; cbn;
      [apply emits_only_flow; reflexivity | structural]].
  - apply emits_only_bind; [structural | intros []; cbn;
      [apply emits_only_flow; reflexivity | structural]].
Qed.

Lemma interactive_grant_script_clean :
  keeps_world GetCalendarEvents.interactive_grant /\
  emits_only (fun e => negb (is_write e)) GetCalendarEvents.interactive_grant /\
  emits_only (fun e => negb (is_refresh e)) GetCalendarEvents.interactive_grant.
Proof.
  unfold GetCalendarEvents.interactive_grant. repeat split.
  - apply keeps_world_bind; [structural | intros []; [apply keeps_world_flow | structural]].
  - apply emits_only_bind; [structural | intros []; cbn;
      [apply emits_only_flow; reflexivity | structural]].
  - apply emits_only_bind; [structural | intros []; cbn;
      [apply emits_only_flow; reflexivity | structural]].
Qed.

Lemma build_finishes path c : finishes path (build c).
Proof. intros w [_ Hb]. unfold build. rewrite Hb. reflexivity. Qed.

(** Where the token file can be written and [build] gives a service
    object, the steps after a refresh or a grant do not raise. *)
Lemma save_then_build_finishes path c :
  finishes path (write_file path (to_json c) ;;; build c).
Proof.
  intros w [Hw Hb]. unfold bind, write_file, build. rewrite Hw. cbn. rewrite Hb.
  reflexivity.
Qed.

Lemma lambda_save_then_build_finishes self c :
  finishes (LambdaCalendarApi.token_path self)
    (write_file (LambdaCalendarApi.token_path self) (to_json c) ;;;
     LambdaCalendarApi._save_token_to_parameter_store self (to_json c) ;;;
     build c).
Proof.
  intros w [Hw Hb].
  unfold LambdaCalendarApi._save_token_to_parameter_store, write_file,
    try_except, ssm_put_parameter, build, print, emit, ret, bind.
  rewrite Hw. cbn.
  destruct (LambdaCalendarApi.parameter_store_token_name self) as [name|];
    [| cbn; rewrite Hb; reflexivity].
  destruct (str_truthy name); cbn; [| rewrite Hb; reflexivity].
  destruct (ssm_put_fault w) as [[err [other|]]|]; cbn; rewrite Hb; reflexivity.
Qed.

Lemma after_load_fails_cleanly d creds : fails_cleanly (token_file d) (after_load d creds).
Proof.
  destruct d as [self | | self]; cbn [token_file after_load].
  - destruct (interactive_grant_class_clean self) as (G1 & G2 & _).
    unfold CalendarApi.obtain. destruct creds as [c|].
    + apply fails_cleanly_bind; [structural | structural |]. intros v.
      destruct (negb v); [| apply finishes_fails_cleanly, build_finishes].
      apply fails_cleanly_bind; [structural | structural |]. intros e.
      apply fails_cleanly_bind.
      * destruct (e && _); [apply keeps_world_refresh | exact G1].
      * destruct (e && _); [structural | exact G2].
      * intros c'. apply finishes_fails_cleanly, save_then_build_finishes.
    + apply fails_cleanly_bind; [exact G1 | exact G2 |].
      intros c'. apply finishes_fails_cleanly, save_then_build_finishes.
  - destruct interactive_grant_script_clean as (G1 & G2 & _).
    unfold GetCalendarEvents.obtain. destruct creds as [c|].
    + apply fails_cleanly_bind; [structural | structural |]. intros v.
      destruct (negb v); [| apply finishes_fails_cleanly, build_finishes].
      apply fails_cleanly_bind; [structural | structural |]. intros e.
      apply fails_cleanly_bind.
      * destruct (e && _); [apply keeps_world_refresh | exact G1].
      * destruct (e && _); [structural | exact G2].
      * intros c'. apply finishes_fails_cleanly, save_then_build_finishes.
    + apply fails_cleanly_bind; [exact G1 | exact G2 |].
      intros c'. apply finishes_fails_cleanly, save_then_build_finishes.
  - unfold LambdaCalendarApi.refresh_or_fail. destruct creds as [c|];
      [| apply fails_cleanly_raise].
    apply fails_cleanly_bind; [structural | structural |]. intros v.
    destruct (negb v); [| apply finishes_fails_cleanly, build_finishes].
    apply fails_cleanly_bind; [structural | structural |]. intros e.
    destruct (e && _); [| apply fails_cleanly_raise].
    apply fails_cleanly_bind; [apply keeps_world_refresh | structural |].
    intros c'. apply finishes_fails_cleanly. cbn zeta.
    apply lambda_save_then_build_finishes.
Qed.

Lemma load_stored_clean d :
  keeps_world (load_stored d) /\
  emits_only (fun e => negb (is_refresh e || is_grant e || is_write e)) (load_stored d).
Proof.
  destruct d as [self | | self]; cbn; split.
  - unfold CalendarApi.load_token. structural.
  - unfold CalendarApi.load_token. structural.
  - unfold GetCalendarEvents.load_token. structural.
  - unfold GetCalendarEvents.load_token. structural.
  - apply lambda_load_keeps_world.
  - intros w. destruct (lambda_load_shape self w) as (c & t & -> & Hq). exact Hq.
Qed.

(** X1: in a world where the token file can be written and [build] gives
    a service object, an [acquire] that raises, in any of the three
    procedures, has written nothing: loading, the refresh and the grant,
    where it then failed, come before the first write, so neither the
    token file nor the parameter store nor anything else in the world
    has changed. *)
Theorem failed_acquire_changes_nothing d w :
  write_fault w (token_file d) = None ->
  build_fault w = None ->
  is_ok (outcome (acquire d w)) = false ->
  world_after (acquire d w) = w /\ count is_write (effects (acquire d w)) = 0%nat.
Proof.
  intros Hw Hb.
  assert (H : fails_cleanly (token_file d) (bind (load_stored d) (after_load d))).
  { destruct (load_stored_clean d) as [Hk He].
    apply fails_cleanly_bind; [exact Hk | | intros a; apply after_load_fails_cleanly].
    intros w'. specialize (He w').
    rewrite forallb_forall in *. intros x Hx. specialize (He x Hx).
    destruct x; cbn in *; try reflexivity; discriminate. }
  rewrite acquire_split. apply H. split; assumption.
Qed.

Lemma failed_acquire_witness :
  world_after (acquire LocalScript
                 (Examples.workstation (TokenJson Examples.stale_record)
                    Examples.rejecting_endpoint))
  = Examples.workstation (TokenJson Examples.stale_record) Examples.rejecting_endpoint.
Proof.
  apply (failed_acquire_changes_nothing LocalScript
           (Examples.workstation (TokenJson Examples.stale_record)
              Examples.rejecting_endpoint));
    reflexivity.
Defined.

Lemma provider_calls_app t1 t2 :
  provider_calls (t1 ++ t2) = (provider_calls t1 + provider_calls t2)%nat.
Proof. unfold provider_calls. rewrite !count_app. lia. Qed.

Lemma quiet_no_provider_calls {A} (m : M A) :
  emits_only (fun e => negb (is_refresh e || is_grant e || is_write e)) m ->
  calls_at_most 0 m.
Proof.
  intros H w. destruct (quiet_counts _ (H w)) as (Q1 & Q2 & _).
  unfold provider_calls. rewrite Q1, Q2. lia.
Qed.

Lemma no_provider_calls {A} (m : M A) :
  emits_only (fun e => negb (is_refresh e || is_grant e)) m -> calls_at_most 0 m.
Proof.
  intros H w. specialize (H w). unfold provider_calls.
  induction (effects (m w)) as [| e t IH]; cbn in *; [lia |].
  apply andb_true_iff in H as [He Ht]. specialize (IH Ht).
  destruct e; cbn in *; try discriminate; lia.
Qed.

Lemma calls_at_most_bind {A B} a b (m : M A) (k : A -> M B) :
  calls_at_most a m -> (forall x, calls_at_most b (k x)) ->
  calls_at_most (a + b) (bind m k).
Proof.
  intros Hm Hk w. specialize (Hm w). unfold bind, effects in *.
  destruct (m w) as [[[x|e] w1] t1]; cbn [snd] in *; [| lia].
  specialize (Hk x w1). unfold effects in Hk.
  destruct (k x w1) as [[r w2] t2]; cbn [snd] in *.
  rewrite provider_calls_app. lia.
Qed.

Lemma calls_at_most_weaken {A} a b (m : M A) :
  (a <= b)%nat -> calls_at_most a m -> calls_at_most b m.
Proof. intros Hab H w. specialize (H w). lia. Qed.

Lemma calls_at_most_refresh c : calls_at_most 1 (creds_refresh c).
Proof.
  intros w. unfold creds_refresh, effects. destruct (token_endpoint w c); cbn; lia.
Qed.

Lemma calls_at_most_flow path required :
  calls_at_most 1 (run_installed_app_flow path required).
Proof.
  intros w. unfold run_installed_app_flow, bind, read_file, effects.
  destruct (files w !! path) as [[t|]|]; cbn.
  - destruct (consent w t required); cbn; lia.
  - lia.
  - lia.
Qed.

Ltac silent := apply no_provider_calls; structural.

Lemma calls_at_most_grant_class self :
  calls_at_most 1 (CalendarApi.interactive_grant self).
Proof.
  unfold CalendarApi.interactive_grant.
  apply (calls_at_most_bind 0 1); [silent |].
  intros []; cbn; [apply calls_at_most_flow |].
  apply (calls_at_most_weaken 0); [lia | silent].
Qed.

Lemma calls_at_most_grant_script : calls_at_most 1 GetCalendarEvents.interactive_grant.
Proof.
  unfold GetCalendarEvents.interactive_grant.
  apply (calls_at_most_bind 0 1); [silent |].
  intros []; cbn; [apply calls_at_most_flow |].
  apply (calls_at_most_weaken 0); [lia | silent].
Qed.

Lemma calls_at_most_save_build path c :
  calls_at_most 0 (write_file path (to_json c) ;;; build c).
Proof. silent. Qed.

Lemma after_load_calls d creds : calls_at_most 1 (after_load d creds).
Proof.
  destruct d as [self | | self]; cbn.
  - unfold CalendarApi.obtain. destruct creds as [c|].
    + apply (calls_at_most_bind 0 1); [silent |]. intros v.
      destruct (negb v); [| apply (calls_at_most_weaken 0); [lia | silent]].
      apply (calls_at_most_bind 0 1); [silent |]. intros e.
      apply (calls_at_most_bind 1 0); [| intros c'; apply calls_at_most_save_build].
      destruct (e && _); [apply calls_at_most_refresh | apply calls_at_most_grant_class].
    + apply (calls_at_most_bind 1 0); [apply calls_at_most_grant_class |].
      intros c'. apply calls_at_most_save_build.
  - unfold GetCalendarEvents.obtain. destruct creds as [c|].
    + apply (calls_at_most_bind 0 1); [silent |]. intros v.
      destruct (negb v); [| apply (calls_at_most_weaken 0); [lia | silent]].
      apply (calls_at_most_bind 0 1); [silent |]. intros e.
      apply (calls_at_most_bind 1 0); [| intros c'; apply calls_at_most_save_build].
      destruct (e && _); [apply calls_at_most_refresh | apply calls_at_most_grant_script].
    + apply (calls_at_most_bind 1 0); [apply calls_at_most_grant_script |].
      intros c'. apply calls_at_most_save_build.
  - unfold LambdaCalendarApi.refresh_or_fail. destruct creds as [c|];
      [| apply (calls_at_most_weaken 0); [lia | silent]].
    apply (calls_at_most_bind 0 1); [silent |]. intros v.
    destruct (negb v); [| apply (calls_at_most_weaken 0); [lia | silent]].
    apply (calls_at_most_bind 0 1); [silent |]. intros e.
    destruct (e && _); [| apply (calls_at_most_weaken 0); [lia | silent]].
    apply (calls_at_most_bind 1 0); [apply calls_at_most_refresh |].
    intros c'. cbn zeta. apply no_provider_calls.
    unfold LambdaCalendarApi._save_token_to_parameter_store, build. structural.
Qed.

(** X2: one [acquire], in any of the three procedures and in any world,
    makes at most one call to obtain credentials from the provider: one
    refresh or one grant, never both and never twice. *)
Theorem acquire_calls_provider_at_most_once d w :
  (count is_refresh (effects (acquire d w)) + count is_grant (effects (acquire d w)) <= 1)%nat.
Proof.
  rewrite acquire_split.
  apply (calls_at_most_bind 0 1 (load_stored d) (after_load d)).
  - apply quiet_no_provider_calls. apply load_stored_clean.
  - intros creds. apply after_load_calls.
Qed.

Lemma same_token_material_loaded s : same_token_material s (loaded s).
Proof. repeat split. Qed.

Lemma same_token_material_refl c : same_token_material c c.
Proof. repeat split. Qed.

(** What a local procedure leaves in the token file when it returns
    credentials it did not simply load. *)
Lemma after_load_local_file d creds w c :
  is_local d = true ->
  outcome (after_load d creds w) = Ok c ->
  (creds = Some c /\ valid (now w) c = true /\ world_after (after_load d creds w) = w) \/
  files (world_after (after_load d creds w)) !! token_file d = Some (Readable (to_json c)).
Proof.
  intros Hd. destruct d as [self | | self]; [| | discriminate]; cbn.
  - unfold CalendarApi.obtain, CalendarApi.interactive_grant, run_installed_app_flow,
      bind, creds_valid, creds_expired, creds_refresh, os_path_exists, read_file,
      write_file, build, ret, raise.
    destruct creds as [c0|].
    + destruct (valid (now w) c0) eqn:Ev; cbn.
      { destruct (build_fault w); cbn; [discriminate |]. intros [= ->]; left; auto. }
      destruct (expired (now w) c0 && opt_truthy (refresh_token c0)); cbn.
      * destruct (token_endpoint w c0); cbn; [| discriminate].
        destruct (write_fault w (CalendarApi.token_path self)) as [[?|?]|];
          cbn; try discriminate.
        destruct (build_fault w); cbn; [discriminate |].
        intros [= <-]. right. apply lookup_insert_eq.
      * destruct (files w !! CalendarApi.credentials_path self) as [[t|]|] eqn:E;
          cbn; rewrite ?E; cbn; try discriminate.
        destruct (consent w t SCOPES); cbn; [| discriminate].
        destruct (write_fault w (CalendarApi.token_path self)) as [[?|?]|];
          cbn; try discriminate.
        destruct (build_fault w); cbn; [discriminate |].
        intros [= <-]. right. apply lookup_insert_eq.
    + destruct (files w !! CalendarApi.credentials_path self) as [[t|]|] eqn:E;
        cbn; rewrite ?E; cbn; try discriminate.
      destruct (consent w t SCOPES); cbn; [| discriminate].
      destruct (write_fault w (CalendarApi.token_path self)) as [[?|?]|];
        cbn; try discriminate.
      destruct (build_fault w); cbn; [discriminate |].
      intros [= <-]. right. apply lookup_insert_eq.
  - unfold GetCalendarEvents.obtain, GetCalendarEvents.interactive_grant,
      run_installed_app_flow,
      bind, creds_valid, creds_expired, creds_refresh, os_path_exists, read_file,
      write_file, build, ret, raise.
    destruct creds as [c0|].
    + destruct (valid (now w) c0) eqn:Ev; cbn.
      { destruct (build_fault w); cbn; [discriminate |]. intros [= ->]; left; auto. }
      destruct (expired (now w) c0 && opt_truthy (refresh_token c0)); cbn.
      * destruct (token_endpoint w c0); cbn; [| discriminate].
        destruct (write_fault w "token.json") as [[?|?]|]; cbn; try discriminate.
        destruct (build_fault w); cbn; [discriminate |].
        intros [= <-]. right. apply lookup_insert_eq.
      * destruct (files w !! "credentials.json") as [[t|]|] eqn:E;
          cbn; rewrite ?E; cbn; try discriminate.
        destruct (consent w t SCOPES); cbn; [| discriminate].
        destruct (write_fault w "token.json") as [[?|?]|]; cbn; try discriminate.
        destruct (build_fault w); cbn; [discriminate |].
        intros [= <-]. right. apply lookup_insert_eq.
    + destruct (files w !! "credentials.json") as [[t|]|] eqn:E;
        cbn; rewrite ?E; cbn; try discriminate.
      destruct (consent w t SCOPES); cbn; [| discriminate].
      destruct (write_fault w "token.json") as [[?|?]|]; cbn; try discriminate.
      destruct (build_fault w); cbn; [discriminate |].
      intros [= <-]. right. apply lookup_insert_eq.
Qed.

(** What the local loading step returns comes from the token file. *)
Lemma load_stored_local_source d w c :
  is_local d = true ->
  outcome (load_stored d w) = Ok (Some c) ->
  exists s, files w !! token_file d = Some (Readable (TokenJson s)) /\
            from_authorized_user_info (now w) (TokenJson s) SCOPES = Ok c.
Proof.
  intros Hd. destruct d as [self | | self]; [| | discriminate]; cbn.
  - unfold CalendarApi.load_token, bind, try_except, os_path_exists, read_file,
      creds_from_authorized_user_info, ret, print, emit.
    destruct (files w !! CalendarApi.token_path self) as [[[s|s]|]|] eqn:E;
      cbn -[from_authorized_user_info]; rewrite ?E; cbn -[from_authorized_user_info];
      try discriminate.
    destruct (from_authorized_user_info (now w) (TokenJson s) SCOPES) as [c'|] eqn:Ei;
      cbn; [| discriminate].
    intros [= <-]. exists s. auto.
  - unfold GetCalendarEvents.load_token, bind, os_path_exists, read_file,
      creds_from_authorized_user_info, ret.
    destruct (files w !! "token.json") as [[[s|s]|]|] eqn:E;
      cbn -[from_authorized_user_info]; rewrite ?E; cbn -[from_authorized_user_info];
      try discriminate.
    destruct (from_authorized_user_info (now w) (TokenJson s) SCOPES) as [c'|] eqn:Ei;
      cbn; [| discriminate].
    intros [= <-]. exists s. auto.
Qed.

(** A record that loads as valid credentials had an expiry of its own,
    which the credentials keep with its token and refresh token. *)
Lemma valid_loaded_material now s c :
  from_authorized_user_info now (TokenJson s) SCOPES = Ok c ->
  valid now c = true -> same_token_material s c.
Proof.
  unfold from_authorized_user_info.
  destruct (refresh_token s) as [rt|] eqn:Hr; [| discriminate].
  intros [= <-] Hv. apply valid_not_expired in Hv. unfold expired in Hv. cbn in Hv.
  unfold same_token_material. cbn. rewrite Hr.
  destruct (expiry s) as [e|]; [repeat split |].
  exfalso. unfold REFRESH_THRESHOLD in Hv.
  destruct (Z.leb_spec (now - 225 - 225) now); [discriminate | lia].
Qed.

Lemma load_stored_run d w :
  exists t, load_stored d w = (outcome (load_stored d w), w, t) /\ quiet t = true.
Proof.
  destruct (load_stored_clean d) as [Hk He].
  exists (effects (load_stored d w)). split; [| apply He].
  pose proof (run_eta (load_stored d w)) as Heta. rewrite (Hk w) in Heta. exact Heta.
Qed.

(** X3: whenever one of the two local procedures returns credentials, in
    any world, the token file then holds a record with the token, refresh
    token and expiry of the credentials returned: what a caller gets is
    always what the next run will load. *)
Theorem local_acquire_leaves_returned_token_on_file d w c :
  is_local d = true ->
  outcome (acquire d w) = Ok c ->
  exists s,
    files (world_after (acquire d w)) !! token_file d = Some (Readable (TokenJson s)) /\
    same_token_material s c.
Proof.
  intros Hd Hok.
  destruct (load_stored_run d w) as (t0 & Hl & _).
  destruct (outcome (load_stored d w)) as [creds|e] eqn:Eo.
  - rewrite (acquire_after_load _ _ _ _ Hl) in Hok |- *.
    cbn [outcome world_after fst snd] in Hok |- *.
    destruct (after_load_local_file d creds w c Hd Hok) as [(-> & Hv & Hw) | Hfile].
    + rewrite Hw.
      destruct (load_stored_local_source d w c Hd Eo) as (s & Hs & Hinfo).
      exists s. split; [exact Hs | exact (valid_loaded_material _ _ _ Hinfo Hv)].
    + exists c. split; [exact Hfile | apply same_token_material_refl].
  - rewrite acquire_split, (bind_run_raise _ _ _ _ _ _ Hl) in Hok. discriminate.
Qed.

Lemma local_acquire_leaves_token_witness :
  exists s,
    files (world_after (acquire (LocalClass Examples.local_api)
                          (Examples.workstation (TokenJson Examples.stale_record)
                             Examples.refreshing_endpoint)))
      !! "token.json" = Some (Readable (TokenJson s)) /\
    same_token_material s
      (apply_refresh (loaded Examples.stale_record) (mkReply "ya29.fresh" 5000 None)).
Proof.
  apply (local_acquire_leaves_returned_token_on_file
           (LocalClass Examples.local_api)
           (Examples.workstation (TokenJson Examples.stale_record)
              Examples.refreshing_endpoint));
    reflexivity.
Defined.

(** The grant branch of the local procedures, when the client secrets
    can be read, the token file can be written and [build] gives a
    service object. *)
Lemma after_load_granted d creds w secrets :
  is_local d = true ->
  classify (now w) creds <> Valid -> classify (now w) creds <> Refreshable ->
  files w !! secrets_file d = Some (Readable secrets) ->
  write_fault w (token_file d) = None -> build_fault w = None ->
  after_load d creds w =
    match consent w secrets SCOPES with
    | Ok g => (Ok g, with_file (token_file d) (to_json g) w,
               [PathExists (secrets_file d); ReadFile (secrets_file d); Grant SCOPES;
                WriteFile (token_file d) (to_json g)])
    | Raise e => (Raise e, w,
                  [PathExists (secrets_file d); ReadFile (secrets_file d); Grant SCOPES])
    end.
Proof.
  intros Hd Hv Hr Hs Hwr Hb. unfold classify in *.
  destruct d as [self | | self]; [| | discriminate]; cbn in *.
  - unfold CalendarApi.obtain, CalendarApi.interactive_grant, run_installed_app_flow,
      bind, creds_valid, creds_expired, creds_refresh, os_path_exists, read_file,
      write_file, build, ret, raise.
    destruct creds as [c0|].
    + destruct (valid (now w) c0); [congruence |]. cbn.
      destruct (expired (now w) c0 && opt_truthy (refresh_token c0)); [congruence |].
      cbn. rewrite !Hs. cbn. rewrite !Hs.
      destruct (consent w secrets SCOPES); cbn; rewrite ?Hwr; cbn; rewrite ?Hb;
        reflexivity.
    + rewrite !Hs. cbn. rewrite !Hs.
      destruct (consent w secrets SCOPES); cbn; rewrite ?Hwr; cbn; rewrite ?Hb;
        reflexivity.
  - unfold GetCalendarEvents.obtain, GetCalendarEvents.interactive_grant,
      run_installed_app_flow,
      bind, creds_valid, creds_expired, creds_refresh, os_path_exists, read_file,
      write_file, build, ret, raise.
    destruct creds as [c0|].
    + destruct (valid (now w) c0); [congruence |]. cbn.
      destruct (expired (now w) c0 && opt_truthy (refresh_token c0)); [congruence |].
      cbn. rewrite !Hs. cbn. rewrite !Hs.
      destruct (consent w secrets SCOPES); cbn; rewrite ?Hwr; cbn; rewrite ?Hb;
        reflexivity.
    + rewrite !Hs. cbn. rewrite !Hs.
      destruct (consent w secrets SCOPES); cbn; rewrite ?Hwr; cbn; rewrite ?Hb;
        reflexivity.
Qed.

(** X4: in the two local procedures, when what is loaded is neither valid
    nor refreshable (no token file, a bad one, or an expired record
    whose refresh token is empty), the client secrets can be read, the
    user completes the consent flow, the token file can be written and
    [build] gives a service object: [acquire] runs the flow exactly
    once, makes no refresh, returns the granted credentials and writes
    them to the token file; if they come with a refresh token and their
    expiry lies further ahead than the library's refresh threshold, the
    next [acquire] loads them and makes no refresh, no grant and no
    write. *)
Theorem grant_persists_then_valid d w creds secrets g tok rt e :
  is_local d = true ->
  outcome (load_stored d w) = Ok creds ->
  classify (now w) creds <> Valid ->
  classify (now w) creds <> Refreshable ->
  files w !! secrets_file d = Some (Readable secrets) ->
  consent w secrets SCOPES = Ok g ->
  write_fault w (token_file d) = None ->
  build_fault w = None ->
  let first := acquire d w in
  let second := acquire d (world_after first) in
  outcome first = Ok g /\
  count is_grant (effects first) = 1%nat /\
  count is_refresh (effects first) = 0%nat /\
  files (world_after first) !! token_file d = Some (Readable (to_json g)) /\
  (token g = Some tok -> refresh_token g = Some rt -> expiry g = Some e ->
   now w + REFRESH_THRESHOLD < e ->
   outcome second = Ok (loaded g) /\
   quiet (effects second) = true).
Proof.
  intros Hd Hload Hv Hr Hs Hc Hwr Hb first second.
  destruct (load_stored_run d w) as (t0 & Hl & Hq). rewrite Hload in Hl.
  destruct (quiet_counts _ Hq) as (Q1 & Q2 & Q3).
  assert (Hfirst : acquire d w =
            (Ok g, with_file (token_file d) (to_json g) w,
             t0 ++ [PathExists (secrets_file d); ReadFile (secrets_file d); Grant SCOPES;
                    WriteFile (token_file d) (to_json g)])).
  { rewrite (acquire_after_load _ _ _ _ Hl),
      (after_load_granted d creds w secrets Hd Hv Hr Hs Hwr Hb), Hc. reflexivity. }
  assert (Hholds : holds d (with_file (token_file d) (to_json g) w) g).
  { destruct d as [self | | self]; [| | discriminate]; cbn; apply lookup_insert_eq. }
  subst second first. rewrite Hfirst. cbn [outcome world_after effects fst snd].
  rewrite !count_app, Q1, Q2.
  split; [reflexivity |]. split; [reflexivity |]. split; [reflexivity |]. split.
  - destruct d as [self | | self]; [| | discriminate]; cbn; apply lookup_insert_eq.
  - intros Ht Hrt He Hlt.
    destruct (acquire_valid_run _ _ _ rt e Hholds Hrt He
                (valid_loaded_future (now w) g tok e Ht He Hlt) Hb)
      as (t2 & Hsecond & Hq2).
    rewrite Hsecond. split; [reflexivity | exact Hq2].
Qed.

Lemma grant_persists_witness :
  let w := mkWorld 1000 {["credentials.json" := Examples.client_secrets]} ∅ false ∅ None
             Examples.rejecting_endpoint Examples.consenting (fun _ => None) None in
  let first := acquire (LocalClass Examples.local_api) w in
  let second := acquire (LocalClass Examples.local_api) (world_after first) in
  outcome first = Ok Examples.granted /\
  outcome second = Ok (loaded Examples.granted) /\
  quiet (effects second) = true.
Proof.
  destruct (grant_persists_then_valid
              (LocalClass Examples.local_api)
              (mkWorld 1000 {["credentials.json" := Examples.client_secrets]} ∅ false ∅
                 None Examples.rejecting_endpoint Examples.consenting (fun _ => None) None)
              None (Raw "{installed: ...}") Examples.granted "ya29.granted" "1//granted"
              6000)
    as (Hfirst & _ & _ & _ & Hsecond);
    [reflexivity | reflexivity | discriminate | discriminate | reflexivity
    | reflexivity | reflexivity | reflexivity |].
  cbn zeta. split; [exact Hfirst |].
  apply Hsecond; reflexivity.
Defined.

(** X5: in the two local procedures, when what is loaded is neither valid
    nor refreshable and there is no client secrets file, [acquire] raises
    [FileNotFoundError] with a message that names the missing file; the
    consent flow is not started, nothing is written and the world is left
    as it was. *)
Theorem missing_client_secrets_reported d w creds :
  is_local d = true ->
  outcome (load_stored d w) = Ok creds ->
  classify (now w) creds <> Valid ->
  classify (now w) creds <> Refreshable ->
  files w !! secrets_file d = None ->
  outcome (acquire d w) =
    Raise (Exn FileNotFoundError
             (secrets_file d +:+
              " file not found. Please download it from Google Cloud Console and save it in the current directory.")) /\
  world_after (acquire d w) = w /\
  count is_grant (effects (acquire d w)) = 0%nat /\
  count is_refresh (effects (acquire d w)) = 0%nat /\
  count is_write (effects (acquire d w)) = 0%nat.
Proof.
  intros Hd Hload Hv Hr Hs.
  destruct (load_stored_run d w) as (t0 & Hl & Hq). rewrite Hload in Hl.
  destruct (quiet_counts _ Hq) as (Q1 & Q2 & Q3).
  assert (Hafter : after_load d creds w =
            (Raise (Exn FileNotFoundError
                      (secrets_file d +:+
                       " file not found. Please download it from Google Cloud Console and save it in the current directory.")),
             w, [PathExists (secrets_file d)])).
  { unfold classify in *.
    destruct d as [self | | self]; [| | discriminate]; cbn in *.
    - unfold CalendarApi.obtain, CalendarApi.interactive_grant, bind, creds_valid,
        creds_expired, os_path_exists, raise.
      destruct creds as [c0|].
      + destruct (valid (now w) c0); [congruence |]. cbn.
        destruct (expired (now w) c0 && opt_truthy (refresh_token c0)); [congruence |].
        cbn. rewrite !Hs. reflexivity.
      + rewrite !Hs. reflexivity.
    - unfold GetCalendarEvents.obtain, GetCalendarEvents.interactive_grant, bind,
        creds_valid, creds_expired, os_path_exists, raise.
      destruct creds as [c0|].
      + destruct (valid (now w) c0); [congruence |]. cbn.
        destruct (expired (now w) c0 && opt_truthy (refresh_token c0)); [congruence |].
        cbn. rewrite !Hs. reflexivity.
      + rewrite !Hs. reflexivity. }
  rewrite (acquire_after_load _ _ _ _ Hl), Hafter.
  cbn [outcome world_after effects fst snd].
  rewrite !count_app, Q1, Q2, Q3. repeat split.
Qed.

Lemma missing_client_secrets_witness :
  world_after (acquire LocalScript
                 (mkWorld 1000 ∅ ∅ false ∅ None
                    Examples.rejecting_endpoint Examples.consenting (fun _ => None) None))
  = mkWorld 1000 ∅ ∅ false ∅ None Examples.rejecting_endpoint Examples.consenting (fun _ => None) None.
Proof.
  apply (missing_client_secrets_reported LocalScript
           (mkWorld 1000 ∅ ∅ false ∅ None
              Examples.rejecting_endpoint Examples.consenting (fun _ => None) None) None);
    [reflexivity | reflexivity | discriminate | discriminate | reflexivity].
Defined.

(* ===================================================================== *)
(** ** The parameter store helpers                                       *)
(* ===================================================================== *)

Lemma get_token_run self w :
  LambdaCalendarApi._get_token_from_parameter_store self w =
    match remote_name (LambdaClass self) with
    | None => (Ok None, w, [])
    | Some name =>
        if ssm_reachable w then
          match ssm_params w !! name with
          | Some t => (Ok (Some t), w, [SsmGet name])
          | None =>
              (Ok None, w,
               [SsmGet name;
                Printed "Error retrieving token from Parameter Store: ParameterNotFound"])
          end
        else
          (Ok None, w,
           [SsmGet name;
            Printed "Error retrieving token from Parameter Store: Could not connect to the endpoint"])
    end.
Proof.
  unfold remote_name, LambdaCalendarApi._get_token_from_parameter_store.
  destruct (LambdaCalendarApi.parameter_store_token_name self) as [name|]; [| reflexivity].
  destruct (str_truthy name); cbn; [| reflexivity].
  unfold bind, try_except, ssm_get_parameter.
  destruct (ssm_reachable w); [destruct (ssm_params w !! name) |]; reflexivity.
Qed.

(** X6: [_get_token_from_parameter_store] never raises and never changes
    anything, whatever the parameter store does; it returns a text
    exactly when a parameter name is configured (not [None], not empty)
    and the store serves that parameter; and without a configured name it
    does not call the store at all. *)
Theorem get_token_from_parameter_store_total self w t :
  let run := LambdaCalendarApi._get_token_from_parameter_store self w in
  is_ok (outcome run) = true /\
  world_after run = w /\
  (outcome run = Ok (Some t) <->
   exists name, remote_name (LambdaClass self) = Some name /\
                ssm_reachable w = true /\ ssm_params w !! name = Some t) /\
  (remote_name (LambdaClass self) = None -> effects run = []) /\
  (count is_remote_load (effects run) <= 1)%nat.
Proof.
  cbn zeta. rewrite get_token_run.
  destruct (remote_name (LambdaClass self)) as [name|].
  - destruct (ssm_reachable w) eqn:Er; [destruct (ssm_params w !! name) as [t'|] eqn:Ep |];
      cbn; repeat split; try discriminate; try lia.
    + intros [= ->]. exists name. auto.
    + intros (n & [= <-] & _ & Hp). rewrite Ep in Hp. congruence.
    + intros (n & [= <-] & _ & Hp). rewrite Ep in Hp. discriminate.
    + intros (n & _ & Hr & _). discriminate.
  - cbn. repeat split; try discriminate; try lia.
    intros (n & [=] & _).
Qed.

Lemma get_token_from_parameter_store_witness :
  effects (LambdaCalendarApi._get_token_from_parameter_store
             (LambdaCalendarApi.mkSelf "/tmp/credentials.json" "/tmp/token.json" (Some ""))
             (Examples.container None None None Examples.refreshing_endpoint)) = [].
Proof.
  apply (get_token_from_parameter_store_total
           (LambdaCalendarApi.mkSelf "/tmp/credentials.json" "/tmp/token.json" (Some ""))
           (Examples.container None None None Examples.refreshing_endpoint)
           (Raw "")).
  reflexivity.
Defined.

Lemma save_token_run self token_json w :
  LambdaCalendarApi._save_token_to_parameter_store self token_json w =
    match remote_name (LambdaClass self) with
    | None => (Ok false, w, [])
    | Some name =>
        match ssm_put_fault w with
        | None => (Ok true, with_param name token_json w, [SsmPut name token_json])
        | Some (err, concurrent) =>
            (Ok false,
             match concurrent with
             | Some other => with_param name other w
             | None => w
             end,
             [SsmPut name token_json;
              Printed ("Error saving token to Parameter Store: " +:+ str err)])
        end
    end.
Proof.
  unfold remote_name, LambdaCalendarApi._save_token_to_parameter_store.
  destruct (LambdaCalendarApi.parameter_store_token_name self) as [name|]; [| reflexivity].
  destruct (str_truthy name); cbn; [| reflexivity].
  unfold bind, try_except, ssm_put_parameter.
  destruct (ssm_put_fault w) as [[err [other|]]|]; reflexivity.
Qed.

(** X7: [_save_token_to_parameter_store] never raises; it returns [True]
    exactly when a parameter name is configured and the store accepted
    the write, and [False] otherwise; without a configured name it
    neither calls the store nor changes anything; and it never touches
    the file system. *)
Theorem save_token_to_parameter_store_reports self token_json w :
  let run := LambdaCalendarApi._save_token_to_parameter_store self token_json w in
  (exists ok, outcome run = Ok ok /\
              (ok = true <->
               exists name, remote_name (LambdaClass self) = Some name /\
                            ssm_put_fault w = None)) /\
  (remote_name (LambdaClass self) = None -> effects run = [] /\ world_after run = w) /\
  files (world_after run) = files w.
Proof.
  cbn zeta. rewrite save_token_run.
  destruct (remote_name (LambdaClass self)) as [name|].
  - destruct (ssm_put_fault w) as [[err [other|]]|] eqn:Ef; cbn.
    + repeat split; try discriminate. exists false. split; [reflexivity |].
      split; [discriminate | intros (n & _ & [=])].
    + repeat split; try discriminate. exists false. split; [reflexivity |].
      split; [discriminate | intros (n & _ & [=])].
    + repeat split; try discriminate. exists true. split; [reflexivity |].
      split; [intros _; exists name; auto | reflexivity].
  - cbn. repeat split. exists false. split; [reflexivity |].
    split; [discriminate | intros (n & [=] & _)].
Qed.

Lemma save_token_to_parameter_store_witness :
  effects (LambdaCalendarApi._save_token_to_parameter_store
             (LambdaCalendarApi.mkSelf "/tmp/credentials.json" "/tmp/token.json" None)
             (to_json Examples.fresh_record)
             (Examples.container None None None Examples.refreshing_endpoint)) = [].
Proof.
  apply (save_token_to_parameter_store_reports
           (LambdaCalendarApi.mkSelf "/tmp/credentials.json" "/tmp/token.json" None)
           (to_json Examples.fresh_record)
           (Examples.container None None None Examples.refreshing_endpoint)).
  reflexivity.
Defined.

(** X8: what [_save_token_to_parameter_store] has saved is what
    [_get_token_from_parameter_store] then returns: with a configured
    name, a store that accepts the write and can be reached, saving a
    text and then getting the token gives that text back, whatever the
    parameter held before. *)
Theorem save_then_get_token self token_json w name :
  remote_name (LambdaClass self) = Some name ->
  ssm_put_fault w = None ->
  ssm_reachable w = true ->
  let saved := LambdaCalendarApi._save_token_to_parameter_store self token_json w in
  outcome saved = Ok true /\
  outcome (LambdaCalendarApi._get_token_from_parameter_store self (world_after saved))
    = Ok (Some token_json).
Proof.
  intros Hn Hf Hr. cbn zeta. rewrite save_token_run, Hn, Hf.
  cbn [outcome world_after fst snd]. split; [reflexivity |].
  rewrite get_token_run, Hn. cbn. rewrite Hr.
  rewrite lookup_insert_eq. reflexivity.
Qed.

Lemma save_then_get_token_witness :
  outcome (LambdaCalendarApi._save_token_to_parameter_store Examples.lambda_api
             (to_json Examples.fresh_record)
             (Examples.container None (Some (Raw "old")) None Examples.refreshing_endpoint))
  = Ok true.
Proof.
  apply (save_then_get_token Examples.lambda_api (to_json Examples.fresh_record)
           (Examples.container None (Some (Raw "old")) None Examples.refreshing_endpoint)
           "/calendar/token");
    reflexivity.
Defined.

(* ===================================================================== *)
(** ** Further properties of lambda_handler                              *)
(* ===================================================================== *)

Section HandlerEdges.
Context {datetime : Type}.
Variable dateutil_parse : string -> result datetime.
Variable datetime_isoformat : datetime -> string.
Variable int_of_str : string -> option Z.
Variable b64decode_utf8 : string -> result Text.
Variable get_events : Credentials -> Z -> M (list pyval).
Variable analyze_events : list pyval -> Z -> result pyval.

Let handler :=
  LambdaFunction.lambda_handler dateutil_parse datetime_isoformat int_of_str
    b64decode_utf8 get_events analyze_events.

Let handler_body :=
  LambdaFunction.handler_body dateutil_parse datetime_isoformat int_of_str
    b64decode_utf8 get_events analyze_events.

(** What is left of the [try] block once [days_back] is known and the
    two temporary files have been written. *)
Let after_files (days_back : Z) : M Response :=
  name <- LambdaFunction.os_environ_get "TOKEN_PARAMETER_NAME" ;;
  service <- LambdaCalendarApi._authenticate
               (LambdaCalendarApi.mkSelf "/tmp/credentials.json" "/tmp/token.json" name) ;;
  events <- get_events service days_back ;;
  formatted_events <-
    lift (Format.format_events dateutil_parse datetime_isoformat events true) ;;
  token_exists <- os_path_exists "/tmp/token.json" ;;
  (if token_exists then _ <- read_file "/tmp/token.json" ;; ret tt else ret tt) ;;;
  analysis_results <- lift (analyze_events formatted_events days_back) ;;
  ret (LambdaFunction.response_200 formatted_events days_back analysis_results).

Lemma handler_body_bad_days event w e :
  requested_days int_of_str event = Raise e ->
  handler_body event w = (Raise e, w, []).
Proof.
  intros H. unfold handler_body, LambdaFunction.handler_body.
  apply (bind_run_raise (lift (requested_days int_of_str event))).
  unfold lift. rewrite H. reflexivity.
Qed.

Lemma handler_body_unconfigured event w days :
  requested_days int_of_str event = Ok days ->
  opt_truthy (environ w !! "GOOGLE_CREDENTIALS_JSON") = false ->
  handler_body event w = (Ok LambdaFunction.response_400, w, []).
Proof.
  intros H Henv. unfold handler_body, LambdaFunction.handler_body.
  rewrite (bind_run (lift (requested_days int_of_str event)) _ w days w []
             ltac:(unfold lift; rewrite H; reflexivity)).
  rewrite (bind_run _ _ w (environ w !! "GOOGLE_CREDENTIALS_JSON") w [] eq_refl).
  cbn beta. rewrite Henv. reflexivity.
Qed.

(** What is left of the [try] block once /tmp/token.json has been opened
    for writing. *)
Let after_open (days_back : Z) (token_env : string) : M Response :=
  bind (bind (lift (b64decode_utf8 token_env))
          (fun t => write_opened "/tmp/token.json" t))
       (fun _ => after_files days_back).

(** The [try] block up to and including the opening of /tmp/token.json,
    when the token variable is set. *)
Lemma handler_body_with_token event w days creds_env token_env credentials_json :
  requested_days int_of_str event = Ok days ->
  environ w !! "GOOGLE_CREDENTIALS_JSON" = Some creds_env ->
  str_truthy creds_env = true ->
  b64decode_utf8 creds_env = Ok credentials_json ->
  environ w !! "GOOGLE_TOKEN_JSON" = Some token_env ->
  str_truthy token_env = true ->
  let saved := WriteFile "/tmp/credentials.json" credentials_json in
  let w1 := with_file "/tmp/credentials.json" credentials_json w in
  let w2 := with_file "/tmp/token.json" (Raw "") w1 in
  handler_body event w =
    match write_fault w "/tmp/credentials.json" with
    | Some (CannotOpen e) => (Raise e, w, [saved])
    | Some (CannotWrite e) =>
        (Raise e, with_file "/tmp/credentials.json" (Raw "") w, [saved])
    | None =>
        match write_fault w "/tmp/token.json" with
        | Some (CannotOpen e) =>
            (Raise e, w1, [saved; OpenForWriting "/tmp/token.json"])
        | _ =>
            (outcome (after_open days token_env w2),
             world_after (after_open days token_env w2),
             [saved; OpenForWriting "/tmp/token.json"]
             ++ effects (after_open days token_env w2))
        end
    end.
Proof.
  intros Hd Hc Hct Hcd Ht Htt saved w1 w2.
  unfold handler_body, LambdaFunction.handler_body.
  rewrite (bind_run (lift (requested_days int_of_str event)) _ w days w []
             ltac:(unfold lift; rewrite Hd; reflexivity)).
  cbn beta.
  rewrite (bind_run (LambdaFunction.os_environ_get "GOOGLE_CREDENTIALS_JSON") _ w
             (Some creds_env) w []
             ltac:(unfold LambdaFunction.os_environ_get; rewrite Hc; reflexivity)).
  cbn beta iota delta [opt_truthy]. rewrite Hct. cbn [negb].
  rewrite (bind_run (lift (b64decode_utf8 (default "" (Some creds_env)))) _ w
             credentials_json w []
             ltac:(unfold lift; cbn; rewrite Hcd; reflexivity)).
  cbn beta.
  rewrite (bind_run (LambdaFunction.os_environ_get "GOOGLE_TOKEN_JSON") _ w
             (Some token_env) w []
             ltac:(unfold LambdaFunction.os_environ_get; rewrite Ht; reflexivity)).
  cbn beta.
  destruct (write_fault w "/tmp/credentials.json") as [[e|e]|] eqn:Hw1.
  - rewrite (bind_run_raise (write_file "/tmp/credentials.json" credentials_json) _ w e
               w [saved] ltac:(unfold write_file; rewrite Hw1; reflexivity)).
    reflexivity.
  - rewrite (bind_run_raise (write_file "/tmp/credentials.json" credentials_json) _ w e
               (with_file "/tmp/credentials.json" (Raw "") w) [saved]
               ltac:(unfold write_file; rewrite Hw1; reflexivity)).
    reflexivity.
  - rewrite (bind_run (write_file "/tmp/credentials.json" credentials_json) _ w tt
               w1 [saved] ltac:(unfold write_file; rewrite Hw1; reflexivity)).
    cbn beta iota delta [opt_truthy]. rewrite Htt.
    rewrite bind_assoc.
    destruct (write_fault w "/tmp/token.json") as [[e|e]|] eqn:Hw2.
    + rewrite (bind_run_raise (open_for_writing "/tmp/token.json") _ w1 e w1
                 [OpenForWriting "/tmp/token.json"]
                 ltac:(unfold open_for_writing; cbn; rewrite Hw2; reflexivity)).
      reflexivity.
    + rewrite (bind_run (open_for_writing "/tmp/token.json") _ w1 tt w2
                 [OpenForWriting "/tmp/token.json"]
                 ltac:(unfold open_for_writing; cbn; rewrite Hw2; reflexivity)).
      reflexivity.
    + rewrite (bind_run (open_for_writing "/tmp/token.json") _ w1 tt w2
                 [OpenForWriting "/tmp/token.json"]
                 ltac:(unfold open_for_writing; cbn; rewrite Hw2; reflexivity)).
      reflexivity.
Qed.

Lemma handler_body_bad_credentials event w days creds_env e :
  requested_days int_of_str event = Ok days ->
  environ w !! "GOOGLE_CREDENTIALS_JSON" = Some creds_env ->
  str_truthy creds_env = true ->
  b64decode_utf8 creds_env = Raise e ->
  handler_body event w = (Raise e, w, []).
Proof.
  intros Hd Hc Hct Hcd. unfold handler_body, LambdaFunction.handler_body.
  rewrite (bind_run (lift (requested_days int_of_str event)) _ w days w []
             ltac:(unfold lift; rewrite Hd; reflexivity)).
  cbn beta.
  rewrite (bind_run (LambdaFunction.os_environ_get "GOOGLE_CREDENTIALS_JSON") _ w
             (Some creds_env) w []
             ltac:(unfold LambdaFunction.os_environ_get; rewrite Hc; reflexivity)).
  cbn beta iota delta [opt_truthy]. rewrite Hct. cbn [negb].
  rewrite (bind_run_raise (lift (b64decode_utf8 (default "" (Some creds_env)))) _ w e w []
             ltac:(unfold lift; cbn; rewrite Hcd; reflexivity)).
  reflexivity.
Qed.

Lemma handler_of_body event context w :
  handler event context w =
    match outcome (handler_body event w) with
    | Ok r => (Ok r, world_after (handler_body event w), effects (handler_body event w))
    | Raise e =>
        (Ok (LambdaFunction.response_500 e), world_after (handler_body event w),
         effects (handler_body event w) ++ [Printed ("Error: " +:+ str e)])
    end.
Proof.
  unfold handler, LambdaFunction.lambda_handler, try_except. fold handler_body.
  destruct (handler_body event w) as [[[r|e] w1] t1]; reflexivity.
Qed.

Lemma same_but_tmp_files_written w1 w2 credentials_json token_json :
  same_but_tmp_files w1 w2 ->
  with_file "/tmp/token.json" token_json
    (with_file "/tmp/credentials.json" credentials_json w1)
  = with_file "/tmp/token.json" token_json
      (with_file "/tmp/credentials.json" credentials_json w2).
Proof.
  destruct w1, w2. unfold same_but_tmp_files, with_file, set_files. cbn.
  intros (-> & -> & -> & -> & -> & -> & -> & -> & -> & Hfiles). f_equal.
  apply map_eq. intros path.
  destruct (decide (path = "/tmp/token.json")) as [-> | Hn1];
    [rewrite !lookup_insert_eq; reflexivity |].
  rewrite !(lookup_insert_ne _ "/tmp/token.json") by congruence.
  destruct (decide (path = "/tmp/credentials.json")) as [-> | Hn2];
    [rewrite !lookup_insert_eq; reflexivity |].
  rewrite !(lookup_insert_ne _ "/tmp/credentials.json") by congruence.
  apply Hfiles; assumption.
Qed.

(** X9: when the first statement of the handler fails, because the event
    is not an object, its queryStringParameters is not an object (an
    event with a null queryStringParameters among them) or its days value
    is not an integer, the handler answers 500 with that error, whether
    or not credentials are configured: the environment is not looked at,
    no file is written and no call is made. *)
Theorem handler_rejects_bad_days_first event context w e :
  requested_days int_of_str event = Raise e ->
  LambdaFunction.lambda_handler dateutil_parse datetime_isoformat int_of_str
    b64decode_utf8 get_events analyze_events event context w
  = (Ok (LambdaFunction.response_500 e), w, [Printed ("Error: " +:+ str e)]).
Proof.
  intros H. fold handler. rewrite handler_of_body, (handler_body_bad_days _ _ _ H).
  reflexivity.
Qed.

(** X10: for an event whose days value can be read, when
    GOOGLE_CREDENTIALS_JSON is not set or is empty the handler answers
    400 without doing anything: nothing is written, printed or called,
    and the world is left as it was. *)
Theorem handler_unconfigured_is_inert event context w days :
  requested_days int_of_str event = Ok days ->
  opt_truthy (environ w !! "GOOGLE_CREDENTIALS_JSON") = false ->
  LambdaFunction.lambda_handler dateutil_parse datetime_isoformat int_of_str
    b64decode_utf8 get_events analyze_events event context w
  = (Ok LambdaFunction.response_400, w, []).
Proof.
  intros H Henv. fold handler.
  rewrite handler_of_body, (handler_body_unconfigured _ _ _ H Henv). reflexivity.
Qed.

(** X11: when GOOGLE_TOKEN_JSON is set, the handler's answer and all it
    does are the same in two worlds that differ only in what
    /tmp/credentials.json and /tmp/token.json were before: both files are
    overwritten from the environment before anything reads them, so a
    token refreshed and left in /tmp/token.json by an earlier invocation
    is never used. *)
Theorem handler_ignores_previous_tmp_files event context w1 w2 :
  same_but_tmp_files w1 w2 ->
  opt_truthy (environ w1 !! "GOOGLE_TOKEN_JSON") = true ->
  let run1 := LambdaFunction.lambda_handler dateutil_parse datetime_isoformat int_of_str
                b64decode_utf8 get_events analyze_events event context w1 in
  let run2 := LambdaFunction.lambda_handler dateutil_parse datetime_isoformat int_of_str
                b64decode_utf8 get_events analyze_events event context w2 in
  outcome run1 = outcome run2 /\ effects run1 = effects run2.
Proof.
  intros Hsame Htok run1 run2. subst run1 run2. fold handler.
  assert (Henv : environ w1 = environ w2) by apply Hsame.
  assert (Hbody : outcome (handler_body event w1) = outcome (handler_body event w2) /\
                  effects (handler_body event w1) = effects (handler_body event w2)).
  { destruct (requested_days int_of_str event) as [days|e] eqn:Hd;
      [| rewrite !(handler_body_bad_days _ _ _ Hd); split; reflexivity].
    destruct (opt_truthy (environ w1 !! "GOOGLE_CREDENTIALS_JSON")) eqn:Hc.
    2:{ rewrite (handler_body_unconfigured _ w1 _ Hd Hc).
        rewrite Henv in Hc. rewrite (handler_body_unconfigured _ w2 _ Hd Hc).
        split; reflexivity. }
    destruct (environ w1 !! "GOOGLE_CREDENTIALS_JSON") as [creds_env|] eqn:Ec;
      [| discriminate].
    destruct (environ w1 !! "GOOGLE_TOKEN_JSON") as [token_env|] eqn:Et;
      [| discriminate].
    cbn in Hc, Htok. pose proof Ec as Ec2. pose proof Et as Et2.
    rewrite Henv in Ec2, Et2.
    destruct (b64decode_utf8 creds_env) as [credentials_json|e] eqn:Dc.
    2:{ rewrite (handler_body_bad_credentials _ w1 _ _ _ Hd Ec Hc Dc),
          (handler_body_bad_credentials _ w2 _ _ _ Hd Ec2 Hc Dc). split; reflexivity. }
    rewrite (handler_body_with_token _ w1 _ _ _ _ Hd Ec Hc Dc Et Htok),
      (handler_body_with_token _ w2 _ _ _ _ Hd Ec2 Hc Dc Et2 Htok).
    cbn zeta.
    assert (Hwf : write_fault w1 = write_fault w2) by apply Hsame.
    rewrite Hwf.
    destruct (write_fault w2 "/tmp/credentials.json") as [[e|e]|];
      [split; reflexivity | split; reflexivity |].
    destruct (write_fault w2 "/tmp/token.json") as [[e|e]|]; [split; reflexivity | |];
      rewrite (same_but_tmp_files_written w1 w2 _ _ Hsame); split; reflexivity. }
  destruct Hbody as [Ho He]. rewrite !handler_of_body, <- Ho, <- He.
  destruct (outcome (handler_body event w1)); split; reflexivity.
Qed.

End HandlerEdges.

Lemma requested_days_null_query int_of_str ev :
  dict_get ev "queryStringParameters" = Some PNone ->
  requested_days int_of_str (PDict ev)
  = Raise (Exn AttributeError "'NoneType' object has no attribute 'get'").
Proof. intros H. unfold requested_days, get_default. cbn. rewrite H. reflexivity. Qed.

Lemma handler_rejects_bad_days_witness :
  HandlerExamples.handler (PDict [("queryStringParameters", PNone)]) PNone
    (HandlerExamples.bare HandlerExamples.configured)
  = (Ok (LambdaFunction.response_500
           (Exn AttributeError "'NoneType' object has no attribute 'get'")),
     HandlerExamples.bare HandlerExamples.configured,
     [Printed "Error: 'NoneType' object has no attribute 'get'"]).
Proof.
  apply (handler_rejects_bad_days_first FormatExamples.parse_as_text (fun s => s)
           HandlerExamples.int_of_digit HandlerExamples.decode
           HandlerExamples.one_holiday HandlerExamples.no_analysis).
  apply requested_days_null_query. reflexivity.
Defined.

Lemma handler_unconfigured_witness :
  HandlerExamples.handler (PDict [("queryStringParameters", PDict [("days", PStr "3")])])
    PNone (HandlerExamples.bare ∅)
  = (Ok LambdaFunction.response_400, HandlerExamples.bare ∅, []).
Proof.
  apply (handler_unconfigured_is_inert FormatExamples.parse_as_text (fun s => s)
           HandlerExamples.int_of_digit HandlerExamples.decode
           HandlerExamples.one_holiday HandlerExamples.no_analysis
           _ _ _ 3);
    reflexivity.
Defined.

Lemma handler_ignores_tmp_witness :
  outcome (HandlerExamples.handler (PDict []) PNone
             (HandlerExamples.bare HandlerExamples.configured))
  = outcome (HandlerExamples.handler (PDict []) PNone
               (with_file "/tmp/token.json" (to_json Examples.newer_record)
                  (HandlerExamples.bare HandlerExamples.configured))).
Proof.
  apply (handler_ignores_previous_tmp_files FormatExamples.parse_as_text (fun s => s)
           HandlerExamples.int_of_digit HandlerExamples.decode
           HandlerExamples.one_holiday HandlerExamples.no_analysis
           (PDict []) PNone
           (HandlerExamples.bare HandlerExamples.configured)
           (with_file "/tmp/token.json" (to_json Examples.newer_record)
              (HandlerExamples.bare HandlerExamples.configured))).
  - repeat split. intros path _ Hne. cbn. symmetry. apply lookup_insert_ne. congruence.
  - reflexivity.
Defined.

(* ===================================================================== *)
(** ** Further properties of format_events                               *)
(* ===================================================================== *)

Lemma rmap_app {A B} (f : A -> result B) (l1 l2 : list A) :
  rmap f (l1 ++ l2) =
    (ys1 <-- rmap f l1 ;; ys2 <-- rmap f l2 ;; Ok (ys1 ++ ys2)).
Proof.
  induction l1 as [| x l1 IH]; cbn.
  - destruct (rmap f l2); reflexivity.
  - destruct (f x) as [y|e]; cbn; [| reflexivity].
    rewrite IH. destruct (rmap f l1) as [ys1|e]; cbn; [| reflexivity].
    destruct (rmap f l2); reflexivity.
Qed.

Lemma rmap_all_ok {A B} (f : A -> result B) (l : list A) :
  forallb (fun x => is_ok (f x)) l = true -> exists ys, rmap f l = Ok ys.
Proof.
  intros H. destruct (rmap_spec f l) as (out & Hout & _); [| eauto].
  intros x Hx. rewrite forallb_forall in H. apply list_elem_of_In in Hx.
  specialize (H x Hx). destruct (f x); [eauto | discriminate].
Qed.

(** X12: [format_events] is all or nothing: if the events before some
    event all format and that event raises (it has no 'start', say),
    [format_events] raises that same exception, whatever comes after; the
    events already formatted are lost. *)
Theorem format_events_first_failure {datetime : Type}
    (dateutil_parse : string -> result datetime)
    (datetime_isoformat : datetime -> string)
    (before after : list pyval) (bad : pyval) (include_details : bool) (e : exn) :
  forallb (fun ev => is_ok (Format.format_event dateutil_parse datetime_isoformat
                              include_details ev)) before = true ->
  Format.format_event dateutil_parse datetime_isoformat include_details bad = Raise e ->
  Format.format_events dateutil_parse datetime_isoformat (before ++ bad :: after)
    include_details = Raise e.
Proof.
  intros Hbefore Hbad. unfold Format.format_events. rewrite rmap_app.
  destruct (rmap_all_ok _ _ Hbefore) as (ys & ->). cbn. rewrite Hbad. reflexivity.
Qed.

Lemma format_events_first_failure_witness :
  Format.format_events FormatExamples.parse_as_text (fun s => s)
    ([FormatExamples.holiday] ++ PDict [("id", PStr "ev3")] :: [FormatExamples.meeting])
    false
  = Raise (Exn KeyError "start").
Proof.
  apply (format_events_first_failure FormatExamples.parse_as_text (fun s => s));
    reflexivity.
Defined.

(** X13: whatever [format_events] returns for an event is an object with
    the keys id, summary, start, end, is_all_day in that order, followed,
    with [include_details], by description, location, creator, organizer,
    attendees, status, link; start and end are texts; a missing id reads
    as the empty text and a missing summary as 'No Title'. *)
Theorem formatted_event_shape {datetime : Type}
    (dateutil_parse : string -> result datetime)
    (datetime_isoformat : datetime -> string)
    (include_details : bool) (ev formatted : pyval) :
  Format.format_event dateutil_parse datetime_isoformat include_details ev = Ok formatted ->
  exists event fe start_text end_text,
    ev = PDict event /\ formatted = PDict fe /\
    map fst fe = basic_keys ++ (if include_details then detail_keys else []) /\
    dict_get fe "id" = Some (get_default event "id" (PStr "")) /\
    dict_get fe "summary" = Some (get_default event "summary" (PStr "No Title")) /\
    dict_get fe "start" = Some (PStr start_text) /\
    dict_get fe "end" = Some (PStr end_text) /\
    dict_get fe "is_all_day" = Some (PBool (is_all_day_event ev)).
Proof.
  unfold Format.format_event. intros H.
  destruct ev as [| | | | | event]; try discriminate. cbn [as_dict rbind] in H.
  unfold getitem, is_all_day_event in *.
  destruct (dict_get event "start") as [[| | | | | s]|]; try discriminate.
  destruct (dict_get event "end") as [[| | | | | e]|]; try discriminate.
  cbn [as_dict rbind] in H.
  match type of H with
  | rbind ?times _ = _ => destruct times as [[start_text end_text]|] eqn:Et
  end; [| discriminate].
  cbn [rbind fst snd] in H.
  exists event. destruct include_details.
  - destruct (Format.email_of event "creator") as [c|]; [| discriminate].
    destruct (Format.email_of event "organizer") as [o|]; [| discriminate].
    destruct (Format.attendee_emails event) as [a|]; [| discriminate].
    cbn in H. injection H as <-. do 3 eexists. repeat split.
  - injection H as <-. do 3 eexists. repeat split.
Qed.

Lemma formatted_event_shape_witness :
  exists event fe start_text end_text,
    FormatExamples.meeting = PDict event /\
    PDict [("id", PStr "ev2"); ("summary", PStr "Sync");
           ("start", PStr "2024-03-04T10:00:00+01:00");
           ("end", PStr "2024-03-04T10:30:00+01:00");
           ("is_all_day", PBool false)] = PDict fe /\
    map fst fe = basic_keys ++ [] /\
    dict_get fe "id" = Some (get_default event "id" (PStr "")) /\
    dict_get fe "summary" = Some (get_default event "summary" (PStr "No Title")) /\
    dict_get fe "start" = Some (PStr start_text) /\
    dict_get fe "end" = Some (PStr end_text) /\
    dict_get fe "is_all_day" = Some (PBool (is_all_day_event FormatExamples.meeting)).
Proof.
  apply (formatted_event_shape FormatExamples.parse_as_text (fun s => s) false
           FormatExamples.meeting).
  reflexivity.
Defined.

(* ===================================================================== *)
(** ** Ordinals determine dates                                          *)
(* ===================================================================== *)

Lemma valid_date_bounds d :
  Dates.valid_date d = true ->
  1 <= Dates.year d <= 9999 /\ 1 <= Dates.month d <= 12 /\
  1 <= Dates.day d <= Dates.days_in_month (Dates.year d) (Dates.month d).
Proof.
  unfold Dates.valid_date. intros H.
  repeat (apply andb_true_iff in H as [H ?]).
  repeat match goal with H : (_ <=? _) = true |- _ => apply Z.leb_le in H end.
  lia.
Qed.

Lemma days_before_year_mono y1 y2 :
  1 <= y1 -> y1 <= y2 -> Dates.days_before_year y1 + 365 * (y2 - y1) <= Dates.days_before_year y2.
Proof.
  intros H1 Hle.
  assert (H : forall n : nat,
             Dates.days_before_year y1 + 365 * Z.of_nat n
             <= Dates.days_before_year (y1 + Z.of_nat n)).
  { induction n as [| n IH].
    - replace (y1 + Z.of_nat 0) with y1 by lia. lia.
    - replace (y1 + Z.of_nat (S n)) with (y1 + Z.of_nat n + 1) by lia.
      rewrite days_before_year_succ by lia.
      destruct (Dates.is_leap (y1 + Z.of_nat n)); lia. }
  specialize (H (Z.to_nat (y2 - y1))).
  replace (y1 + Z.of_nat (Z.to_nat (y2 - y1))) with y2 in H by lia. lia.
Qed.

(** The day of the year: between 1 and the length of the year. *)
Lemma day_of_year_bounds y m d :
  1 <= m <= 12 -> 1 <= d <= Dates.days_in_month y m ->
  1 <= Dates.days_before_month y m + d <= 365 + (if Dates.is_leap y then 1 else 0).
Proof.
  intros Hm Hd.
  assert (H : m = 1 \/ m = 2 \/ m = 3 \/ m = 4 \/ m = 5 \/ m = 6 \/ m = 7 \/ m = 8 \/
              m = 9 \/ m = 10 \/ m = 11 \/ m = 12) by lia.
  unfold Dates.days_before_month, Dates.days_in_month in *.
  destruct (Dates.is_leap y);
    destruct H as [-> | [-> | [-> | [-> | [-> | [-> | [-> | [-> | [-> | [-> | [-> | ->]]]]]]]]]]];
    cbv [Z.leb Z.eqb Pos.eqb Z.compare Pos.compare Pos.compare_cont orb] in *; lia.
Qed.

Lemma day_of_year_inj y m1 d1 m2 d2 :
  1 <= m1 <= 12 -> 1 <= d1 <= Dates.days_in_month y m1 ->
  1 <= m2 <= 12 -> 1 <= d2 <= Dates.days_in_month y m2 ->
  Dates.days_before_month y m1 + d1 = Dates.days_before_month y m2 + d2 ->
  m1 = m2 /\ d1 = d2.
Proof.
  intros Hm1 Hd1 Hm2 Hd2 Heq.
  assert (H1 : m1 = 1 \/ m1 = 2 \/ m1 = 3 \/ m1 = 4 \/ m1 = 5 \/ m1 = 6 \/ m1 = 7 \/
               m1 = 8 \/ m1 = 9 \/ m1 = 10 \/ m1 = 11 \/ m1 = 12) by lia.
  assert (H2 : m2 = 1 \/ m2 = 2 \/ m2 = 3 \/ m2 = 4 \/ m2 = 5 \/ m2 = 6 \/ m2 = 7 \/
               m2 = 8 \/ m2 = 9 \/ m2 = 10 \/ m2 = 11 \/ m2 = 12) by lia.
  unfold Dates.days_before_month, Dates.days_in_month in *.
  destruct (Dates.is_leap y);
    destruct H1 as [-> | [-> | [-> | [-> | [-> | [-> | [-> | [-> | [-> | [-> | [-> | ->]]]]]]]]]]];
    destruct H2 as [-> | [-> | [-> | [-> | [-> | [-> | [-> | [-> | [-> | [-> | [-> | ->]]]]]]]]]]];
    cbv [Z.leb Z.eqb Pos.eqb Z.compare Pos.compare Pos.compare_cont orb] in *; lia.
Qed.

(** Two valid dates with the same ordinal are the same date. *)
Lemma toordinal_inj d1 d2 :
  Dates.valid_date d1 = true -> Dates.valid_date d2 = true ->
  Dates.toordinal d1 = Dates.toordinal d2 -> d1 = d2.
Proof.
  intros V1 V2 Heq.
  destruct (valid_date_bounds _ V1) as (Hy1 & Hm1 & Hd1).
  destruct (valid_date_bounds _ V2) as (Hy2 & Hm2 & Hd2).
  destruct d1 as [y1 m1 dd1], d2 as [y2 m2 dd2]. cbn in *.
  unfold Dates.toordinal in Heq. cbn in Heq.
  pose proof (day_of_year_bounds y1 m1 dd1 Hm1 Hd1) as B1.
  pose proof (day_of_year_bounds y2 m2 dd2 Hm2 Hd2) as B2.
  assert (Hy : y1 = y2).
  { destruct (Z.lt_trichotomy y1 y2) as [Hlt | [Heqy | Hgt]]; [| exact Heqy |].
    - pose proof (days_before_year_mono (y1 + 1) y2 ltac:(lia) ltac:(lia)).
      pose proof (days_before_year_succ y1 ltac:(lia)).
      destruct (Dates.is_leap y1); lia.
    - pose proof (days_before_year_mono (y2 + 1) y1 ltac:(lia) ltac:(lia)).
      pose proof (days_before_year_succ y2 ltac:(lia)).
      destruct (Dates.is_leap y2); lia. }
  subst y2.
  destruct (day_of_year_inj y1 m1 dd1 m2 dd2 Hm1 Hd1 Hm2 Hd2 ltac:(lia)) as [-> ->].
  reflexivity.
Qed.

(** X14: for an all-day event that carries start and end dates as the
    provider writes them, the formatted start is the ISO text of the
    start date and the formatted end the ISO text of the provider's end
    date minus one day, a date of the calendar, so that an event the
    provider gives as ending the day after it starts is shown with the
    same start and end. *)
Theorem all_day_event_shows_last_day {datetime : Type}
    (dateutil_parse : string -> result datetime)
    (datetime_isoformat : datetime -> string)
    (include_details : bool) (ev : pyval) :
  carries_start_end dateutil_parse include_details ev = true ->
  is_all_day_event ev = true ->
  exists fe first last shown,
    Format.format_event dateutil_parse datetime_isoformat include_details ev
      = Ok (PDict fe) /\
    raw_start_date ev = Some first /\
    raw_end_date ev = Some last /\
    dict_get fe "start" = Some (PStr (Dates.isoformat first)) /\
    dict_get fe "end" = Some (PStr (Dates.isoformat shown)) /\
    Dates.valid_date shown = true /\
    Dates.toordinal shown = Dates.toordinal last - 1 /\
    (Dates.toordinal last = Dates.toordinal first + 1 ->
     shown = first /\ dict_get fe "end" = dict_get fe "start").
Proof.
  intros Hwf Hday.
  destruct ev as [| | | | | event]; try discriminate.
  unfold carries_start_end in Hwf. unfold is_all_day_event in Hday.
  unfold raw_start_date, raw_end_date.
  apply andb_true_iff in Hwf as [Hwf Hpeople].
  unfold Format.format_event. cbn [as_dict rbind]. unfold getitem.
  destruct (dict_get event "start") as [[| | | | | s]|]; try discriminate.
  destruct (dict_get event "end") as [[| | | | | e]|]; try discriminate.
  cbn [as_dict rbind]. fold (time_value s). fold (time_value e).
  destruct (time_value s) as [| | | a | |]; try discriminate.
  destruct (time_value e) as [| | | b | |]; try discriminate.
  rewrite Hday in Hwf |- *.
  destruct (Dates.strptime_ymd a) as [first|] eqn:Ea; try discriminate.
  destruct (Dates.strptime_ymd b) as [last|] eqn:Eb; try discriminate.
  apply Z.ltb_lt in Hwf.
  destruct (minus_one_day_spec last (strptime_ymd_valid _ _ Eb) Hwf)
    as (shown & Hm & Hvalid & Hord).
  cbn [as_str rbind]. rewrite Ea, Eb. cbn [rbind]. rewrite Hm. cbn [rbind fst snd].
  assert (Hsame : Dates.toordinal last = Dates.toordinal first + 1 -> shown = first).
  { intros Hone.
    apply toordinal_inj; [exact Hvalid | exact (strptime_ymd_valid _ _ Ea) | lia]. }
  destruct include_details.
  - unfold people_ok in Hpeople. cbn in Hpeople.
    apply andb_true_iff in Hpeople as [Hcr Hat].
    apply andb_true_iff in Hcr as [Hcr Hor].
    destruct (email_of_ok event "creator" Hcr) as (v1 & ->).
    destruct (email_of_ok event "organizer" Hor) as (v2 & ->).
    destruct (attendee_emails_ok event Hat) as (v3 & ->).
    cbn [rbind]. eexists _, first, last, shown.
    repeat split; try reflexivity; try assumption.
    + apply Hsame; assumption.
    + rewrite (Hsame ltac:(assumption)). reflexivity.
  - eexists _, first, last, shown.
    repeat split; try reflexivity; try assumption.
    + apply Hsame; assumption.
    + rewrite (Hsame ltac:(assumption)). reflexivity.
Qed.

Lemma all_day_event_witness :
  exists fe first last shown,
    Format.format_event FormatExamples.parse_as_text (fun s => s) false
      FormatExamples.holiday = Ok (PDict fe) /\
    raw_start_date FormatExamples.holiday = Some first /\
    raw_end_date FormatExamples.holiday = Some last /\
    dict_get fe "start" = Some (PStr (Dates.isoformat first)) /\
    dict_get fe "end" = Some (PStr (Dates.isoformat shown)) /\
    Dates.valid_date shown = true /\
    Dates.toordinal shown = Dates.toordinal last - 1 /\
    (Dates.toordinal last = Dates.toordinal first + 1 ->
     shown = first /\ dict_get fe "end" = dict_get fe "start").
Proof.
  apply (all_day_event_shows_last_day FormatExamples.parse_as_text (fun s => s) false
           FormatExamples.holiday);
    reflexivity.
Defined.

(** X15: with [include_details], the attendees of a formatted event are
    the emails of the event's attendees, one per attendee and in order;
    an attendee without an email is kept as [None], not dropped. *)
Theorem attendee_emails_one_per_attendee (event : list (string * pyval)) (l : list pyval) :
  dict_get event "attendees" = Some (PList l) ->
  forallb is_dict l = true ->
  exists emails,
    Format.attendee_emails event = Ok (PList emails) /\
    length emails = length l /\
    forall (i : nat) d,
      l !! i = Some (PDict d) ->
      emails !! i = Some (match dict_get d "email" with Some v => v | None => PNone end).
Proof.
  intros Hl Hdicts. unfold Format.attendee_emails, get_default. rewrite Hl.
  destruct (rmap_spec (fun a => d <-- as_dict a ;; Ok (get_default d "email" PNone)) l)
    as (out & Hout & Hlen & Hnth).
  { intros x Hx. rewrite forallb_forall in Hdicts.
    apply list_elem_of_In in Hx. specialize (Hdicts x Hx).
    destruct x; try discriminate. cbn. eauto. }
  unfold get_default in Hout, Hnth. rewrite Hout. cbn.
  exists out. repeat split; [exact Hlen |].
  intros i d Hi. destruct (Hnth i _ Hi) as (y & Hy & Hf). cbn in Hf.
  injection Hf as <-. exact Hy.
Qed.

Lemma attendee_emails_witness :
  exists emails,
    Format.attendee_emails
      [("attendees", PList [PDict [("email", PStr "a@example.org")]; PDict []])]
    = Ok (PList emails) /\
    length emails = 2%nat.
Proof.
  destruct (attendee_emails_one_per_attendee
              [("attendees", PList [PDict [("email", PStr "a@example.org")]; PDict []])]
              [PDict [("email", PStr "a@example.org")]; PDict []] eq_refl eq_refl)
    as (emails & Hrun & Hlen & _).
  exists emails. split; [exact Hrun | exact Hlen].
Defined.

(* ===================================================================== *)
(** ** format_event of get_calendar_events.py                            *)
(* ===================================================================== *)

Lemma str_contains_char c x rest :
  str_contains (String c EmptyString) (String x rest)
  = (if Ascii.ascii_dec c x then true else false) || str_contains (String c EmptyString) rest.
Proof. cbn. destruct (Ascii.ascii_dec c x); destruct rest; reflexivity. Qed.

Lemma str_contains_char_app c a b :
  str_contains (String c EmptyString) a = false ->
  str_contains (String c EmptyString) b = false ->
  str_contains (String c EmptyString) (a +:+ b) = false.
Proof.
  induction a as [| x a IH]; intros Ha Hb; [exact Hb |].
  change (String x a +:+ b) with (String x (a +:+ b)).
  rewrite str_contains_char in Ha |- *.
  apply orb_false_iff in Ha as [Hx Ha]. rewrite Hx, (IH Ha Hb). reflexivity.
Qed.

(** After [s.replace(c, by)], with no [c] in [by], no [c] is left. *)
Lemma str_contains_replaced c by_ s :
  str_contains (String c EmptyString) by_ = false ->
  str_contains (String c EmptyString) (replace_char c by_ s) = false.
Proof.
  intros Hby. induction s as [| a s IH]; [reflexivity |].
  cbn [replace_char]. destruct (Ascii.eqb_spec a c) as [-> | Hne].
  - apply str_contains_char_app; assumption.
  - rewrite str_contains_char, IH.
    destruct (Ascii.ascii_dec c a); [congruence | reflexivity].
Qed.

Lemma replace_char_absent c by_ s :
  str_contains (String c EmptyString) s = false -> replace_char c by_ s = s.
Proof.
  induction s as [| a s IH]; [reflexivity |].
  rewrite str_contains_char. intros H. apply orb_false_iff in H as [Ha Hs].
  cbn [replace_char]. destruct (Ascii.eqb_spec a c) as [-> | Hne].
  - destruct (Ascii.ascii_dec c c); [discriminate | congruence].
  - rewrite (IH Hs). reflexivity.
Qed.

Lemma replace_char_after_absent c by_ s rest :
  str_contains (String c EmptyString) s = false ->
  replace_char c by_ (s +:+ rest) = s +:+ replace_char c by_ rest.
Proof.
  induction s as [| a s IH]; [reflexivity |].
  rewrite str_contains_char. intros H. apply orb_false_iff in H as [Ha Hs].
  change (String a s +:+ rest) with (String a (s +:+ rest)).
  cbn [replace_char]. destruct (Ascii.eqb_spec a c) as [-> | Hne].
  - destruct (Ascii.ascii_dec c c); [discriminate | congruence].
  - rewrite (IH Hs). reflexivity.
Qed.

Section EventLineFacts.
Variable reformat_iso : string -> result string.
Variable py_str : pyval -> string.

(** X16: for an event whose start is a date text without the letter T
    (an all-day event), [format_event] returns the date text as it is,
    " - " and the summary; the date is not parsed, so the line is
    produced whatever the text is. *)
Theorem format_event_date_only event start_d day summary :
  dict_get event "start" = Some (PDict start_d) ->
  get_default start_d "dateTime" (get_default start_d "date" PNone) = PStr day ->
  str_contains "T" day = false ->
  dict_get event "summary" = Some (PStr summary) ->
  EventLine.format_event reformat_iso py_str (PDict event) = Ok (day +:+ " - " +:+ summary).
Proof.
  intros Hs Hd Ht Hsum.
  unfold EventLine.format_event, EventLine.start_formatted, subscript, getitem.
  rewrite Hs. cbn [rbind as_dict]. rewrite Hd. cbn [text_in rbind]. rewrite Ht, Hsum.
  reflexivity.
Qed.

(** X17: [format_event] needs a summary: for an event without one it
    raises [KeyError] once the start has been formatted, where
    [format_events] shows 'No Title'. *)
Theorem format_event_requires_summary event start_text :
  EventLine.start_formatted reformat_iso py_str (PDict event) = Ok start_text ->
  dict_get event "summary" = None ->
  EventLine.format_event reformat_iso py_str (PDict event) = Raise (Exn KeyError "summary").
Proof.
  intros Hstart Hsum.
  unfold EventLine.format_event. rewrite Hstart. cbn [rbind subscript].
  unfold getitem. rewrite Hsum. reflexivity.
Qed.

(** X18: for a start text that contains the letter T, what [format_event]
    hands to [fromisoformat] is that text with every Z replaced by
    +00:00: it contains no Z, it is the text itself when that had none,
    and for a text that ends in its only Z it is the text with +00:00 in
    the place of the Z. *)
Theorem format_event_timed_start event start_d s :
  dict_get event "start" = Some (PDict start_d) ->
  get_default start_d "dateTime" (get_default start_d "date" PNone) = PStr s ->
  str_contains "T" s = true ->
  exists arg,
    EventLine.start_formatted reformat_iso py_str (PDict event) = reformat_iso arg /\
    str_contains "Z" arg = false /\
    (str_contains "Z" s = false -> arg = s) /\
    (forall local, s = local +:+ "Z" -> str_contains "Z" local = false ->
                   arg = local +:+ "+00:00").
Proof.
  intros Hs Hd Ht. exists (replace_char "Z" "+00:00" s). split; [| split; [| split]].
  - unfold EventLine.start_formatted, subscript, getitem.
    rewrite Hs. cbn [rbind as_dict]. rewrite Hd. cbn [text_in rbind]. rewrite Ht.
    reflexivity.
  - apply str_contains_replaced. reflexivity.
  - apply replace_char_absent.
  - intros local -> Hlocal. rewrite (replace_char_after_absent _ _ _ _ Hlocal).
    reflexivity.
Qed.

End EventLineFacts.

Lemma format_event_date_only_witness :
  EventLine.format_event (fun s => Ok s) (fun _ => "") FormatExamples.holiday
  = Ok "2024-02-28 - Holiday".
Proof.
  apply (format_event_date_only (fun s => Ok s) (fun _ => "") _
           [("date", PStr "2024-02-28")] "2024-02-28" "Holiday");
    reflexivity.
Defined.

Lemma format_event_requires_summary_witness :
  EventLine.format_event (fun s => Ok s) (fun _ => "")
    (PDict [("start", PDict [("date", PStr "2024-02-28")])])
  = Raise (Exn KeyError "summary").
Proof.
  apply (format_event_requires_summary (fun s => Ok s) (fun _ => "")
           [("start", PDict [("date", PStr "2024-02-28")])] "2024-02-28");
    reflexivity.
Defined.

Lemma format_event_timed_start_witness :
  exists arg,
    EventLine.start_formatted (fun s => Ok s) (fun _ => "")
      (PDict [("start", PDict [("dateTime", PStr "2024-03-04T10:00:00Z")])])
    = Ok arg /\
    str_contains "Z" arg = false /\
    arg = "2024-03-04T10:00:00+00:00".
Proof.
  destruct (format_event_timed_start (fun s => Ok s) (fun _ => "")
              [("start", PDict [("dateTime", PStr "2024-03-04T10:00:00Z")])]
              [("dateTime", PStr "2024-03-04T10:00:00Z")] "2024-03-04T10:00:00Z"
              eq_refl eq_refl eq_refl) as (arg & Hrun & Hz & _ & Hlocal).
  exists arg. split; [exact Hrun |]. split; [exact Hz |].
  apply (Hlocal "2024-03-04T10:00:00"); reflexivity.
Defined.

(* ===================================================================== *)
(** ** categorize_events                                                 *)
(* ===================================================================== *)

Lemma append_to_keys c e cats :
  map fst (CalendarAnalysis.append_to c e cats) = map fst cats.
Proof.
  induction cats as [| [k l] rest IH]; [reflexivity |].
  cbn [CalendarAnalysis.append_to]. destruct (String.eqb k c); cbn [map fst].
  - reflexivity.
  - rewrite IH. reflexivity.
Qed.

Lemma bucket_append_to c e cats k :
  In c (map fst cats) ->
  bucket (CalendarAnalysis.append_to c e cats) k
  = bucket cats k ++ (if String.eqb k c then [e] else []).
Proof.
  induction cats as [| [k' l] rest IH]; [intros [] |].
  intros Hin. cbn [CalendarAnalysis.append_to].
  destruct (String.eqb_spec k' c) as [-> | Hne].
  - cbn [bucket]. destruct (String.eqb_spec c k) as [-> | Hck].
    + rewrite String.eqb_refl. reflexivity.
    + destruct (String.eqb_spec k c) as [Heq | _]; [congruence |].
      rewrite app_nil_r. reflexivity.
  - cbn [bucket]. destruct (String.eqb_spec k' k) as [-> | Hk].
    + destruct (String.eqb_spec k c) as [Heq | _]; [congruence |].
      rewrite app_nil_r. reflexivity.
    + apply IH. destruct Hin as [Heq | Hin]; [cbn in Heq; congruence | exact Hin].
Qed.

Lemma total_append_to c e cats :
  In c (map fst cats) ->
  total (CalendarAnalysis.append_to c e cats) = S (total cats).
Proof.
  unfold total, list_sum.
  induction cats as [| [k' l] rest IH]; [intros [] |].
  intros Hin. cbn [CalendarAnalysis.append_to].
  destruct (String.eqb_spec k' c) as [-> | Hne].
  - cbn [map snd fold_right]. rewrite length_app. cbn [length]. lia.
  - cbn [map snd fold_right]. rewrite IH; [lia |].
    destruct Hin as [Heq | Hin]; [cbn in Heq; congruence | exact Hin].
Qed.

Lemma first_match_key kw text c :
  CalendarAnalysis.first_match kw text = Some c -> In c (map fst kw).
Proof.
  induction kw as [| [k terms] rest IH]; [discriminate |].
  cbn [CalendarAnalysis.first_match].
  destruct (existsb _ terms).
  - intros [= <-]. left. reflexivity.
  - intros H. right. apply IH, H.
Qed.

Lemma first_match_skips pre category terms post text term :
  forallb (fun kv => negb (existsb (fun t => str_contains t text) (snd kv))) pre = true ->
  In term terms ->
  str_contains term text = true ->
  CalendarAnalysis.first_match (pre ++ (category, terms) :: post) text = Some category.
Proof.
  intros Hpre Hin Hterm.
  induction pre as [| [k ts] pre IH].
  - cbn [app CalendarAnalysis.first_match].
    assert (existsb (fun t => str_contains t text) terms = true) as ->; [| reflexivity].
    apply existsb_exists. exists term. split; assumption.
  - cbn [forallb snd] in Hpre. apply andb_true_iff in Hpre as [Hk Hrest].
    apply negb_true_iff in Hk.
    cbn [app CalendarAnalysis.first_match]. rewrite Hk. apply IH, Hrest.
Qed.

Section CategorizeFacts.

Variable lower : string -> string.

Let category_of := CalendarAnalysis.category_of lower.
Let categorize_events := CalendarAnalysis.categorize_events lower.

Lemma any_attendee_texts title addresses :
  CalendarAnalysis.any_attendee lower title (map PStr addresses)
  = Ok (existsb (fun a => str_contains (before_first "@" a) (lower title)) addresses).
Proof.
  induction addresses as [| a rest IH]; [reflexivity |].
  cbn [map CalendarAnalysis.any_attendee CalendarAnalysis.local_part rbind existsb].
  destruct (str_contains (before_first "@" a) (lower title)); [reflexivity |].
  exact IH.
Qed.

Lemma category_of_known event c :
  category_of event = Ok c -> In c CalendarAnalysis.CATEGORIES.
Proof.
  unfold category_of, CalendarAnalysis.category_of.
  destruct (as_dict event) as [d |]; [| discriminate]. cbn [rbind].
  destruct (CalendarAnalysis.lower_of lower (get_default d "summary" _)) as [title |];
    [| discriminate]. cbn [rbind].
  destruct (CalendarAnalysis.lower_of lower (get_default d "description" _)) as [desc |];
    [| discriminate]. cbn [rbind].
  destruct (CalendarAnalysis.lower_of lower (get_default d "location" _)) as [location |];
    [| discriminate]. cbn [rbind].
  destruct (CalendarAnalysis.first_match _ _) as [c' |] eqn:Hm.
  - intros [= <-]. apply first_match_key in Hm.
    cbn in Hm. cbn. intuition.
  - destruct (iterate _) as [attendees |]; [| discriminate]. cbn [rbind].
    destruct (CalendarAnalysis.any_attendee lower title attendees) as [[|] |];
      cbn [rbind]; try discriminate; intros [= <-]; cbn; intuition.
Qed.

Lemma categorize_loop_spec events :
  forall cats out,
    incl CalendarAnalysis.CATEGORIES (map fst cats) ->
    CalendarAnalysis.categorize_loop lower events cats = Ok out ->
    map fst out = map fst cats /\
    (forall c, bucket out c = bucket cats c ++ List.filter (in_category lower c) events) /\
    total out = (total cats + length events)%nat.
Proof.
  induction events as [| e rest IH]; intros cats out Hkeys Hrun.
  - cbn in Hrun. injection Hrun as <-. split; [reflexivity |]. split.
    + intros c. cbn [List.filter]. rewrite app_nil_r. reflexivity.
    + cbn [length]. lia.
  - cbn [CalendarAnalysis.categorize_loop] in Hrun.
    destruct (CalendarAnalysis.category_of lower e) as [c |] eqn:Hc; [| discriminate].
    cbn [rbind] in Hrun.
    pose proof (category_of_known e c Hc) as Hknown.
    apply Hkeys in Hknown.
    apply IH in Hrun as (Hk & Hb & Ht).
    2:{ rewrite append_to_keys. exact Hkeys. }
    rewrite append_to_keys in Hk. split; [exact Hk |]. split.
    + intros k. rewrite Hb, bucket_append_to by exact Hknown.
      rewrite <- app_assoc. f_equal.
      cbn [List.filter]. unfold in_category at 2. rewrite Hc.
      rewrite (String.eqb_sym c k). destruct (String.eqb k c); reflexivity.
    + rewrite Ht, total_append_to by exact Hknown. cbn [length]. lia.
Qed.

(** X19: [categorize_events] sorts every event into exactly one of the
    seven lists: the dict it returns has the seven keys of the literal
    in their order, the list under a key holds the events given that
    category, in the order of [events], and the lists together hold as
    many events as were given. *)
Theorem categorize_events_partition events categories :
  categorize_events events = Ok categories ->
  map fst categories = CalendarAnalysis.CATEGORIES /\
  (forall c, bucket categories c = List.filter (in_category lower c) events) /\
  total categories = length events.
Proof.
  intros Hrun. unfold categorize_events, CalendarAnalysis.categorize_events in Hrun.
  apply categorize_loop_spec in Hrun as (Hk & Hb & Ht).
  - split; [| split].
    + rewrite Hk, map_map. cbn. reflexivity.
    + intros c. rewrite Hb.
      assert (bucket (map (fun c0 => (c0, [])) CalendarAnalysis.CATEGORIES) c = []) as ->;
        [| reflexivity].
      cbn [CalendarAnalysis.CATEGORIES map bucket].
      repeat match goal with |- context [String.eqb ?a c] => destruct (String.eqb a c) end;
        reflexivity.
    + rewrite Ht. reflexivity.
  - rewrite map_map. cbn. apply incl_refl.
Qed.

(** X20: the keyword tables are tried in the order work, meeting, travel,
    social, health and the first one with a term in the combined text
    decides: later tables and the attendees are not looked at, whatever
    the event holds under attendees. *)
Theorem first_keyword_table_decides d title desc location pre category terms post term :
  get_default d "summary" (PStr EmptyString) = PStr title ->
  get_default d "description" (PStr EmptyString) = PStr desc ->
  get_default d "location" (PStr EmptyString) = PStr location ->
  CalendarAnalysis.keywords = pre ++ (category, terms) :: post ->
  forallb (fun kv =>
             negb (existsb (fun t =>
                     str_contains t (lower title +:+ " " +:+ lower desc +:+ " " +:+ lower location))
                     (snd kv))) pre = true ->
  In term terms ->
  str_contains term (lower title +:+ " " +:+ lower desc +:+ " " +:+ lower location) = true ->
  category_of (PDict d) = Ok category.
Proof.
  intros Ht Hd Hl Hkw Hpre Hin Hterm.
  unfold category_of, CalendarAnalysis.category_of. cbn [as_dict rbind].
  rewrite Ht, Hd, Hl. cbn [CalendarAnalysis.lower_of rbind].
  rewrite Hkw, (first_match_skips pre category terms post _ term Hpre Hin Hterm).
  reflexivity.
Qed.

(** X21: an event none of whose texts holds a keyword, and whose
    attendees are texts, is never rejected: it is personal when the part
    before the first @ of some attendee occurs in the lowered title, and
    other when none does, as when there are no attendees. *)
Theorem unmatched_event_personal_or_other d title desc location addresses :
  get_default d "summary" (PStr EmptyString) = PStr title ->
  get_default d "description" (PStr EmptyString) = PStr desc ->
  get_default d "location" (PStr EmptyString) = PStr location ->
  CalendarAnalysis.first_match CalendarAnalysis.keywords
    (lower title +:+ " " +:+ lower desc +:+ " " +:+ lower location) = None ->
  get_default d "attendees" (PList []) = PList (map PStr addresses) ->
  category_of (PDict d)
  = Ok (if existsb (fun a => str_contains (before_first "@" a) (lower (lower title)))
             addresses
        then "personal" else "other").
Proof.
  intros Ht Hd Hl Hnone Ha.
  unfold category_of, CalendarAnalysis.category_of. cbn [as_dict rbind].
  rewrite Ht, Hd, Hl. cbn [CalendarAnalysis.lower_of rbind].
  rewrite Hnone, Ha. cbn [iterate rbind].
  rewrite any_attendee_texts. reflexivity.
Qed.

Lemma categorize_loop_first_failure good bad rest e :
  Forall (fun ev => is_ok (category_of ev) = true) good ->
  category_of bad = Raise e ->
  forall cats,
    CalendarAnalysis.categorize_loop lower (good ++ bad :: rest) cats = Raise e.
Proof.
  intros Hgood Hbad. induction Hgood as [| ev good Hev _ IH]; intros cats.
  - cbn [app CalendarAnalysis.categorize_loop]. fold (category_of bad).
    rewrite Hbad. reflexivity.
  - cbn [app CalendarAnalysis.categorize_loop]. fold (category_of ev).
    destruct (category_of ev) as [c |]; [| discriminate]. cbn [rbind]. apply IH.
Qed.

End CategorizeFacts.

(* ===================================================================== *)
(** ** analyze_events                                                    *)
(* ===================================================================== *)

Lemma bucket_day_add d e acc k :
  bucket (CalendarAnalysis.day_add d e acc) k
  = bucket acc k ++ (if String.eqb k d then [e] else []).
Proof.
  induction acc as [| [k' l] rest IH].
  - cbn [CalendarAnalysis.day_add bucket app]. rewrite (String.eqb_sym d k).
    destruct (String.eqb k d); reflexivity.
  - cbn [CalendarAnalysis.day_add].
    destruct (String.eqb_spec k' d) as [-> | Hne].
    + cbn [bucket]. destruct (String.eqb_spec d k) as [Heq | Hdk].
      * subst k. rewrite String.eqb_refl. reflexivity.
      * destruct (String.eqb_spec k d) as [Heq | _]; [congruence |].
        rewrite app_nil_r. reflexivity.
    + cbn [bucket]. destruct (String.eqb_spec k' k) as [Heq | Hk].
      * subst k. destruct (String.eqb_spec k' d) as [Heq | _]; [congruence |].
        rewrite app_nil_r. reflexivity.
      * apply IH.
Qed.

Lemma day_add_keys d e acc :
  map fst (CalendarAnalysis.day_add d e acc)
  = if existsb (String.eqb d) (map fst acc) then map fst acc else map fst acc ++ [d].
Proof.
  induction acc as [| [k l] rest IH]; [reflexivity |].
  cbn [CalendarAnalysis.day_add map fst existsb].
  rewrite (String.eqb_sym d k).
  destruct (String.eqb k d); cbn [orb map fst]; [reflexivity |].
  rewrite IH. destruct (existsb _ _); reflexivity.
Qed.

Lemma day_add_NoDup d e acc :
  NoDup (map fst acc) -> NoDup (map fst (CalendarAnalysis.day_add d e acc)).
Proof.
  intros Hnd. rewrite day_add_keys.
  destruct (existsb (String.eqb d) (map fst acc)) eqn:Hex; [exact Hnd |].
  apply NoDup_app. split; [exact Hnd |]. split.
  - intros x Hx Hd. apply list_elem_of_In in Hx. apply list_elem_of_In in Hd.
    destruct Hd as [<- | []].
    assert (existsb (String.eqb d) (map fst acc) = true) as Habs; [| congruence].
    apply existsb_exists. exists d. split; [exact Hx | apply String.eqb_refl].
  - apply NoDup_singleton.
Qed.

Lemma day_add_nonempty d e acc :
  Forall (fun kl : string * list pyval => snd kl <> []) acc ->
  Forall (fun kl : string * list pyval => snd kl <> [])
    (CalendarAnalysis.day_add d e acc).
Proof.
  induction 1 as [| [k l] rest Hl Hrest IH].
  - cbn [CalendarAnalysis.day_add]. repeat constructor. discriminate.
  - cbn [CalendarAnalysis.day_add]. destruct (String.eqb k d).
    + constructor; [| assumption]. cbn [snd]. destruct l; discriminate.
    + constructor; assumption.
Qed.

Lemma total_day_add d e acc :
  total (CalendarAnalysis.day_add d e acc) = S (total acc).
Proof.
  unfold total, list_sum.
  induction acc as [| [k l] rest IH]; [reflexivity |].
  cbn [CalendarAnalysis.day_add]. destruct (String.eqb k d).
  - cbn [map snd fold_right]. rewrite length_app. cbn [length]. lia.
  - cbn [map snd fold_right]. rewrite IH. lia.
Qed.

Lemma group_loop_spec events :
  forall acc out,
    NoDup (map fst acc) ->
    Forall (fun kl : string * list pyval => snd kl <> []) acc ->
    CalendarAnalysis.group_loop events acc = Ok out ->
    NoDup (map fst out) /\
    Forall (fun kl : string * list pyval => snd kl <> []) out /\
    (forall day, bucket out day = bucket acc day ++ List.filter (on_day day) events) /\
    total out = (total acc + length events)%nat.
Proof.
  induction events as [| e rest IH]; intros acc out Hnd Hne Hrun.
  - cbn in Hrun. injection Hrun as <-. repeat split; try assumption.
    + intros day. cbn [List.filter]. rewrite app_nil_r. reflexivity.
    + cbn [length]. lia.
  - cbn [CalendarAnalysis.group_loop] in Hrun.
    destruct (CalendarAnalysis.date_str e) as [d |] eqn:Hd; [| discriminate].
    cbn [rbind] in Hrun.
    apply IH in Hrun as (Hnd' & Hne' & Hb & Ht).
    2:{ apply day_add_NoDup, Hnd. }
    2:{ apply day_add_nonempty, Hne. }
    repeat split; try assumption.
    + intros day. rewrite Hb, bucket_day_add, <- app_assoc. f_equal.
      cbn [List.filter]. unfold on_day at 2. rewrite Hd.
      rewrite (String.eqb_sym d day). destruct (String.eqb day d); reflexivity.
    + rewrite Ht, total_day_add. cbn [length]. lia.
Qed.

(** X23: the loop that groups events by day keeps every event once: the
    days are distinct, the list of a day holds the events that start on
    it, in the order of [events], no day has an empty list, the lists
    together hold as many events as were given, and events that are not
    empty give at least one day, so that the average never divides by
    zero. *)
Theorem events_by_day_groups events events_by_day :
  CalendarAnalysis.group_by_day events = Ok events_by_day ->
  NoDup (map fst events_by_day) /\
  Forall (fun kl : string * list pyval => snd kl <> []) events_by_day /\
  (forall day, bucket events_by_day day = List.filter (on_day day) events) /\
  total events_by_day = length events /\
  (events <> [] -> events_by_day <> []).
Proof.
  intros Hrun. unfold CalendarAnalysis.group_by_day in Hrun.
  apply group_loop_spec in Hrun as (Hnd & Hne & Hb & Ht);
    [| apply NoDup_nil_2 | constructor].
  repeat split; try assumption.
  - intros Hev ->. cbn in Ht. destruct events; [congruence | discriminate].
Qed.

Lemma max_from_split items :
  forall best, exists pre post,
    best :: items = pre ++ CalendarAnalysis.max_from best items :: post /\
    Forall (fun x : string * nat =>
              (snd x < snd (CalendarAnalysis.max_from best items))%nat) pre /\
    Forall (fun x : string * nat =>
              (snd x <= snd (CalendarAnalysis.max_from best items))%nat) post.
Proof.
  induction items as [| x rest IH]; intros best.
  - exists [], []. repeat split; constructor.
  - cbn [CalendarAnalysis.max_from].
    destruct (Nat.ltb_spec (snd best) (snd x)) as [Hlt | Hge].
    + destruct (IH x) as (pre & post & Heq & Hpre & Hpost).
      exists (best :: pre), post. split; [cbn [app]; rewrite Heq; reflexivity |].
      split; [| exact Hpost].
      constructor; [| exact Hpre].
      destruct pre as [| p pre'].
      * cbn [app] in Heq. injection Heq as Hx _. rewrite <- Hx. exact Hlt.
      * cbn [app] in Heq. injection Heq as Hx _. subst p.
        apply Forall_inv in Hpre. lia.
    + destruct (IH best) as (pre & post & Heq & Hpre & Hpost).
      destruct pre as [| p pre'].
      * cbn [app] in Heq. injection Heq as Hb Hrest.
        exists [], (x :: post). split; [cbn [app]; rewrite <- Hb, Hrest; reflexivity |].
        split; [constructor |].
        constructor; [rewrite <- Hb; exact Hge | exact Hpost].
      * cbn [app] in Heq. injection Heq as Hb Hrest. subst p.
        exists (best :: x :: pre'), post.
        split; [cbn [app]; do 2 f_equal; exact Hrest |].
        split; [| exact Hpost].
        pose proof (Forall_inv Hpre) as Hbest.
        constructor; [exact Hbest |].
        constructor; [cbn beta in Hbest |- *; lia | exact (Forall_inv_tail Hpre)].
Qed.

Lemma min_from_split items :
  forall best, exists pre post,
    best :: items = pre ++ CalendarAnalysis.min_from best items :: post /\
    Forall (fun x : string * nat =>
              (snd (CalendarAnalysis.min_from best items) < snd x)%nat) pre /\
    Forall (fun x : string * nat =>
              (snd (CalendarAnalysis.min_from best items) <= snd x)%nat) post.
Proof.
  induction items as [| x rest IH]; intros best.
  - exists [], []. repeat split; constructor.
  - cbn [CalendarAnalysis.min_from].
    destruct (Nat.ltb_spec (snd x) (snd best)) as [Hlt | Hge].
    + destruct (IH x) as (pre & post & Heq & Hpre & Hpost).
      exists (best :: pre), post. split; [cbn [app]; rewrite Heq; reflexivity |].
      split; [| exact Hpost].
      constructor; [| exact Hpre].
      destruct pre as [| p pre'].
      * cbn [app] in Heq. injection Heq as Hx _. rewrite <- Hx. exact Hlt.
      * cbn [app] in Heq. injection Heq as Hx _. subst p.
        apply Forall_inv in Hpre. lia.
    + destruct (IH best) as (pre & post & Heq & Hpre & Hpost).
      destruct pre as [| p pre'].
      * cbn [app] in Heq. injection Heq as Hb Hrest.
        exists [], (x :: post). split; [cbn [app]; rewrite <- Hb, Hrest; reflexivity |].
        split; [constructor |].
        constructor; [rewrite <- Hb; exact Hge | exact Hpost].
      * cbn [app] in Heq. injection Heq as Hb Hrest. subst p.
        exists (best :: x :: pre'), post.
        split; [cbn [app]; do 2 f_equal; exact Hrest |].
        split; [| exact Hpost].
        pose proof (Forall_inv Hpre) as Hbest.
        constructor; [exact Hbest |].
        constructor; [cbn beta in Hbest |- *; lia | exact (Forall_inv_tail Hpre)].
Qed.

(** X24: of the days that were found, the busiest is the first one with
    the largest number of events and the lightest the first one with the
    smallest: every earlier day has strictly fewer (more) events, no
    later day has more (fewer). *)
Theorem busiest_and_lightest_day day_counts :
  day_counts <> [] ->
  (exists pre post,
      day_counts = pre ++ CalendarAnalysis.busiest_day day_counts :: post /\
      Forall (fun x : string * nat =>
                (snd x < snd (CalendarAnalysis.busiest_day day_counts))%nat) pre /\
      Forall (fun x : string * nat =>
                (snd x <= snd (CalendarAnalysis.busiest_day day_counts))%nat) post) /\
  (exists pre post,
      day_counts = pre ++ CalendarAnalysis.lightest_day day_counts :: post /\
      Forall (fun x : string * nat =>
                (snd (CalendarAnalysis.lightest_day day_counts) < snd x)%nat) pre /\
      Forall (fun x : string * nat =>
                (snd (CalendarAnalysis.lightest_day day_counts) <= snd x)%nat) post).
Proof.
  destruct day_counts as [| x rest]; [congruence |]. intros _.
  split; [apply max_from_split | apply min_from_split].
Qed.

Lemma ends_with_app suffix a b :
  ends_with suffix b = true -> ends_with suffix (a +:+ b) = true.
Proof.
  intros Hb. induction a as [| c a IH]; [exact Hb |].
  change (String c a +:+ b) with (String c (a +:+ b)).
  cbn [ends_with]. rewrite IH. apply orb_true_r.
Qed.

Section AnalysisFacts.

Variable lower : string -> string.
Variable capitalize : string -> string.
Variable show_int : Z -> string.
Variable show_ratio : nat -> nat -> string.
Variable show_percent : nat -> nat -> string.
Variable exceeds_70_percent : nat -> nat -> bool.

Let analyze_events :=
  CalendarAnalysis.analyze_events lower capitalize show_int show_ratio show_percent
    exceeds_70_percent.

Lemma advice_before_last_test n_events category_counts busiest :
  exists text,
    CalendarAnalysis.advice show_int exceeds_70_percent n_events category_counts busiest
    = (if negb (ends_with nl text)
       then text +:+ "- Your calendar appears to be well-balanced across different categories of activities."
       else text) /\
    ends_with nl text = true.
Proof.
  unfold CalendarAnalysis.advice.
  destruct (length category_counts <=? 2)%nat, (5 <? snd busiest)%nat,
    (exceeds_70_percent _ n_events), (Nat.eqb _ 0);
    (eexists; split; [reflexivity |]);
    repeat (first [reflexivity | apply ends_with_app]).
Qed.

(** X25: the advice of [analyze_events] for events that are not empty
    always ends with a line feed, whatever was found: the header and
    every suggestion end with one, so the test that follows them never
    adds the sentence on a well-balanced calendar. *)
Theorem recommendations_end_with_line_feed events days_back result :
  events <> [] ->
  analyze_events events days_back = Ok result ->
  exists summary_text analysis_text recommendations,
    result = [("summary", summary_text); ("analysis", analysis_text);
              ("recommendations", recommendations)] /\
    ends_with nl recommendations = true.
Proof.
  intros Hev Hrun. unfold analyze_events, CalendarAnalysis.analyze_events in Hrun.
  destruct events as [| e rest]; [congruence |].
  destruct (CalendarAnalysis.categorize_events lower (e :: rest)) as [categories |];
    [| discriminate].
  cbn [rbind] in Hrun.
  destruct (CalendarAnalysis.group_by_day (e :: rest)) as [events_by_day |];
    [| discriminate].
  cbn [rbind] in Hrun. cbv zeta in Hrun. injection Hrun as <-.
  do 3 eexists. split; [reflexivity |].
  destruct (advice_before_last_test (S (length rest))
              (CalendarAnalysis.category_counts_of categories)
              (CalendarAnalysis.busiest_day (CalendarAnalysis.counts events_by_day)))
    as (text & -> & Hnl).
  rewrite Hnl. exact Hnl.
Qed.

(** X22: one event that cannot be categorized loses the whole answer:
    when the events before it can be categorized, [categorize_events]
    and with it [analyze_events] raise what that event raised, and the
    events after it are not looked at. *)
Theorem uncategorizable_event_fails_analysis good bad rest e days_back :
  Forall (fun ev => is_ok (CalendarAnalysis.category_of lower ev) = true) good ->
  CalendarAnalysis.category_of lower bad = Raise e ->
  CalendarAnalysis.categorize_events lower (good ++ bad :: rest) = Raise e /\
  analyze_events (good ++ bad :: rest) days_back = Raise e.
Proof.
  intros Hgood Hbad.
  assert (CalendarAnalysis.categorize_events lower (good ++ bad :: rest) = Raise e) as Hc.
  { apply categorize_loop_first_failure; assumption. }
  split; [exact Hc |].
  unfold analyze_events, CalendarAnalysis.analyze_events.
  destruct (good ++ bad :: rest) as [| x xs] eqn:Hl.
  - destruct good; discriminate.
  - rewrite Hc. reflexivity.
Qed.

End AnalysisFacts.

Lemma categorize_events_partition_witness :
  map fst AnalysisExamples.sorted_week = CalendarAnalysis.CATEGORIES /\
  (forall c, bucket AnalysisExamples.sorted_week c
             = List.filter (in_category AnalysisExamples.as_is c) AnalysisExamples.week) /\
  total AnalysisExamples.sorted_week = length AnalysisExamples.week.
Proof.
  apply (categorize_events_partition AnalysisExamples.as_is AnalysisExamples.week
           AnalysisExamples.sorted_week).
  vm_compute. reflexivity.
Defined.

Lemma first_keyword_table_decides_witness :
  CalendarAnalysis.category_of AnalysisExamples.as_is (PDict AnalysisExamples.lunch_meeting)
  = Ok "meeting".
Proof.
  apply (first_keyword_table_decides AnalysisExamples.as_is
           AnalysisExamples.lunch_meeting "lunch meeting" EmptyString EmptyString
           [("work", ["work"; "project"; "deadline"; "report"; "task"; "review"; "client"])]
           "meeting"
           ["meeting"; "call"; "conference"; "sync"; "discussion"; "interview"; "1:1"; "1on1"]
           (skipn 2 CalendarAnalysis.keywords)
           "meeting").
  - reflexivity.
  - reflexivity.
  - reflexivity.
  - reflexivity.
  - vm_compute. reflexivity.
  - apply in_eq.
  - vm_compute. reflexivity.
Defined.

Lemma unmatched_event_witness :
  CalendarAnalysis.category_of AnalysisExamples.as_is (PDict AnalysisExamples.visit)
  = Ok "personal".
Proof.
  apply (unmatched_event_personal_or_other AnalysisExamples.as_is
           AnalysisExamples.visit "visit bob" EmptyString EmptyString
           ["bob@example.com"]).
  - reflexivity.
  - reflexivity.
  - reflexivity.
  - vm_compute. reflexivity.
  - reflexivity.
Defined.

Lemma uncategorizable_event_witness :
  CalendarAnalysis.categorize_events AnalysisExamples.as_is
    ([PDict AnalysisExamples.team_meeting]
     ++ PDict AnalysisExamples.no_address :: [PDict AnalysisExamples.nap])
  = Raise (Exn AttributeError "'NoneType' object has no attribute 'split'") /\
  AnalysisExamples.analyze_events
    ([PDict AnalysisExamples.team_meeting]
     ++ PDict AnalysisExamples.no_address :: [PDict AnalysisExamples.nap]) 7
  = Raise (Exn AttributeError "'NoneType' object has no attribute 'split'").
Proof.
  apply (uncategorizable_event_fails_analysis AnalysisExamples.as_is AnalysisExamples.as_is
           AnalysisExamples.no_text AnalysisExamples.no_quotient
           AnalysisExamples.no_quotient AnalysisExamples.exceeds_exactly
           [PDict AnalysisExamples.team_meeting] (PDict AnalysisExamples.no_address)
           [PDict AnalysisExamples.nap]).
  - constructor; [vm_compute; reflexivity | constructor].
  - vm_compute. reflexivity.
Defined.

Lemma events_by_day_groups_witness :
  NoDup (map fst AnalysisExamples.week_by_day) /\
  Forall (fun kl : string * list pyval => snd kl <> []) AnalysisExamples.week_by_day /\
  (forall day, bucket AnalysisExamples.week_by_day day
               = List.filter (on_day day) AnalysisExamples.week) /\
  total AnalysisExamples.week_by_day = length AnalysisExamples.week /\
  (AnalysisExamples.week <> [] -> AnalysisExamples.week_by_day <> []).
Proof.
  apply (events_by_day_groups AnalysisExamples.week AnalysisExamples.week_by_day).
  vm_compute. reflexivity.
Defined.

Lemma busiest_and_lightest_day_witness :
  exists pre post,
    [("d1", 1%nat); ("d2", 2%nat); ("d3", 2%nat); ("d4", 1%nat)]
    = pre ++ ("d2", 2%nat) :: post /\
    Forall (fun x : string * nat => (snd x < 2)%nat) pre /\
    Forall (fun x : string * nat => (snd x <= 2)%nat) post.
Proof.
  apply (busiest_and_lightest_day
           [("d1", 1%nat); ("d2", 2%nat); ("d3", 2%nat); ("d4", 1%nat)]).
  discriminate.
Defined.

Lemma recommendations_witness :
  exists result,
    AnalysisExamples.analyze_events AnalysisExamples.week 7 = Ok result /\
    exists summary_text analysis_text recommendations,
      result = [("summary", summary_text); ("analysis", analysis_text);
                ("recommendations", recommendations)] /\
      ends_with nl recommendations = true.
Proof.
  eexists. split.
  - vm_compute. reflexivity.
  - apply (recommendations_end_with_line_feed AnalysisExamples.as_is AnalysisExamples.as_is
             AnalysisExamples.no_text AnalysisExamples.no_quotient
             AnalysisExamples.no_quotient AnalysisExamples.exceeds_exactly
             AnalysisExamples.week 7).
    + discriminate.
    + vm_compute. reflexivity.
Defined.

(* ===================================================================== *)
(** ** Sample runs of the analysis                                       *)
(* ===================================================================== *)

Example categorize_week :
  CalendarAnalysis.categorize_events AnalysisExamples.as_is AnalysisExamples.week
  = Ok AnalysisExamples.sorted_week.
Proof. vm_compute. reflexivity. Qed.

Example group_week :
  CalendarAnalysis.group_by_day AnalysisExamples.week = Ok AnalysisExamples.week_by_day.
Proof. vm_compute. reflexivity. Qed.

Example sorted_desc_keeps_ties :
  CalendarAnalysis.sorted_desc
    [("a", 1%nat); ("b", 2%nat); ("c", 1%nat); ("d", 2%nat)]
  = [("b", 2%nat); ("d", 2%nat); ("a", 1%nat); ("c", 1%nat)].
Proof. reflexivity. Qed.

Example lightest_of_ties :
  CalendarAnalysis.lightest_day
    [("d1", 1%nat); ("d2", 2%nat); ("d3", 2%nat); ("d4", 1%nat)] = ("d1", 1%nat).
Proof. reflexivity. Qed.

Example start_that_is_a_list :
  CalendarAnalysis.date_str (PDict [("start", PList [PStr "T"])])
  = Raise (Exn AttributeError "'list' object has no attribute 'split'") /\
  CalendarAnalysis.date_str (PDict [("start", PList [PStr "U"])])
  = Raise (Exn TypeError "unhashable type: 'list'").
Proof. split; reflexivity. Qed.

Example text_tests :
  str_contains "T" "2024-03-04T10:00" = true /\
  str_contains EmptyString "nap" = true /\
  str_contains "ab" "a" = false /\
  before_first "@" "bob@example.com" = "bob" /\
  before_first "@" "bob" = "bob" /\
  ends_with nl ("a" +:+ nl) = true /\
  ends_with nl "activities." = false /\
  ends_with EmptyString "a" = true.
Proof. repeat split; reflexivity. Qed.
